(** * Clothing-store catalogue backend: a shallow embedding of [main.py] and
    [schemas.py], and the properties of its serialisation, filtering,
    validation and seeding code.

    Conventions.
    - A Python [str] is a Rocq [string] holding its UTF-8 encoding; [chars]
      recovers the sequence of characters where the code iterates over text.
    - A Python [dict] is an insertion-ordered association list.
    - A Python [float] is an IEEE-754 binary64 number ([spec_float] with
      precision 53 and maximal exponent 1024).
    - Handlers run in a state-and-exception monad over the process-wide
      [db] handle; every call made to the document store is logged. *)

From Stdlib Require Import ZArith String Ascii List Bool Lia DecimalString.
From Stdlib Require Import Floats.SpecFloat.
Import ListNotations.

Set Warnings "-register-all".

Open Scope string_scope.
Open Scope Z_scope.

(** ** Values *)

Definition float : Type := spec_float.

(** [float(n)] for an integer [n]: the nearest binary64 number, ties to even. *)
Definition float_of_Z (n : Z) : float := binary_normalize 53 1024 n 0 false.

Definition zero : float := S754_zero false.

(** The values found in a stored document, a JSON body or a query filter. *)
Inductive value : Type :=
| VNone
| VBool (b : bool)
| VInt (n : Z)
| VFloat (x : float)
| VStr (s : string)
| VObjectId (hex : string)
| VList (xs : list value)
| VDict (kvs : list (string * value)).

Definition pydict : Type := list (string * value).

(** ** Exceptions and results *)

Inductive exn : Type :=
| TypeError
| ValueError
| OverflowError
| ValidationError (fields : list string)
| RequestValidationError (fields : list string)
| HTTPException (status_code : Z) (detail : string)
| InvalidId
| OperationFailure
| DuplicateKeyError
| StorageUnavailable.

Inductive result (A : Type) : Type :=
| Ok (a : A)
| Raise (e : exn).

Arguments Ok {A} a.
Arguments Raise {A} e.

Definition rbind {A B} (r : result A) (k : A -> result B) : result B :=
  match r with
  | Ok a => k a
  | Raise e => Raise e
  end.

Declare Scope result_scope.
Delimit Scope result_scope with result.
Notation "x <- r ;; k" := (rbind r (fun x => k))
  (at level 100, r at next level, right associativity) : result_scope.

Fixpoint rmap {A B} (f : A -> result B) (xs : list A) : result (list B) :=
  match xs with
  | [] => Ok []
  | x :: xs' => (y <- f x ;; ys <- rmap f xs' ;; Ok (y :: ys))%result
  end.

(** The status a raised exception reaches the client with: an [HTTPException]
    carries its own, a rejected request parameter or body is a 422, anything
    else escaping a handler is a 500. *)
Definition status_of (e : exn) : Z :=
  match e with
  | HTTPException c _ => c
  | RequestValidationError _ => 422
  | _ => 500
  end.

(** ** What the embedding leaves to the libraries

    The text-to-float parser of [float()], the [repr] of floats and
    containers, pydantic's lax-mode conversions of a value that does not
    already have the declared type (they differ between pydantic versions),
    the URL grammar of [HttpUrl], and the regular-expression engine of the
    store on patterns beyond the fragment modelled below ([pcre_search
    pattern options text], [None] for a pattern it refuses) are taken as
    given; so is which characters of more than one byte, beyond the two
    that Unicode folds to an ASCII letter, the engine's caseless comparison
    equates with an ASCII character of a pattern ([caseless c ch]). *)
Class Runtime : Type := {
  float_of_text : string -> option float;
  repr : value -> string;
  lax_str : value -> option string;
  lax_float : value -> option float;
  lax_bool : value -> option bool;
  http_url : string -> option string;
  pcre_search : string -> string -> string -> option bool;
  caseless : ascii -> string -> bool
}.

(** ** Text *)

(** A UTF-8 continuation byte, [10xxxxxx]. *)
Definition is_continuation (c : ascii) : bool :=
  let n := N_of_ascii c in ((128 <=? n) && (n <? 192))%N.

(** [split_chars s] is the run of continuation bytes [s] starts with, and
    the characters after it. *)
Fixpoint split_chars (s : string) : string * list string :=
  match s with
  | EmptyString => (EmptyString, [])
  | String c s' =>
      let (k, l) := split_chars s' in
      if is_continuation c then (String c k, l)
      else (EmptyString, String c k :: l)
  end.

(** The characters of a text, as iterating over a [str] yields them. *)
Definition chars (s : string) : list string := snd (split_chars s).

(** ** Dictionaries *)

Fixpoint lookup {V} (d : list (string * V)) (k : string) : option V :=
  match d with
  | [] => None
  | (k', v) :: d' => if String.eqb k' k then Some v else lookup d' k
  end.

(** [d.get(k, default)] *)
Definition get (d : pydict) (k : string) (default : value) : value :=
  match lookup d k with
  | Some v => v
  | None => default
  end.

(** [d[k] = v] *)
Fixpoint setitem {V} (d : list (string * V)) (k : string) (v : V)
  : list (string * V) :=
  match d with
  | [] => [(k, v)]
  | (k', v') :: d' =>
      if String.eqb k' k then (k', v) :: d' else (k', v') :: setitem d' k v
  end.

(** ** Built-in conversions *)

Section Builtins.
Context {R : Runtime}.

(** [str(v)] *)
Definition py_str (v : value) : string :=
  match v with
  | VStr s => s
  | VNone => "None"
  | VBool true => "True"
  | VBool false => "False"
  | VInt n => NilZero.string_of_int (Z.to_int n)
  | VObjectId hex => hex
  | VFloat _ | VList _ | VDict _ => repr v
  end.

(** [float(v)] *)
Definition py_float (v : value) : result float :=
  match v with
  | VFloat x => Ok x
  | VInt n =>
      match float_of_Z n with
      | S754_infinity _ => Raise OverflowError
      | x => Ok x
      end
  | VBool b => Ok (float_of_Z (if b then 1 else 0))
  | VStr s =>
      match float_of_text s with
      | Some x => Ok x
      | None => Raise ValueError
      end
  | VNone | VObjectId _ | VList _ | VDict _ => Raise TypeError
  end.

(** [bool(v)] *)
Definition py_bool (v : value) : bool :=
  match v with
  | VNone => false
  | VBool b => b
  | VInt n => negb (n =? 0)
  | VFloat (S754_zero _) => false
  | VFloat _ => true
  | VStr s => negb (String.eqb s "")
  | VObjectId _ => true
  | VList xs => match xs with [] => false | _ => true end
  | VDict kvs => match kvs with [] => false | _ => true end
  end.

(** [for x in v]: the elements of a list, the characters of a text, the
    keys of a dictionary; nothing else is iterable. *)
Definition py_iter (v : value) : result (list value) :=
  match v with
  | VList xs => Ok xs
  | VStr s => Ok (map VStr (chars s))
  | VDict kvs => Ok (map (fun kv => VStr (fst kv)) kvs)
  | VNone | VBool _ | VInt _ | VFloat _ | VObjectId _ => Raise TypeError
  end.

(** [[str(x) for x in v]] *)
Definition str_each (v : value) : result (list string) :=
  (xs <- py_iter v ;; Ok (map py_str xs))%result.

(** ** Pydantic field validation *)

(** A [str] field. *)
Definition validate_str (v : value) : option string :=
  match v with
  | VStr s => Some s
  | VNone => None
  | _ => lax_str v
  end.

(** A [float] field. *)
Definition validate_float (v : value) : option float :=
  match v with
  | VFloat x => Some x
  | VInt n =>
      match float_of_Z n with
      | S754_infinity _ => None
      | x => Some x
      end
  | VNone | VList _ | VDict _ => None
  | _ => lax_float v
  end.

(** A [bool] field. *)
Definition validate_bool (v : value) : option bool :=
  match v with
  | VBool b => Some b
  | VNone | VList _ | VDict _ => None
  | _ => lax_bool v
  end.

(** An [HttpUrl] field. *)
Definition validate_url (v : value) : option string :=
  match v with
  | VStr s => http_url s
  | _ => None
  end.

(** [Optional[T]] *)
Definition validate_optional {A} (f : value -> option A) (v : value)
  : option (option A) :=
  match v with
  | VNone => Some None
  | _ => option_map Some (f v)
  end.

Fixpoint validate_all {A} (f : value -> option A) (xs : list value)
  : option (list A) :=
  match xs with
  | [] => Some []
  | x :: xs' =>
      match f x, validate_all f xs' with
      | Some y, Some ys => Some (y :: ys)
      | _, _ => None
      end
  end.

(** [List[T]] *)
Definition validate_list {A} (f : value -> option A) (v : value)
  : option (list A) :=
  match v with
  | VList xs => validate_all f xs
  | _ => None
  end.

(** [ge=bound] on a float field. *)
Definition ge (bound : Z) (x : float) : bool := SFleb (float_of_Z bound) x.

(** The name of a field whose validation failed. *)
Definition failed {A} (name : string) (o : option A) : list string :=
  match o with
  | Some _ => []
  | None => [name]
  end.

End Builtins.

(** ** Output models ([main.py], lines 11-32) *)

Module ProductOut.

Record t : Type := {
  id : string;
  title : string;
  description : option string;
  price : float;
  category : string;
  images : list string;
  sizes : list string;
  in_stock : bool;
  is_trending : bool;
  is_new : bool;
  is_best_seller : bool;
  season : option string;
  on_sale : bool;
  sale_price : option float
}.

(** [ProductOut(id=..., title=..., ...)]: the arguments that
    [serialize_product] has already converted have their declared type; the
    four it passes on as read are validated, and the fields that fail are
    reported together. *)
Definition init {R : Runtime} (id : string) (title description : value)
  (price : float) (category : value) (images sizes : list string)
  (in_stock is_trending is_new is_best_seller : bool) (season : value)
  (on_sale : bool) (sale_price : option float) : result t :=
  match validate_str title, validate_optional validate_str description,
        validate_str category, validate_optional validate_str season with
  | Some title', Some description', Some category', Some season' =>
      Ok {| id := id; title := title'; description := description';
            price := price; category := category'; images := images;
            sizes := sizes; in_stock := in_stock; is_trending := is_trending;
            is_new := is_new; is_best_seller := is_best_seller;
            season := season'; on_sale := on_sale; sale_price := sale_price |}
  | title', description', category', season' =>
      Raise (ValidationError
               (failed "title" title' ++ failed "description" description' ++
                failed "category" category' ++ failed "season" season'))
  end.

End ProductOut.

Module BannerOut.

Record t : Type := {
  id : string;
  title : string;
  subtitle : option string;
  image : option string;
  slug : string
}.

(** [BannerOut(id=..., title=..., subtitle=..., image=..., slug=...)] *)
Definition init {R : Runtime} (id : string) (title subtitle image slug : value)
  : result t :=
  match validate_str title, validate_optional validate_str subtitle,
        validate_optional validate_str image, validate_str slug with
  | Some title', Some subtitle', Some image', Some slug' =>
      Ok {| id := id; title := title'; subtitle := subtitle';
            image := image'; slug := slug' |}
  | title', subtitle', image', slug' =>
      Raise (ValidationError
               (failed "title" title' ++ failed "subtitle" subtitle' ++
                failed "image" image' ++ failed "slug" slug'))
  end.

End BannerOut.

(** ** Serialisation ([main.py], lines 44-69) *)

Section Serialization.
Context {R : Runtime}.

Definition is_None (v : value) : bool :=
  match v with
  | VNone => true
  | _ => false
  end.

(** Keyword arguments are evaluated in the order written, so the first
    conversion that raises decides the exception; the model is validated
    once all of them have been computed. *)
Definition serialize_product (doc : pydict) : result ProductOut.t :=
  (let id := py_str (get doc "_id" VNone) in
   let title := get doc "title" VNone in
   let description := get doc "description" VNone in
   price <- py_float (get doc "price" (VInt 0)) ;;
   let category := get doc "category" VNone in
   images <- str_each (get doc "images" (VList [])) ;;
   sizes <- str_each (get doc "sizes" (VList [])) ;;
   let in_stock := py_bool (get doc "in_stock" (VBool true)) in
   let is_trending := py_bool (get doc "is_trending" (VBool false)) in
   let is_new := py_bool (get doc "is_new" (VBool false)) in
   let is_best_seller := py_bool (get doc "is_best_seller" (VBool false)) in
   let season := get doc "season" VNone in
   let on_sale := py_bool (get doc "on_sale" (VBool false)) in
   sale_price <-
     (if negb (is_None (get doc "sale_price" VNone))
      then (x <- py_float (get doc "sale_price" VNone) ;; Ok (Some x))
      else Ok None) ;;
   ProductOut.init id title description price category images sizes in_stock
     is_trending is_new is_best_seller season on_sale sale_price)%result.

Definition serialize_banner (doc : pydict) : result BannerOut.t :=
  BannerOut.init (py_str (get doc "_id" VNone)) (get doc "title" VNone)
    (get doc "subtitle" VNone) (get doc "image" VNone) (get doc "slug" VNone).

End Serialization.


(** ** Regular expressions

    The store searches a text for a pattern. The fragment modelled is the
    patterns made of ASCII characters that stand for themselves and of the
    dot, searched with the option ["i"]. *)

Inductive atom : Type :=
| Lit (c : ascii)
| AnyChar.

Definition is_meta (c : ascii) : bool :=
  existsb (Ascii.eqb c) (list_ascii_of_string "\^$.|?*+()[]{}").

Definition is_ascii (c : ascii) : bool := (N_of_ascii c <? 128)%N.

Fixpoint compile (pattern : string) : option (list atom) :=
  match pattern with
  | EmptyString => Some []
  | String c pattern' =>
      if Ascii.eqb c "." then option_map (cons AnyChar) (compile pattern')
      else if is_meta c || negb (is_ascii c) then None
      else option_map (cons (Lit c)) (compile pattern')
  end.

(** ASCII case folding. *)
Definition lower (c : ascii) : ascii :=
  let n := N_of_ascii c in
  if ((65 <=? n) && (n <=? 90))%N then ascii_of_N (n + 32) else c.

Definition newline : string := String (ascii_of_N 10) EmptyString.

(** The characters of more than one byte that Unicode's simple case
    folding maps to an ASCII letter: the Kelvin sign U+212A, to [k], and
    the long s U+017F, to [s]. *)
Definition kelvin_sign : string :=
  String (ascii_of_N 226) (String (ascii_of_N 132)
    (String (ascii_of_N 170) EmptyString)).

Definition long_s : string :=
  String (ascii_of_N 197) (String (ascii_of_N 191) EmptyString).

Definition folds_to (c : ascii) (ch : string) : bool :=
  (Ascii.eqb (lower c) "k" && String.eqb ch kelvin_sign) ||
  (Ascii.eqb (lower c) "s" && String.eqb ch long_s).

Section Matching.
Context {R : Runtime}.

(** A literal matches the one-byte character equal to it up to the case of
    ASCII letters and, the search being caseless, the character of more
    than one byte that Unicode folds to it; whether it matches another
    character of more than one byte is the engine's matter. The dot matches
    any character but a line feed. *)
Definition atom_matches (a : atom) (ch : string) : bool :=
  match a with
  | Lit c =>
      match ch with
      | String d EmptyString => Ascii.eqb (lower c) (lower d)
      | _ => folds_to c ch || caseless c ch
      end
  | AnyChar => negb (String.eqb ch newline)
  end.

Fixpoint matches_at (atoms : list atom) (text : list string) : bool :=
  match atoms, text with
  | [], _ => true
  | a :: atoms', ch :: text' => atom_matches a ch && matches_at atoms' text'
  | _ :: _, [] => false
  end.

(** Unanchored search: a match may start at any character. *)
Fixpoint search (atoms : list atom) (text : list string) : bool :=
  matches_at atoms text ||
  match text with
  | [] => false
  | _ :: text' => search atoms text'
  end.

End Matching.

Definition regex_search {R : Runtime} (pattern options text : string)
  : option bool :=
  match compile pattern with
  | Some atoms =>
      if String.eqb options "i" then Some (search atoms (chars text))
      else pcre_search pattern options text
  | None => pcre_search pattern options text
  end.

(** ** Query filters *)

Fixpoint value_eqb (a b : value) : bool :=
  match a, b with
  | VNone, VNone => true
  | VBool x, VBool y => Bool.eqb x y
  | VInt x, VInt y => x =? y
  | VFloat x, VFloat y => SFeqb x y
  | VStr x, VStr y => String.eqb x y
  | VObjectId x, VObjectId y => String.eqb x y
  | VList xs, VList ys =>
      (fix all2 (xs ys : list value) : bool :=
         match xs, ys with
         | [], [] => true
         | x :: xs', y :: ys' => value_eqb x y && all2 xs' ys'
         | _, _ => false
         end) xs ys
  | VDict xs, VDict ys =>
      (fix all2 (xs ys : list (string * value)) : bool :=
         match xs, ys with
         | [], [] => true
         | (k, x) :: xs', (k', y) :: ys' =>
             String.eqb k k' && value_eqb x y && all2 xs' ys'
         | _, _ => false
         end) xs ys
  | _, _ => false
  end.

(** Equality against a field: the field holds the value, or is an array
    one of whose elements is the value. *)
Definition equal_match (cond fv : value) : bool :=
  value_eqb fv cond ||
  match fv with
  | VList xs => existsb (fun x => value_eqb x cond) xs
  | _ => false
  end.

Section Filters.
Context {R : Runtime}.

(** Some element of the list is a text the pattern is found in. *)
Fixpoint regex_any (pattern options : string) (xs : list value)
  : option bool :=
  match xs with
  | [] => Some false
  | VStr t :: xs' =>
      match regex_search pattern options t, regex_any pattern options xs' with
      | Some b, Some b' => Some (b || b')
      | _, _ => None
      end
  | _ :: xs' => regex_any pattern options xs'
  end.

(** A field holding [fv] against the condition [cond] of a filter: a
    dictionary with a ["$regex"] key is a pattern to search the field's text
    for, any other value is compared for equality. *)
Definition value_matches (cond fv : value) : option bool :=
  match cond with
  | VDict kvs =>
      match lookup kvs "$regex" with
      | Some (VStr pattern) =>
          let options :=
            match lookup kvs "$options" with
            | Some (VStr o) => o
            | _ => EmptyString
            end in
          match fv with
          | VStr t => regex_search pattern options t
          | VList xs => regex_any pattern options xs
          | _ => Some false
          end
      | _ => Some (equal_match cond fv)
      end
  | _ => Some (equal_match cond fv)
  end.

Definition field_matches (cond : value) (field : option value) : option bool :=
  match field with
  | Some fv => value_matches cond fv
  | None => Some (is_None cond)
  end.

(** The conditions of a filter are conjoined. [None]: the store refuses
    the query. *)
Fixpoint doc_matches (filt doc : pydict) : option bool :=
  match filt with
  | [] => Some true
  | (k, cond) :: filt' =>
      match field_matches cond (lookup doc k), doc_matches filt' doc with
      | Some b, Some b' => Some (b && b')
      | _, _ => None
      end
  end.

Fixpoint select (filt : pydict) (docs : list pydict) : result (list pydict) :=
  match docs with
  | [] => Ok []
  | doc :: docs' =>
      match doc_matches filt doc with
      | Some b =>
          (rest <- select filt docs' ;;
           Ok (if b then doc :: rest else rest))%result
      | None => Raise OperationFailure
      end
  end.

End Filters.

(** [cursor.limit(n)]: no limit when [n] is 0. *)
Definition cursor_limit (n : Z) (docs : list pydict) : list pydict :=
  if n =? 0 then docs else firstn (Z.to_nat (Z.abs n)) docs.

(** ** Object identifiers *)

Definition is_hex (c : ascii) : bool :=
  let n := N_of_ascii c in
  (((48 <=? n) && (n <=? 57)) || ((65 <=? n) && (n <=? 70)) ||
   ((97 <=? n) && (n <=? 102)))%N.

Definition is_space (c : ascii) : bool :=
  let n := N_of_ascii c in ((n =? 32) || ((9 <=? n) && (n <=? 13)))%N.

(** [bytes.fromhex(s)], the bytes written in lower-case hexadecimal: pairs
    of digits, white space allowed between pairs. *)
Fixpoint fromhex (s : string) : option string :=
  match s with
  | EmptyString => Some EmptyString
  | String c s' =>
      if is_space c then fromhex s'
      else
        match s' with
        | String d s'' =>
            if is_hex c && is_hex d
            then option_map (fun h => String (lower c) (String (lower d) h))
                   (fromhex s'')
            else None
        | EmptyString => None
        end
  end.

(** [ObjectId(oid)] for a text [oid]; the identifier is kept as the
    hexadecimal text [str] renders it with. *)
Definition ObjectId (oid : string) : result value :=
  if (List.length (chars oid) =? 24)%nat then
    match fromhex oid with
    | Some hex => Ok (VObjectId hex)
    | None => Raise InvalidId
    end
  else Raise InvalidId.

Definition hex_digit (n : N) : ascii :=
  if (n <? 10)%N then ascii_of_N (48 + n) else ascii_of_N (87 + n).

Fixpoint hex_fixed (width : nat) (n : N) : string :=
  match width with
  | O => EmptyString
  | S width' =>
      hex_fixed width' (n / 16) ++ String (hex_digit (n mod 16)) EmptyString
  end.

(** ** The document store and the handlers' monad *)

(** The database: its collections by name, and the supply that fresh
    identifiers are drawn from ([ObjectId()] is abstracted to a counter). *)
Record database : Type := {
  collections : list (string * list pydict);
  oid_counter : N
}.

(** [db[name]] *)
Definition collection (d : database) (name : string) : list pydict :=
  match lookup (collections d) name with
  | Some docs => docs
  | None => []
  end.

(** The calls made to the store. *)
Inductive call : Type :=
| CountDocuments (name : string) (filt : pydict)
| InsertOne (name : string) (doc : pydict)
| Find (name : string) (filt : pydict) (limit : Z)
| FindOne (name : string) (filt : pydict).

(** [db] is the module-level handle, [None] when no connection was made. *)
Record world : Type := {
  db : option database;
  calls : list call
}.

Definition M (A : Type) : Type := world -> result A * world.

Definition ret {A} (a : A) : M A := fun w => (Ok a, w).

Definition raise {A} (e : exn) : M A := fun w => (Raise e, w).

Definition bind {A B} (m : M A) (k : A -> M B) : M B :=
  fun w =>
    match m w with
    | (Ok a, w') => k a w'
    | (Raise e, w') => (Raise e, w')
    end.

Definition lift {A} (r : result A) : M A := fun w => (r, w).

(** [try: m  except Exception: handler] *)
Definition try_except {A} (m : M A) (handler : M A) : M A :=
  fun w =>
    match m w with
    | (Ok a, w') => (Ok a, w')
    | (Raise _, w') => handler w'
    end.

Declare Scope M_scope.
Delimit Scope M_scope with M.
Notation "x <- m ;; k" := (bind m (fun x => k))
  (at level 100, m at next level, right associativity) : M_scope.

(** [db is None] *)
Definition db_is_None : M bool :=
  fun w =>
    (Ok match db w with
        | None => true
        | Some _ => false
        end, w).

(** A method call on a collection of [db]: logged, and a [TypeError] when
    [db] is [None]. *)
Definition on_db {A} (c : call) (f : database -> result A * database) : M A :=
  fun w =>
    match db w with
    | None => (Raise TypeError, w)
    | Some d =>
        let (r, d') := f d in
        (r, {| db := Some d'; calls := (calls w ++ [c])%list |})
    end.

Section Store.
Context {R : Runtime}.

(** [db[name].count_documents(filt)] *)
Definition count_documents (name : string) (filt : pydict) : M Z :=
  on_db (CountDocuments name filt) (fun d =>
    ((docs <- select filt (collection d name) ;;
      Ok (Z.of_nat (List.length docs)))%result, d)).

(** [db[name].find(filt).limit(limit)], iterated. *)
Definition find (name : string) (filt : pydict) (limit : Z)
  : M (list pydict) :=
  on_db (Find name filt limit) (fun d =>
    ((docs <- select filt (collection d name) ;;
      Ok (cursor_limit limit docs))%result, d)).

(** [db[name].find_one(filt)] *)
Definition find_one (name : string) (filt : pydict) : M (option pydict) :=
  on_db (FindOne name filt) (fun d =>
    ((docs <- select filt (collection d name) ;; Ok (hd_error docs))%result,
     d)).

End Store.

(** The document is the one a query for the identifier [oid] finds. *)
Definition has_id (oid : value) (doc : pydict) : bool :=
  match lookup doc "_id" with
  | Some fv => equal_match oid fv
  | None => false
  end.

(** [db[name].insert_one(doc)]: a document without an ["_id"] is given a
    fresh one; the identifier of the stored document is returned. *)
Definition insert_one (name : string) (doc : pydict) : M value :=
  on_db (InsertOne name doc) (fun d =>
    match lookup doc "_id" with
    | Some oid =>
        if existsb (has_id oid) (collection d name)
        then (Raise DuplicateKeyError, d)
        else
          (Ok oid,
           {| collections :=
                setitem (collections d) name (collection d name ++ [doc])%list;
              oid_counter := oid_counter d |})
    | None =>
        let oid := VObjectId (hex_fixed 24 (oid_counter d)) in
        (Ok oid,
         {| collections :=
              setitem (collections d) name
                (collection d name ++ [("_id", oid) :: doc])%list;
            oid_counter := (oid_counter d + 1)%N |})
    end).

(** [for x in xs: body], the loop's variables threaded as [s]. *)
Fixpoint for_each {A S} (xs : list A) (body : A -> S -> M S) (s : S) : M S :=
  match xs with
  | [] => ret s
  | x :: xs' => (s' <- body x s ;; for_each xs' body s')%M
  end.

(** An optional value: [None] or the value. *)
Definition of_option {A} (f : A -> value) (o : option A) : value :=
  match o with
  | Some a => f a
  | None => VNone
  end.

(** ** Input schema ([schemas.py], lines 10-27) *)

Module Product.

Record t : Type := {
  title : string;
  description : option string;
  price : float;
  category : string;
  images : list string;
  sizes : list string;
  in_stock : bool;
  is_trending : bool;
  is_new : bool;
  is_best_seller : bool;
  season : option string;
  on_sale : bool;
  sale_price : option float
}.

(** [Field(...)]: the field is required. *)
Definition required {A} (body : pydict) (name : string)
  (validate : value -> option A) : option A :=
  match lookup body name with
  | Some v => validate v
  | None => None
  end.

(** [Field(default)] and [Field(default_factory=...)]: a field left out of
    the body takes its default. *)
Definition defaulted {A} (body : pydict) (name : string)
  (validate : value -> option A) (default : A) : option A :=
  match lookup body name with
  | Some v => validate v
  | None => Some default
  end.

(** A constraint on a validated field. *)
Definition constrained {A} (validate : value -> option A) (ok : A -> bool)
  (v : value) : option A :=
  match validate v with
  | Some a => if ok a then Some a else None
  | None => None
  end.

Section Validation.
Context {R : Runtime}.
Variable body : pydict.

Definition v_title := required body "title" validate_str.
Definition v_description :=
  defaulted body "description" (validate_optional validate_str) None.
Definition v_price := required body "price" (constrained validate_float (ge 0)).
Definition v_category := required body "category" validate_str.
Definition v_images := defaulted body "images" (validate_list validate_url) [].
Definition v_sizes :=
  defaulted body "sizes" (validate_list validate_str) ["S"; "M"; "L"; "XL"].
Definition v_in_stock := defaulted body "in_stock" validate_bool true.
Definition v_is_trending := defaulted body "is_trending" validate_bool false.
Definition v_is_new := defaulted body "is_new" validate_bool false.
Definition v_is_best_seller :=
  defaulted body "is_best_seller" validate_bool false.
Definition v_season :=
  defaulted body "season" (validate_optional validate_str) None.
Definition v_on_sale := defaulted body "on_sale" validate_bool false.
Definition v_sale_price :=
  defaulted body "sale_price"
    (validate_optional (constrained validate_float (ge 0))) None.

(** The fields of the body that fail validation, in declaration order. *)
Definition errors : list string :=
  failed "title" v_title ++ failed "description" v_description ++
  failed "price" v_price ++ failed "category" v_category ++
  failed "images" v_images ++ failed "sizes" v_sizes ++
  failed "in_stock" v_in_stock ++ failed "is_trending" v_is_trending ++
  failed "is_new" v_is_new ++ failed "is_best_seller" v_is_best_seller ++
  failed "season" v_season ++ failed "on_sale" v_on_sale ++
  failed "sale_price" v_sale_price.

(** Parsing a request body into the model: the record, or the request's
    rejection with the offending fields. *)
Definition validate : result t :=
  match v_title, v_description, v_price, v_category, v_images, v_sizes,
        v_in_stock, v_is_trending, v_is_new, v_is_best_seller, v_season,
        v_on_sale, v_sale_price with
  | Some title', Some description', Some price', Some category',
    Some images', Some sizes', Some in_stock', Some is_trending',
    Some is_new', Some is_best_seller', Some season', Some on_sale',
    Some sale_price' =>
      Ok {| title := title'; description := description'; price := price';
            category := category'; images := images'; sizes := sizes';
            in_stock := in_stock'; is_trending := is_trending';
            is_new := is_new'; is_best_seller := is_best_seller';
            season := season'; on_sale := on_sale';
            sale_price := sale_price' |}
  | _, _, _, _, _, _, _, _, _, _, _, _, _ =>
      Raise (RequestValidationError errors)
  end.

End Validation.

(** The validated record as a document, field by field. *)
Definition dump (p : t) : pydict :=
  [("title", VStr (title p));
   ("description", of_option VStr (description p));
   ("price", VFloat (price p));
   ("category", VStr (category p));
   ("images", VList (map VStr (images p)));
   ("sizes", VList (map VStr (sizes p)));
   ("in_stock", VBool (in_stock p));
   ("is_trending", VBool (is_trending p));
   ("is_new", VBool (is_new p));
   ("is_best_seller", VBool (is_best_seller p));
   ("season", of_option VStr (season p));
   ("on_sale", VBool (on_sale p));
   ("sale_price", of_option VFloat (sale_price p))].

End Product.

(** Modelled from the spec: [create_document] of the [database] module, which
    is not among the sources. "[insert(collectionName, validatedRecord) ->
    identifier] persists the record into the named collection and returns a
    newly assigned unique identifier; fails with a [StorageUnavailable] error
    if no connection is established." *)
Definition create_document (collection_name : string) (data : pydict)
  : M string :=
  (none <- db_is_None ;;
   if (none : bool) then raise StorageUnavailable
   else
     oid <- insert_one collection_name data ;;
     ret (match oid with
          | VObjectId hex => hex
          | _ => EmptyString
          end))%M.

(** ** Handlers ([main.py], lines 112-248) *)

Definition of_text (o : option string) : value := of_option VStr o.

Definition of_flag (o : option bool) : value := of_option VBool o.

(** The filter of [list_products] (lines 125-139). *)
Definition product_filter (category : option string)
  (trending new best : option bool) (season : option string)
  (sale : option bool) (q : option string) : pydict :=
  let filt := [] in
  let filt :=
    if py_bool (of_text category)
    then setitem filt "category" (of_text category) else filt in
  let filt :=
    if py_bool (of_text season)
    then setitem filt "season" (of_text season) else filt in
  let filt :=
    if negb (is_None (of_flag trending))
    then setitem filt "is_trending" (of_flag trending) else filt in
  let filt :=
    if negb (is_None (of_flag new))
    then setitem filt "is_new" (of_flag new) else filt in
  let filt :=
    if negb (is_None (of_flag best))
    then setitem filt "is_best_seller" (of_flag best) else filt in
  let filt :=
    if negb (is_None (of_flag sale))
    then setitem filt "on_sale" (of_flag sale) else filt in
  let filt :=
    if py_bool (of_text q)
    then setitem filt "title"
           (VDict [("$regex", of_text q); ("$options", VStr "i")])
    else filt in
  filt.

(** [Query(default, ge=lo, le=hi)] on an integer parameter: a value sent
    outside the range is refused before the handler is entered. *)
Definition Query (default lo hi : Z) (name : string) (sent : option Z)
  : result Z :=
  match sent with
  | None => Ok default
  | Some v =>
      if (lo <=? v) && (v <=? hi) then Ok v
      else Raise (RequestValidationError [name])
  end.

Section Handlers.
Context {R : Runtime}.

Definition list_products (category : option string)
  (trending new best : option bool) (season : option string)
  (sale : option bool) (q : option string) (limit : Z)
  : M (list ProductOut.t) :=
  (none <- db_is_None ;;
   if (none : bool) then ret []
   else
     let filt := product_filter category trending new best season sale q in
     docs <- find "product" filt limit ;;
     lift (rmap serialize_product docs))%M.

(** [GET /api/products]: the declared parameters are validated, then the
    handler runs. *)
Definition get_api_products (category : option string)
  (trending new best : option bool) (season : option string)
  (sale : option bool) (q : option string) (limit : option Z)
  : M (list ProductOut.t) :=
  (limit' <- lift (Query 24 1 100 "limit" limit) ;;
   list_products category trending new best season sale q limit')%M.

(** [GET /api/products/{product_id}] *)
Definition get_product (product_id : string) : M ProductOut.t :=
  (none <- db_is_None ;;
   if (none : bool) then raise (HTTPException 500 "Database not available")
   else
     doc <- try_except
              (oid <- lift (ObjectId product_id) ;;
               find_one "product" [("_id", oid)])
              (raise (HTTPException 400 "Invalid product id")) ;;
     match doc with
     | Some doc' =>
         if negb (py_bool (VDict doc'))
         then raise (HTTPException 404 "Product not found")
         else lift (serialize_product doc')
     | None => raise (HTTPException 404 "Product not found")
     end)%M.

(** [POST /api/products]: the body is parsed into the schema, then stored. *)
Definition create_product (body : pydict) : M string :=
  (payload <- lift (Product.validate body) ;;
   create_document "product" (Product.dump payload))%M.

End Handlers.

(** [created[key] += 1] *)
Definition increment (created : pydict) (key : string) : pydict :=
  match get created key VNone with
  | VInt n => setitem created key (VInt (n + 1))
  | _ => created
  end.

Definition banners : list pydict :=
  [[("title", VStr "Mega Sale");
    ("subtitle", VStr "Up to 60% OFF on top styles");
    ("image", VStr "https://images.unsplash.com/photo-1542291026-7eec264c27ff?w=1600&q=80&auto=format&fit=crop");
    ("slug", VStr "mega-sale")];
   [("title", VStr "New Collection 2025");
    ("subtitle", VStr "Fresh arrivals for the new season");
    ("image", VStr "https://images.unsplash.com/photo-1520975922203-b5d0b0d75136?w=1600&q=80&auto=format&fit=crop");
    ("slug", VStr "new-collection-2025")];
   [("title", VStr "Limited Stock Available");
    ("subtitle", VStr "Grab your favorites before they’re gone");
    ("image", VStr "https://images.unsplash.com/photo-1512436991641-6745cdb1723f?w=1600&q=80&auto=format&fit=crop");
    ("slug", VStr "limited-stock")]].

Definition sample_products : list pydict :=
  [[("title", VStr "Classic Black Tee");
    ("description", VStr "Premium cotton, perfect fit.");
    ("price", VInt 2499);
    ("category", VStr "Men");
    ("images", VList [VStr "https://images.unsplash.com/photo-1520975922203-b5d0b0d75136?w=1200&auto=format&fit=crop&q=80"]);
    ("sizes", VList [VStr "S"; VStr "M"; VStr "L"; VStr "XL"]);
    ("in_stock", VBool true);
    ("is_trending", VBool true);
    ("is_new", VBool false);
    ("is_best_seller", VBool true);
    ("season", VStr "Summer");
    ("on_sale", VBool true);
    ("sale_price", VInt 1999)];
   [("title", VStr "Gold Accent Hoodie");
    ("description", VStr "Cozy fleece with subtle gold detail.");
    ("price", VInt 4999);
    ("category", VStr "Women");
    ("images", VList [VStr "https://images.unsplash.com/photo-1519741497674-611481863552?w=1200&auto=format&fit=crop&q=80"]);
    ("sizes", VList [VStr "S"; VStr "M"; VStr "L"; VStr "XL"]);
    ("in_stock", VBool true);
    ("is_trending", VBool true);
    ("is_new", VBool true);
    ("is_best_seller", VBool false);
    ("season", VStr "Winter");
    ("on_sale", VBool false)];
   [("title", VStr "Kids Summer Set");
    ("description", VStr "Light and comfy two-piece.");
    ("price", VInt 2999);
    ("category", VStr "Kids");
    ("images", VList [VStr "https://images.unsplash.com/photo-1520975432204-8d8a9f9a9f3b?w=1200&auto=format&fit=crop&q=80"]);
    ("sizes", VList [VStr "S"; VStr "M"; VStr "L"]);
    ("in_stock", VBool true);
    ("is_trending", VBool false);
    ("is_new", VBool true);
    ("is_best_seller", VBool false);
    ("season", VStr "Summer");
    ("on_sale", VBool false)]].

(** [GET /api/seed] *)
Definition seed_data {R : Runtime} : M pydict :=
  (none <- db_is_None ;;
   if (none : bool) then raise (HTTPException 500 "Database not available")
   else
     let created := [("products", VInt 0); ("banners", VInt 0)] in
     n <- count_documents "banner" [] ;;
     created <-
       (if n =? 0
        then for_each banners (fun b created =>
               _ <- insert_one "banner" b ;;
               ret (increment created "banners")) created
        else ret created) ;;
     n <- count_documents "product" [] ;;
     created <-
       (if n =? 0
        then for_each sample_products (fun p created =>
               _ <- insert_one "product" p ;;
               ret (increment created "products")) created
        else ret created) ;;
     ret (("status", VStr "ok") :: created))%M.

(** ** Vocabulary of the properties *)

(** *** Shapes of stored records *)

Definition is_text (v : value) : bool :=
  match v with
  | VStr _ => true
  | _ => false
  end.

Definition is_text_or_null (v : value) : bool :=
  match v with
  | VStr _ | VNone => true
  | _ => false
  end.

Definition is_list (v : value) : bool :=
  match v with
  | VList _ => true
  | _ => false
  end.

(** A number that has a binary64 value: a float, a boolean, or an integer
    within the range of binary64. *)
Definition is_number (v : value) : bool :=
  match v with
  | VFloat _ | VBool _ => true
  | VInt n =>
      match float_of_Z n with
      | S754_infinity _ => false
      | _ => true
      end
  | _ => false
  end.

Definition is_number_or_null (v : value) : bool :=
  is_number v || is_None v.

(** The field is there and has the shape. *)
Definition present (shape : value -> bool) (field : option value) : bool :=
  match field with
  | Some v => shape v
  | None => false
  end.

(** The field is left out, or has the shape. *)
Definition optional (shape : value -> bool) (field : option value) : bool :=
  match field with
  | Some v => shape v
  | None => true
  end.

(** A product document: [title] and [category] are texts; every other
    field read by [serialize_product] is left out or holds what the schema
    stores in it. *)
Definition product_shape (doc : pydict) : bool :=
  present is_text (lookup doc "title") &&
  optional is_text_or_null (lookup doc "description") &&
  optional is_number (lookup doc "price") &&
  present is_text (lookup doc "category") &&
  optional is_list (lookup doc "images") &&
  optional is_list (lookup doc "sizes") &&
  optional is_text_or_null (lookup doc "season") &&
  optional is_number_or_null (lookup doc "sale_price").

(** A banner document: [title] and [slug] are texts; [subtitle] and [image]
    are left out, null or texts. *)
Definition banner_shape (doc : pydict) : bool :=
  present is_text (lookup doc "title") &&
  optional is_text_or_null (lookup doc "subtitle") &&
  optional is_text_or_null (lookup doc "image") &&
  present is_text (lookup doc "slug").

(** The conversions that [serialize_product] makes before it builds the
    output succeed: [price] is left out or a number, [images] and [sizes]
    are left out or lists, [sale_price] is left out, null or a number. *)
Definition converts (doc : pydict) : bool :=
  optional is_number (lookup doc "price") &&
  optional is_list (lookup doc "images") &&
  optional is_list (lookup doc "sizes") &&
  optional is_number_or_null (lookup doc "sale_price").

(** The field is left out or null. *)
Definition missing (doc : pydict) (k : string) : Prop :=
  lookup doc k = None \/ lookup doc k = Some VNone.

(** *** Filters, as the specification words them *)

(** The condition a parameter contributes: one entry when it counts as
    set, none otherwise. *)
Definition entry (k : string) (cond : option value) : pydict :=
  match cond with
  | Some v => [(k, v)]
  | None => []
  end.

(** A text parameter that is sent and not empty. *)
Definition nonempty (o : option string) : option string :=
  match o with
  | Some EmptyString => None
  | _ => o
  end.

Definition regex_i (q : string) : value :=
  VDict [("$regex", VStr q); ("$options", VStr "i")].

(** One entry for each parameter that is not null. *)
Definition filter_of_non_null (category : option string)
  (trending new best : option bool) (season : option string)
  (sale : option bool) (q : option string) : pydict :=
  (entry "category" (option_map VStr category) ++
   entry "season" (option_map VStr season) ++
   entry "is_trending" (option_map VBool trending) ++
   entry "is_new" (option_map VBool new) ++
   entry "is_best_seller" (option_map VBool best) ++
   entry "on_sale" (option_map VBool sale) ++
   entry "title" (option_map regex_i q))%list.

(** One entry for each flag that is not null and each text that is not
    null and not empty. *)
Definition filter_of_set (category : option string)
  (trending new best : option bool) (season : option string)
  (sale : option bool) (q : option string) : pydict :=
  filter_of_non_null (nonempty category) trending new best (nonempty season)
    sale (nonempty q).

(** Every condition of the filter holds of the document. *)
Definition all_hold {R : Runtime} (filt doc : pydict) : Prop :=
  Forall (fun kc => field_matches (snd kc) (lookup doc (fst kc)) = Some true)
    filt.

(** *** Substrings up to case *)

(** A text with its ASCII letters in lower case. *)
Fixpoint fold_case (s : string) : string :=
  match s with
  | EmptyString => EmptyString
  | String c s' => String (lower c) (fold_case s')
  end.

(** [q] occurs in [t], character by character, up to the case of ASCII
    letters. *)
Definition ci_substring (q t : string) : Prop :=
  exists pre mid post,
    chars t = (pre ++ mid ++ post)%list /\
    Forall2 (fun a b => fold_case a = fold_case b) (chars q) mid.

(** The character that is the one byte [c]. *)
Definition single (c : ascii) : string := String c EmptyString.

(** The text is made of ASCII characters none of which is special in a
    pattern. *)
Fixpoint literal (q : string) : bool :=
  match q with
  | EmptyString => true
  | String c q' =>
      negb (Ascii.eqb c ".") && negb (is_meta c) && is_ascii c && literal q'
  end.

(** The text is made of ASCII characters. *)
Definition ascii_text (t : string) : bool :=
  forallb is_ascii (list_ascii_of_string t).

(** *** Identifiers *)

(** A well-formed identifier: 24 hexadecimal digits. *)
Definition well_formed (product_id : string) : bool :=
  (String.length product_id =? 24)%nat &&
  forallb is_hex (list_ascii_of_string product_id).

(** *** The seeding report *)

Definition report (products banners : Z) : pydict :=
  [("status", VStr "ok"); ("products", VInt products);
   ("banners", VInt banners)].

(** What a collection holding [docs] receives from [seed_data]. *)
Definition seeded (docs : list pydict) : Z :=
  match docs with
  | [] => 3
  | _ :: _ => 0
  end.

(** *** Sample inputs *)

Definition connected (d : database) : world := {| db := Some d; calls := [] |}.

Definition disconnected : world := {| db := None; calls := [] |}.

Definition empty_store : database := {| collections := []; oid_counter := 0 |}.

Definition tee : pydict :=
  [("_id", VObjectId "65f0a1b2c3d4e5f601234567"); ("title", VStr "Tee");
   ("category", VStr "Men"); ("on_sale", VBool false)].

Definition untitled : pydict :=
  [("_id", VObjectId "65f0a1b2c3d4e5f601234567"); ("price", VInt 1000);
   ("category", VStr "Men"); ("on_sale", VBool false)].

Definition promo : pydict :=
  [("_id", VObjectId "65f0a1b2c3d4e5f601234568"); ("title", VStr "Mega Sale");
   ("slug", VStr "mega-sale")].

Definition shelf : database :=
  {| collections := [("product", [tee])]; oid_counter := 1 |}.

(** A product document whose price is null and that has no title. *)
Definition unpriced : pydict := [("category", VStr "Men"); ("price", VNone)].

(** A title that holds the Kelvin sign. *)
Definition kelvins : string := String.append "300 " kelvin_sign.


(** A search text the fragment of patterns modelled covers: none, empty, or
    literal. *)
Definition searchable (q : option string) : bool :=
  match nonempty q with
  | Some s => literal s
  | None => true
  end.

(** *** The store after insertions *)

(** The database once [doc], which has no ["_id"], is inserted in the
    collection [name]. *)
Definition stored (name : string) (d : database) (doc : pydict) : database :=
  {| collections :=
       setitem (collections d) name
         (collection d name
          ++ [("_id", VObjectId (hex_fixed 24 (oid_counter d))) :: doc])%list;
     oid_counter := (oid_counter d + 1)%N |}.

Definition store_all (name : string) (docs : list pydict) (d : database)
  : database :=
  fold_left (stored name) docs d.

(** The database once [seed_data] has run. *)
Definition seed_store (d : database) : database :=
  let d1 :=
    match collection d "banner" with
    | [] => store_all "banner" banners d
    | _ :: _ => d
    end in
  match collection d1 "product" with
  | [] => store_all "product" sample_products d1
  | _ :: _ => d1
  end.

(** A stored document without the identifier it was given. *)
Definition as_inserted (doc : pydict) : pydict := tl doc.

(** Request bodies: a product with an empty title, and one without title. *)
Definition nameless : pydict :=
  [("title", VStr EmptyString); ("price", VInt 1000); ("category", VStr "Men")].


(** ** The banner schema and the banner handlers
    ([schemas.py], lines 29-37; [main.py], lines 102-110) *)

Module Banner.

Record t : Type := {
  title : string;
  subtitle : option string;
  image : option string;
  slug : string
}.

Section Validation.
Context {R : Runtime}.
Variable body : pydict.

Definition v_title := Product.required body "title" validate_str.
Definition v_subtitle :=
  Product.defaulted body "subtitle" (validate_optional validate_str) None.
Definition v_image :=
  Product.defaulted body "image" (validate_optional validate_url) None.
Definition v_slug := Product.required body "slug" validate_str.

(** The fields of the body that fail validation, in declaration order. *)
Definition errors : list string :=
  failed "title" v_title ++ failed "subtitle" v_subtitle ++
  failed "image" v_image ++ failed "slug" v_slug.

Definition validate : result t :=
  match v_title, v_subtitle, v_image, v_slug with
  | Some title', Some subtitle', Some image', Some slug' =>
      Ok {| title := title'; subtitle := subtitle'; image := image';
            slug := slug' |}
  | _, _, _, _ => Raise (RequestValidationError errors)
  end.

End Validation.

(** The validated record as a document, field by field. *)
Definition dump (b : t) : pydict :=
  [("title", VStr (title b));
   ("subtitle", of_option VStr (subtitle b));
   ("image", of_option VStr (image b));
   ("slug", VStr (slug b))].

End Banner.

Section BannerHandlers.
Context {R : Runtime}.

(** [GET /api/banners]. The handler tests [db] for truth, not for [None]:
    [None] is false; what the truth value of a live handle is, and whether
    asking for it raises, is the driver's matter and is taken as given
    ([truth]). *)
Definition get_banners (truth : result bool) : M (list BannerOut.t) :=
  (none <- db_is_None ;;
   live <- (if (none : bool) then ret false else lift truth) ;;
   docs <- (if (live : bool) then find "banner" [] 0 else ret []) ;;
   lift (rmap serialize_banner docs))%M.

(** [POST /api/banners]: the body is parsed into the schema, then stored. *)
Definition create_banner (body : pydict) : M string :=
  (payload <- lift (Banner.validate body) ;;
   create_document "banner" (Banner.dump payload))%M.

End BannerHandlers.

(** ** Further vocabulary *)

(** The fields that [serialize_product] reads. *)
Definition product_keys : list string :=
  ["_id"; "title"; "description"; "price"; "category"; "images"; "sizes";
   "in_stock"; "is_trending"; "is_new"; "is_best_seller"; "season";
   "on_sale"; "sale_price"].

(** The fields of the product schema. *)
Definition schema_keys : list string :=
  ["title"; "description"; "price"; "category"; "images"; "sizes";
   "in_stock"; "is_trending"; "is_new"; "is_best_seller"; "season";
   "on_sale"; "sale_price"].

(** The flags of a product: the stored field, the output field and the
    default that [serialize_product] gives the first. *)
Definition flags : list (string * (ProductOut.t -> bool) * bool) :=
  [("in_stock", ProductOut.in_stock, true);
   ("is_trending", ProductOut.is_trending, false);
   ("is_new", ProductOut.is_new, false);
   ("is_best_seller", ProductOut.is_best_seller, false);
   ("on_sale", ProductOut.on_sale, false)].

(** A float that is zero, of either sign. *)
Definition is_zero (x : float) : bool :=
  match x with
  | S754_zero _ => true
  | _ => false
  end.

(** A float that the constraint [ge=0] refuses: negative, or not a
    number. *)
Definition below_zero (x : float) : bool :=
  match x with
  | S754_nan => true
  | S754_finite true _ _ => true
  | S754_infinity true => true
  | _ => false
  end.

(** The documents a filter selects, when the store answers on each. *)
Definition selected {R : Runtime} (filt : pydict) (docs : list pydict)
  : list pydict :=
  filter (fun doc =>
            match doc_matches filt doc with
            | Some b => b
            | None => false
            end) docs.

(** A character that is neither a hexadecimal digit nor white space. *)
Definition stray (c : ascii) : bool := negb (is_hex c) && negb (is_space c).

(** The document is identified by something that is not an array. *)
Definition plain_id (doc : pydict) : bool :=
  optional (fun v => negb (is_list v)) (lookup doc "_id").

(** Sample inputs. *)

Definition nulls : pydict :=
  [("title", VStr "Tee"); ("category", VStr "Men"); ("price", VNone);
   ("in_stock", VNone)].

Definition legacy : pydict :=
  [("_id", VObjectId "65f0a1b2c3d4e5f601234567"); ("title", VStr "Tee");
   ("category", VStr "Men"); ("in_stock", VNone)].

Definition sold_out : pydict :=
  [("_id", VObjectId "65f0a1b2c3d4e5f601234567"); ("title", VStr "Tee");
   ("category", VStr "Men"); ("in_stock", VFloat zero)].

Definition full : pydict :=
  [("_id", VObjectId "65f0a1b2c3d4e5f601234567"); ("title", VStr "Tee");
   ("description", VStr "Plain"); ("price", VInt 1000);
   ("category", VStr "Men"); ("images", VList [VStr "a.png"]);
   ("sizes", VList [VStr "S"]); ("in_stock", VBool false);
   ("is_trending", VBool true); ("season", VStr "Summer");
   ("on_sale", VBool true); ("sale_price", VFloat (float_of_Z 900))].

Definition minimal : pydict :=
  [("title", VStr "Tee"); ("price", VFloat (float_of_Z 1000));
   ("category", VStr "Men")].

Definition mixed : database :=
  {| collections := [("product", [tee; untitled])]; oid_counter := 2 |}.

Definition slugless : pydict := [("title", VStr "Mega Sale")].

Definition plain_banner : pydict :=
  [("title", VStr "Mega Sale"); ("slug", VStr "mega-sale")].

Definition gallery : database :=
  {| collections := [("banner", [promo])]; oid_counter := 1 |}.

(** [stored] is the document [doc] with the identifier it was given on
    insertion. *)
Definition identified (stored doc : pydict) : Prop :=
  exists oid, stored = ("_id", oid) :: doc.

Definition priceless : pydict :=
  [("title", VStr "Tee"); ("category", VStr "Men"); ("in_stock", VNone)].

Definition refund : pydict :=
  [("title", VStr "Tee"); ("price", VFloat (float_of_Z (-1)));
   ("category", VStr "Men")].

Definition debit : pydict :=
  [("title", VStr "Tee"); ("price", VInt (-5)); ("category", VStr "Men")].

(** A product document without title, and a store that holds it
    second. *)
Definition untitled' : pydict :=
  [("_id", VObjectId "65f0a1b2c3d4e5f601234568"); ("price", VInt 1000);
   ("category", VStr "Men")].

Definition backroom : database :=
  {| collections := [("product", [tee; untitled'])]; oid_counter := 2 |}.

(** * Properties *)

(** ** Dictionaries *)

Lemma get_absent (doc : pydict) (k : string) (default : value) :
  lookup doc k = None -> get doc k default = default.
Proof. unfold get. intros ->. reflexivity. Qed.

Lemma get_missing (doc : pydict) (k : string) :
  missing doc k -> get doc k VNone = VNone.
Proof. unfold get. intros [-> | ->]; reflexivity. Qed.

Lemma lookup_setitem_eq {V} (d : list (string * V)) (k : string) (v : V) :
  lookup (setitem d k v) k = Some v.
Proof.
  induction d as [|[k' v'] d IH]; simpl.
  - now rewrite String.eqb_refl.
  - destruct (String.eqb k' k) eqn:E; simpl; rewrite E; auto.
Qed.

Lemma lookup_setitem_ne {V} (d : list (string * V)) (k k' : string) (v : V) :
  k <> k' -> lookup (setitem d k v) k' = lookup d k'.
Proof.
  intros Hne. induction d as [|[k0 v0] d IH]; simpl.
  - destruct (String.eqb k k') eqn:E; auto.
    apply String.eqb_eq in E. contradiction.
  - destruct (String.eqb k0 k) eqn:E; simpl.
    + apply String.eqb_eq in E. subst k0.
      destruct (String.eqb k k') eqn:E'; auto.
      apply String.eqb_eq in E'. contradiction.
    + now rewrite IH.
Qed.

(** ** Serialisation *)

Section SerializationFacts.
Context {R : Runtime}.

Lemma py_float_number (v : value) :
  is_number v = true -> exists x, py_float v = Ok x.
Proof.
  destruct v; simpl; try discriminate; eauto.
  destruct (float_of_Z n); try discriminate; eauto.
Qed.

Lemma price_arg (doc : pydict) :
  optional is_number (lookup doc "price") = true ->
  exists x, py_float (get doc "price" (VInt 0)) = Ok x.
Proof.
  unfold get. destruct (lookup doc "price") as [v|]; simpl.
  - apply py_float_number.
  - intros _. eexists. reflexivity.
Qed.

Lemma str_each_arg (doc : pydict) (k : string) :
  optional is_list (lookup doc k) = true ->
  exists l, str_each (get doc k (VList [])) = Ok l.
Proof.
  unfold get. destruct (lookup doc k) as [v|]; simpl.
  - destruct v; try discriminate. intros _. eexists. reflexivity.
  - intros _. eexists. reflexivity.
Qed.

Lemma sale_price_arg (doc : pydict) :
  optional is_number_or_null (lookup doc "sale_price") = true ->
  exists o,
    (if negb (is_None (get doc "sale_price" VNone))
     then (x <- py_float (get doc "sale_price" VNone) ;; Ok (Some x))%result
     else Ok None) = Ok o.
Proof.
  unfold get. destruct (lookup doc "sale_price") as [v|]; simpl.
  - unfold is_number_or_null. intros H. apply orb_true_iff in H.
    destruct H as [H|H].
    + destruct (py_float_number v H) as [x Hx]. rewrite Hx. simpl.
      destruct (negb (is_None v)); eauto.
    + destruct v; try discriminate. simpl. eauto.
  - intros _. eauto.
Qed.

Lemma validate_text (v : value) :
  is_text v = true -> exists s, validate_str v = Some s.
Proof. destruct v; try discriminate. simpl. eauto. Qed.

Lemma validate_optional_text (doc : pydict) (k : string) :
  optional is_text_or_null (lookup doc k) = true ->
  exists o, validate_optional validate_str (get doc k VNone) = Some o.
Proof.
  unfold get. destruct (lookup doc k) as [v|]; simpl.
  - destruct v; try discriminate; simpl; eauto.
  - eauto.
Qed.

Lemma required_text (doc : pydict) (k : string) :
  present is_text (lookup doc k) = true ->
  exists s, validate_str (get doc k VNone) = Some s.
Proof.
  unfold get. destruct (lookup doc k) as [v|]; simpl; try discriminate.
  apply validate_text.
Qed.

(** A product document is serialised. *)
Lemma serialize_product_returns (doc : pydict) :
  product_shape doc = true -> exists out, serialize_product doc = Ok out.
Proof.
  unfold product_shape. intros H.
  repeat (apply andb_true_iff in H; destruct H as [H ?]).
  destruct (required_text doc "title" H) as [t Ht].
  destruct (validate_optional_text doc "description") as [d Hd]; auto.
  destruct (price_arg doc) as [p Hp]; auto.
  destruct (required_text doc "category") as [c Hc]; auto.
  destruct (str_each_arg doc "images") as [im Him]; auto.
  destruct (str_each_arg doc "sizes") as [sz Hsz]; auto.
  destruct (validate_optional_text doc "season") as [se Hse]; auto.
  destruct (sale_price_arg doc) as [sp Hsp]; auto.
  unfold serialize_product. rewrite Hp, Him, Hsz. cbn [rbind].
  rewrite Hsp. cbn [rbind]. unfold ProductOut.init.
  rewrite Ht, Hd, Hc, Hse. eexists. reflexivity.
Qed.

(** What an output of [serialize_product] holds, field by field. *)
Lemma serialize_product_fields (doc : pydict) (out : ProductOut.t) :
  serialize_product doc = Ok out ->
  ProductOut.id out = py_str (get doc "_id" VNone) /\
  validate_str (get doc "title" VNone) = Some (ProductOut.title out) /\
  validate_optional validate_str (get doc "description" VNone)
    = Some (ProductOut.description out) /\
  py_float (get doc "price" (VInt 0)) = Ok (ProductOut.price out) /\
  validate_str (get doc "category" VNone) = Some (ProductOut.category out) /\
  str_each (get doc "images" (VList [])) = Ok (ProductOut.images out) /\
  str_each (get doc "sizes" (VList [])) = Ok (ProductOut.sizes out) /\
  ProductOut.in_stock out = py_bool (get doc "in_stock" (VBool true)) /\
  ProductOut.is_trending out = py_bool (get doc "is_trending" (VBool false)) /\
  ProductOut.is_new out = py_bool (get doc "is_new" (VBool false)) /\
  ProductOut.is_best_seller out
    = py_bool (get doc "is_best_seller" (VBool false)) /\
  validate_optional validate_str (get doc "season" VNone)
    = Some (ProductOut.season out) /\
  ProductOut.on_sale out = py_bool (get doc "on_sale" (VBool false)) /\
  (is_None (get doc "sale_price" VNone) = true ->
   ProductOut.sale_price out = None).
Proof.
  unfold serialize_product.
  destruct (py_float (get doc "price" (VInt 0))) as [p|]; try discriminate.
  destruct (str_each (get doc "images" (VList []))) as [im|]; try discriminate.
  destruct (str_each (get doc "sizes" (VList []))) as [sz|]; try discriminate.
  cbn [rbind].
  destruct (is_None (get doc "sale_price" VNone)) eqn:Hn; cbn [negb].
  - cbn [rbind]. unfold ProductOut.init.
    destruct (validate_str (get doc "title" VNone)); try discriminate;
    destruct (validate_optional validate_str (get doc "description" VNone));
      try discriminate;
    destruct (validate_str (get doc "category" VNone)); try discriminate;
    destruct (validate_optional validate_str (get doc "season" VNone));
      try discriminate.
    intros [= <-]. cbn. repeat split; reflexivity.
  - destruct (py_float (get doc "sale_price" VNone)) as [sp|];
      try discriminate.
    cbn [rbind]. unfold ProductOut.init.
    destruct (validate_str (get doc "title" VNone)); try discriminate;
    destruct (validate_optional validate_str (get doc "description" VNone));
      try discriminate;
    destruct (validate_str (get doc "category" VNone)); try discriminate;
    destruct (validate_optional validate_str (get doc "season" VNone));
      try discriminate.
    intros [= <-]. cbn. repeat split; try reflexivity. discriminate.
Qed.

(** A banner document is serialised. *)
Lemma serialize_banner_returns (doc : pydict) :
  banner_shape doc = true -> exists out, serialize_banner doc = Ok out.
Proof.
  unfold banner_shape. intros H.
  repeat (apply andb_true_iff in H; destruct H as [H ?]).
  destruct (required_text doc "title" H) as [t Ht].
  destruct (validate_optional_text doc "subtitle") as [s Hs]; auto.
  destruct (validate_optional_text doc "image") as [i Hi]; auto.
  destruct (required_text doc "slug") as [sl Hsl]; auto.
  unfold serialize_banner, BannerOut.init. rewrite Ht, Hs, Hi, Hsl.
  eexists. reflexivity.
Qed.

Lemma serialize_banner_fields (doc : pydict) (out : BannerOut.t) :
  serialize_banner doc = Ok out ->
  BannerOut.id out = py_str (get doc "_id" VNone) /\
  validate_str (get doc "title" VNone) = Some (BannerOut.title out) /\
  validate_optional validate_str (get doc "subtitle" VNone)
    = Some (BannerOut.subtitle out) /\
  validate_optional validate_str (get doc "image" VNone)
    = Some (BannerOut.image out) /\
  validate_str (get doc "slug" VNone) = Some (BannerOut.slug out).
Proof.
  unfold serialize_banner, BannerOut.init.
  destruct (validate_str (get doc "title" VNone)); try discriminate;
  destruct (validate_optional validate_str (get doc "subtitle" VNone));
    try discriminate;
  destruct (validate_optional validate_str (get doc "image" VNone));
    try discriminate;
  destruct (validate_str (get doc "slug" VNone)); try discriminate.
  intros [= <-]. cbn. repeat split; reflexivity.
Qed.

(** A required text that is left out or null fails the output model. *)
Lemma serialize_product_needs (doc : pydict) (k : string) :
  k = "title" \/ k = "category" -> missing doc k ->
  forall out, serialize_product doc <> Ok out.
Proof.
  intros Hk Hm out Hout.
  apply serialize_product_fields in Hout.
  destruct Hout as (_ & Ht & _ & _ & Hc & _).
  destruct Hk as [-> | ->]; rewrite (get_missing _ _ Hm) in *; discriminate.
Qed.

Lemma serialize_banner_needs (doc : pydict) (k : string) :
  k = "title" \/ k = "slug" -> missing doc k ->
  forall out, serialize_banner doc <> Ok out.
Proof.
  intros Hk Hm out Hout.
  apply serialize_banner_fields in Hout.
  destruct Hout as (_ & Ht & _ & _ & Hs).
  destruct Hk as [-> | ->]; rewrite (get_missing _ _ Hm) in *; discriminate.
Qed.

Lemma py_float_error (v : value) (e : exn) :
  py_float v = Raise e -> status_of e = 500.
Proof.
  destruct v; cbn [py_float]; try (intros [= <-]; reflexivity).
  - destruct (float_of_Z n); intros [= <-]; reflexivity.
  - destruct (float_of_text s); intros [= <-]; reflexivity.
Qed.

Lemma str_each_error (v : value) (e : exn) :
  str_each v = Raise e -> status_of e = 500.
Proof.
  unfold str_each. destruct v; cbn [py_iter rbind];
    intros [= <-]; reflexivity.
Qed.

(** What [serialize_product] raises is no HTTP error of its own. *)
Lemma serialize_product_error (doc : pydict) (e : exn) :
  serialize_product doc = Raise e -> status_of e = 500.
Proof.
  unfold serialize_product.
  destruct (py_float (get doc "price" (VInt 0))) as [p|e1] eqn:Ep;
    [|intros [= <-]; now apply (py_float_error _ _ Ep)].
  destruct (str_each (get doc "images" (VList []))) as [im|e2] eqn:Ei;
    [|intros [= <-]; now apply (str_each_error _ _ Ei)].
  destruct (str_each (get doc "sizes" (VList []))) as [sz|e3] eqn:Es;
    [|intros [= <-]; now apply (str_each_error _ _ Es)].
  cbn [rbind].
  destruct (negb (is_None (get doc "sale_price" VNone))).
  - destruct (py_float (get doc "sale_price" VNone)) as [sp|e4] eqn:Ea;
      [|intros [= <-]; now apply (py_float_error _ _ Ea)].
    cbn [rbind]. unfold ProductOut.init.
    destruct (validate_str (get doc "title" VNone));
      destruct (validate_optional validate_str (get doc "description" VNone));
      destruct (validate_str (get doc "category" VNone));
      destruct (validate_optional validate_str (get doc "season" VNone));
      intros [= <-]; reflexivity.
  - cbn [rbind]. unfold ProductOut.init.
    destruct (validate_str (get doc "title" VNone));
      destruct (validate_optional validate_str (get doc "description" VNone));
      destruct (validate_str (get doc "category" VNone));
      destruct (validate_optional validate_str (get doc "season" VNone));
      intros [= <-]; reflexivity.
Qed.

(** The output model refuses a product whose title or category is no text,
    naming it. *)
Lemma product_init_refuses (id : string) (title description : value)
  (price : float) (category : value) (images sizes : list string)
  (in_stock is_trending is_new is_best_seller : bool) (season : value)
  (on_sale : bool) (sale_price : option float) :
  validate_str title = None \/ validate_str category = None ->
  exists fields,
    ProductOut.init id title description price category images sizes
      in_stock is_trending is_new is_best_seller season on_sale sale_price
    = Raise (ValidationError fields) /\
    (validate_str title = None -> In "title" fields) /\
    (validate_str category = None -> In "category" fields).
Proof.
  intros H. unfold ProductOut.init.
  destruct (validate_str title) as [t|] eqn:Et;
    destruct (validate_optional validate_str description) as [d|];
    destruct (validate_str category) as [c|] eqn:Ec;
    destruct (validate_optional validate_str season) as [s|];
    try (destruct H; discriminate);
    (eexists; split; [reflexivity|]; split; intros E; try discriminate;
     cbn [failed app In]; tauto).
Qed.

Lemma banner_init_refuses (id : string) (title subtitle image slug : value) :
  validate_str title = None \/ validate_str slug = None ->
  exists fields,
    BannerOut.init id title subtitle image slug
    = Raise (ValidationError fields) /\
    (validate_str title = None -> In "title" fields) /\
    (validate_str slug = None -> In "slug" fields).
Proof.
  intros H. unfold BannerOut.init.
  destruct (validate_str title) as [t|] eqn:Et;
    destruct (validate_optional validate_str subtitle) as [d|];
    destruct (validate_optional validate_str image) as [i|];
    destruct (validate_str slug) as [c|] eqn:Ec;
    try (destruct H; discriminate);
    (eexists; split; [reflexivity|]; split; intros E; try discriminate;
     cbn [failed app In]; tauto).
Qed.

Lemma missing_is_no_text (doc : pydict) (k : string) :
  missing doc k -> validate_str (get doc k VNone) = None.
Proof. intros Hm. now rewrite (get_missing _ _ Hm). Qed.

(** When its conversions succeed, a product without title or category is
    refused by the output model, which names what is missing. *)
Lemma serialize_product_refused (doc : pydict) :
  converts doc = true ->
  missing doc "title" \/ missing doc "category" ->
  exists fields,
    serialize_product doc = Raise (ValidationError fields) /\
    (missing doc "title" -> In "title" fields) /\
    (missing doc "category" -> In "category" fields).
Proof.
  unfold converts. intros H Hm.
  repeat (apply andb_true_iff in H; destruct H as [H ?]).
  destruct (price_arg doc) as [p Hp]; auto.
  destruct (str_each_arg doc "images") as [im Him]; auto.
  destruct (str_each_arg doc "sizes") as [sz Hsz]; auto.
  destruct (sale_price_arg doc) as [sp Hsp]; auto.
  unfold serialize_product. rewrite Hp, Him, Hsz. cbn [rbind].
  rewrite Hsp. cbn [rbind].
  match goal with
  | |- exists fields, ProductOut.init ?a ?b ?c ?d ?e ?f ?g ?h ?i ?j ?k ?l ?m ?n
                      = _ /\ _ =>
      destruct (product_init_refuses a b c d e f g h i j k l m n)
        as (fields & Hf & Ht & Hc)
  end.
  - destruct Hm as [Hm|Hm]; [left | right]; now apply missing_is_no_text.
  - exists fields. split; [exact Hf|].
    split; intros Hk; [apply Ht | apply Hc]; now apply missing_is_no_text.
Qed.

(** A banner without title or slug is refused by the output model, which
    names what is missing. *)
Lemma serialize_banner_refused (doc : pydict) :
  missing doc "title" \/ missing doc "slug" ->
  exists fields,
    serialize_banner doc = Raise (ValidationError fields) /\
    (missing doc "title" -> In "title" fields) /\
    (missing doc "slug" -> In "slug" fields).
Proof.
  intros Hm. unfold serialize_banner.
  destruct (banner_init_refuses (py_str (get doc "_id" VNone))
              (get doc "title" VNone) (get doc "subtitle" VNone)
              (get doc "image" VNone) (get doc "slug" VNone))
    as (fields & Hf & Ht & Hs).
  - destruct Hm as [Hm|Hm]; [left | right]; now apply missing_is_no_text.
  - exists fields. split; [exact Hf|].
    split; intros Hk; [apply Ht | apply Hs]; now apply missing_is_no_text.
Qed.

(** A null price stops the serialisation before the output is built. *)
Lemma serialize_product_null_price (doc : pydict) :
  lookup doc "price" = Some VNone -> serialize_product doc = Raise TypeError.
Proof. intros H. unfold serialize_product, get. now rewrite H. Qed.

End SerializationFacts.

(** C1, as stated, fails: a document that lacks [title] (and lacks
    [sale_price], with [on_sale] false) is not serialised; the output model
    refuses it. *)
Lemma serialize_untitled_raises :
  lookup untitled "title" = None /\
  lookup untitled "sale_price" = None /\
  lookup untitled "on_sale" = Some (VBool false) /\
  (forall R : Runtime,
     serialize_product untitled = Raise (ValidationError ["title"])) /\
  (forall R : Runtime,
     serialize_banner untitled = Raise (ValidationError ["title"; "slug"])).
Proof. repeat split. Qed.

(** C1, amended: [serialize_product] and [serialize_banner] return an
    output for every record of the stored shape (the required texts are
    texts, every other field is left out or holds what the schema stores
    there); the identifier is rendered as text and each field left out takes
    its default, a null [description], [season], [sale_price], [subtitle] or
    [image] staying null; so a product document without [sale_price] is
    serialised with [sale_price] null. A record whose [title] or [category]
    (for a banner: [title] or [slug]) is left out or null is not
    serialised: an error is raised. For a banner, and for a product whose
    conversions succeed, it is the validation error of the output model,
    which names each of these fields that is left out or null; a product
    whose [price] is null raises the [TypeError] of [float] instead, the
    output model not being reached. *)
Theorem serialize_total_on_stored_shapes :
  forall (R : Runtime) (doc : pydict),
    (product_shape doc = true ->
     exists out,
       serialize_product doc = Ok out /\
       ProductOut.id out = py_str (get doc "_id" VNone) /\
       (missing doc "description" -> ProductOut.description out = None) /\
       (lookup doc "price" = None -> ProductOut.price out = zero) /\
       (lookup doc "images" = None -> ProductOut.images out = []) /\
       (lookup doc "sizes" = None -> ProductOut.sizes out = []) /\
       (lookup doc "in_stock" = None -> ProductOut.in_stock out = true) /\
       (lookup doc "is_trending" = None ->
        ProductOut.is_trending out = false) /\
       (lookup doc "is_new" = None -> ProductOut.is_new out = false) /\
       (lookup doc "is_best_seller" = None ->
        ProductOut.is_best_seller out = false) /\
       (missing doc "season" -> ProductOut.season out = None) /\
       (lookup doc "on_sale" = None -> ProductOut.on_sale out = false) /\
       (missing doc "sale_price" -> ProductOut.sale_price out = None)) /\
    (banner_shape doc = true ->
     exists out,
       serialize_banner doc = Ok out /\
       BannerOut.id out = py_str (get doc "_id" VNone) /\
       (missing doc "subtitle" -> BannerOut.subtitle out = None) /\
       (missing doc "image" -> BannerOut.image out = None)) /\
    (missing doc "title" \/ missing doc "category" ->
     (forall out, serialize_product doc <> Ok out) /\
     (exists e, serialize_product doc = Raise e) /\
     (converts doc = true ->
      exists fields,
        serialize_product doc = Raise (ValidationError fields) /\
        (missing doc "title" -> In "title" fields) /\
        (missing doc "category" -> In "category" fields))) /\
    (lookup doc "price" = Some VNone ->
     serialize_product doc = Raise TypeError) /\
    (missing doc "title" \/ missing doc "slug" ->
     (forall out, serialize_banner doc <> Ok out) /\
     exists fields,
       serialize_banner doc = Raise (ValidationError fields) /\
       (missing doc "title" -> In "title" fields) /\
       (missing doc "slug" -> In "slug" fields)).
Proof.
  intros R doc. split; [|split; [|split; [|split]]].
  - intros Hshape.
    destruct (serialize_product_returns doc Hshape) as [out Hout].
    exists out. split; [exact Hout|].
    apply serialize_product_fields in Hout.
    destruct Hout as (Hid & _ & Hd & Hp & _ & Him & Hsz & Hst & Htr & Hnw
                      & Hbs & Hse & Hos & Hsp).
    split; [exact Hid|].
    repeat split.
    + intros Hm. rewrite (get_missing _ _ Hm) in Hd. now inversion Hd.
    + intros Ha. rewrite (get_absent _ _ _ Ha) in Hp. now inversion Hp.
    + intros Ha. rewrite (get_absent _ _ _ Ha) in Him. now inversion Him.
    + intros Ha. rewrite (get_absent _ _ _ Ha) in Hsz. now inversion Hsz.
    + intros Ha. now rewrite Hst, (get_absent _ _ _ Ha).
    + intros Ha. now rewrite Htr, (get_absent _ _ _ Ha).
    + intros Ha. now rewrite Hnw, (get_absent _ _ _ Ha).
    + intros Ha. now rewrite Hbs, (get_absent _ _ _ Ha).
    + intros Hm. rewrite (get_missing _ _ Hm) in Hse. now inversion Hse.
    + intros Ha. now rewrite Hos, (get_absent _ _ _ Ha).
    + intros Hm. apply Hsp. now rewrite (get_missing _ _ Hm).
  - intros Hshape.
    destruct (serialize_banner_returns doc Hshape) as [out Hout].
    exists out. split; [exact Hout|].
    apply serialize_banner_fields in Hout.
    destruct Hout as (Hid & _ & Hs & Hi & _).
    split; [exact Hid|]. split.
    + intros Hm. rewrite (get_missing _ _ Hm) in Hs. now inversion Hs.
    + intros Hm. rewrite (get_missing _ _ Hm) in Hi. now inversion Hi.
  - intros Hm.
    assert (Hno : forall out, serialize_product doc <> Ok out).
    { destruct Hm as [Hm|Hm].
      - now apply (serialize_product_needs doc "title"); auto.
      - now apply (serialize_product_needs doc "category"); auto. }
    split; [exact Hno|]. split.
    + destruct (serialize_product doc) as [out|e].
      * now destruct (Hno out).
      * now exists e.
    + intros Hc. now apply serialize_product_refused.
  - apply serialize_product_null_price.
  - intros Hm. split.
    + destruct Hm as [Hm|Hm].
      * now apply (serialize_banner_needs doc "title"); auto.
      * now apply (serialize_banner_needs doc "slug"); auto.
    + now apply serialize_banner_refused.
Qed.

(** The theorem at a product document without [price], [sizes] and
    [sale_price], at a banner document without [subtitle], at a document
    without [title], and at one without [title] whose price is null. *)
Lemma serialize_total_on_stored_shapes_witness :
  product_shape tee = true /\ banner_shape promo = true /\
  missing untitled "title" /\ converts untitled = true /\
  missing unpriced "title" /\ lookup unpriced "price" = Some VNone /\
  (forall R : Runtime,
     (exists out,
        serialize_product tee = Ok out /\
        ProductOut.price out = zero /\ ProductOut.sizes out = [] /\
        ProductOut.in_stock out = true /\ ProductOut.sale_price out = None) /\
     (exists out,
        serialize_banner promo = Ok out /\ BannerOut.subtitle out = None) /\
     (forall out, serialize_product untitled <> Ok out) /\
     (exists fields,
        serialize_product untitled = Raise (ValidationError fields) /\
        In "title" fields) /\
     serialize_product unpriced = Raise TypeError).
Proof.
  split; [reflexivity|]. split; [reflexivity|]. split; [left; reflexivity|].
  split; [reflexivity|]. split; [left; reflexivity|]. split; [reflexivity|].
  intros R. split; [|split; [|split; [|split]]].
  - destruct (serialize_total_on_stored_shapes R tee) as [H _].
    destruct (H eq_refl)
      as (out & Hout & _ & _ & Hp & _ & Hsz & Hst & _ & _ & _ & _ & _ & Hsp).
    exists out. split; [exact Hout|].
    split; [apply Hp; reflexivity|]. split; [apply Hsz; reflexivity|].
    split; [apply Hst; reflexivity|]. apply Hsp. left. reflexivity.
  - destruct (serialize_total_on_stored_shapes R promo) as (_ & H & _).
    destruct (H eq_refl) as (out & Hout & _ & Hs & _).
    exists out. split; [exact Hout|]. apply Hs. left. reflexivity.
  - destruct (serialize_total_on_stored_shapes R untitled) as (_ & _ & H & _).
    apply H. left. left. reflexivity.
  - destruct (serialize_total_on_stored_shapes R untitled) as (_ & _ & H & _).
    destruct (H (or_introl (or_introl eq_refl))) as (_ & _ & Hc).
    destruct (Hc eq_refl) as (fields & Hf & Ht & _).
    exists fields. split; [exact Hf|]. apply Ht. left. reflexivity.
  - destruct (serialize_total_on_stored_shapes R unpriced)
      as (_ & _ & _ & H & _).
    exact (H eq_refl).
Defined.

(** C9. In a product document without [price], the price argument is
    [float(0)]: it does not raise, every output has [price] 0.0, and the
    document is serialised. *)
Theorem absent_price_is_zero :
  forall (R : Runtime) (doc : pydict),
    lookup doc "price" = None ->
    py_float (get doc "price" (VInt 0)) = Ok zero /\
    (forall out,
       serialize_product doc = Ok out -> ProductOut.price out = zero) /\
    (product_shape doc = true ->
     exists out,
       serialize_product doc = Ok out /\ ProductOut.price out = zero).
Proof.
  intros R doc Ha.
  assert (Hz : py_float (get doc "price" (VInt 0)) = Ok zero)
    by now rewrite (get_absent _ _ _ Ha).
  assert (Hall : forall out,
             serialize_product doc = Ok out -> ProductOut.price out = zero).
  { intros out Hout. apply serialize_product_fields in Hout.
    destruct Hout as (_ & _ & _ & Hp & _). rewrite Hz in Hp.
    now inversion Hp. }
  repeat split; auto.
  intros Hshape. destruct (serialize_product_returns doc Hshape) as [out Hout].
  exists out. auto.
Qed.

(** The theorem at a product document without [price]. *)
Lemma absent_price_is_zero_witness :
  lookup tee "price" = None /\ product_shape tee = true /\
  (forall R : Runtime,
     exists out,
       serialize_product tee = Ok out /\ ProductOut.price out = zero).
Proof.
  split; [reflexivity|]. split; [reflexivity|]. intros R.
  destruct (absent_price_is_zero R tee eq_refl) as (_ & _ & H).
  exact (H eq_refl).
Defined.

(** C10. In a product document without [sizes] every output has [sizes]
    empty, which is not the four sizes that a product created without
    [sizes] is given by the schema; without [images] every output has
    [images] empty. The document is serialised. *)
Theorem absent_sizes_and_images_are_empty :
  forall (R : Runtime) (doc : pydict),
    (lookup doc "sizes" = None ->
     (forall out,
        serialize_product doc = Ok out ->
        ProductOut.sizes out = [] /\
        ProductOut.sizes out <> ["S"; "M"; "L"; "XL"]) /\
     (product_shape doc = true ->
      exists out, serialize_product doc = Ok out /\ ProductOut.sizes out = []))
    /\
    (lookup doc "images" = None ->
     (forall out,
        serialize_product doc = Ok out -> ProductOut.images out = []) /\
     (product_shape doc = true ->
      exists out,
        serialize_product doc = Ok out /\ ProductOut.images out = [])) /\
    (forall body,
       lookup body "sizes" = None ->
       Product.v_sizes body = Some ["S"; "M"; "L"; "XL"]).
Proof.
  intros R doc. split; [|split]; [intros Ha|intros Ha|].
  - assert (Hall : forall out,
               serialize_product doc = Ok out -> ProductOut.sizes out = []).
    { intros out Hout. apply serialize_product_fields in Hout.
      destruct Hout as (_ & _ & _ & _ & _ & _ & Hsz & _).
      rewrite (get_absent _ _ _ Ha) in Hsz. now inversion Hsz. }
    split.
    + intros out Hout. rewrite (Hall out Hout). split; [reflexivity|].
      discriminate.
    + intros Hshape.
      destruct (serialize_product_returns doc Hshape) as [out Hout].
      exists out. auto.
  - assert (Hall : forall out,
               serialize_product doc = Ok out -> ProductOut.images out = []).
    { intros out Hout. apply serialize_product_fields in Hout.
      destruct Hout as (_ & _ & _ & _ & _ & Him & _).
      rewrite (get_absent _ _ _ Ha) in Him. now inversion Him. }
    split; auto.
    intros Hshape.
    destruct (serialize_product_returns doc Hshape) as [out Hout].
    exists out. auto.
  - intros body Hb. unfold Product.v_sizes, Product.defaulted.
    now rewrite Hb.
Qed.

(** The theorem at a product document without [sizes] and [images]. *)
Lemma absent_sizes_and_images_are_empty_witness :
  lookup tee "sizes" = None /\ lookup tee "images" = None /\
  product_shape tee = true /\
  (forall R : Runtime,
     (exists out,
        serialize_product tee = Ok out /\ ProductOut.sizes out = []) /\
     (exists out,
        serialize_product tee = Ok out /\ ProductOut.images out = [])).
Proof.
  split; [reflexivity|]. split; [reflexivity|]. split; [reflexivity|].
  intros R.
  destruct (absent_sizes_and_images_are_empty R tee) as (Hs & Hi & _).
  destruct (Hs eq_refl) as [_ Hs']. destruct (Hi eq_refl) as [_ Hi'].
  split; [exact (Hs' eq_refl) | exact (Hi' eq_refl)].
Defined.

(** ** Filters *)

(** The filter built by [list_products] is the list of the conditions of
    the parameters that are set, in the order the handler tests them. *)
Lemma product_filter_entries (category : option string)
  (trending new best : option bool) (season : option string)
  (sale : option bool) (q : option string) :
  product_filter category trending new best season sale q
  = filter_of_set category trending new best season sale q.
Proof.
  destruct category as [[|c0 c]|], season as [[|s0 s]|], q as [[|q0 q]|],
    trending, new, best, sale; reflexivity.
Qed.

Lemma filter_keys_distinct (category : option string)
  (trending new best : option bool) (season : option string)
  (sale : option bool) (q : option string) :
  NoDup (map fst (filter_of_set category trending new best season sale q)).
Proof.
  destruct category as [[|c0 c]|], season as [[|s0 s]|], q as [[|q0 q]|],
    trending, new, best, sale; cbn;
    repeat (constructor; [cbn; intuition discriminate|]); constructor.
Qed.

Section FilterFacts.
Context {R : Runtime}.

(** A document matches a filter exactly when every condition holds of it. *)
Lemma doc_matches_all (filt doc : pydict) :
  doc_matches filt doc = Some true <-> all_hold filt doc.
Proof.
  unfold all_hold. induction filt as [|[k cond] filt IH]; simpl.
  - split; auto.
  - split.
    + destruct (field_matches cond (lookup doc k)) as [[|]|] eqn:Hhd;
        destruct (doc_matches filt doc) as [[|]|]; try discriminate.
      intros _. constructor; [exact Hhd | now apply IH].
    + intros H. inversion H as [|? ? Hhd Htl]; subst. simpl in Hhd.
      rewrite Hhd. apply IH in Htl. now rewrite Htl.
Qed.

Lemma doc_matches_app (f g doc : pydict) :
  doc_matches (f ++ g)%list doc = Some true <->
  doc_matches f doc = Some true /\ doc_matches g doc = Some true.
Proof.
  rewrite !doc_matches_all. unfold all_hold. apply Forall_app.
Qed.

End FilterFacts.

(** C2, as stated, fails: an empty [category] is a parameter that is set,
    and contributes no condition. *)
Lemma empty_category_adds_no_condition :
  product_filter (Some EmptyString) None None None None None None = [] /\
  filter_of_non_null (Some EmptyString) None None None None None None
  = [("category", VStr EmptyString)].
Proof. split; reflexivity. Qed.

(** C2, amended: the filter holds exactly one condition for each flag that
    is sent ([trending], [new], [best], [sale], true or false alike) and for
    each of [category], [season], [q] that is sent and not empty, on the
    stored field of that parameter, and nothing else; a document matches it
    exactly when all its conditions hold; with no parameter it is empty. *)
Theorem product_filter_conjunction :
  forall (category : option string) (trending new best : option bool)
         (season : option string) (sale : option bool) (q : option string),
    let filt := product_filter category trending new best season sale q in
    filt = filter_of_set category trending new best season sale q /\
    NoDup (map fst filt) /\
    lookup filt "category" = option_map VStr (nonempty category) /\
    lookup filt "season" = option_map VStr (nonempty season) /\
    lookup filt "is_trending" = option_map VBool trending /\
    lookup filt "is_new" = option_map VBool new /\
    lookup filt "is_best_seller" = option_map VBool best /\
    lookup filt "on_sale" = option_map VBool sale /\
    lookup filt "title" = option_map regex_i (nonempty q) /\
    (forall (R : Runtime) (doc : pydict),
       doc_matches filt doc = Some true <-> all_hold filt doc) /\
    product_filter None None None None None None None = [].
Proof.
  intros category trending new best season sale q filt.
  split; [apply product_filter_entries|].
  split; [unfold filt; rewrite product_filter_entries;
          apply filter_keys_distinct|].
  repeat split;
    try (unfold filt;
         destruct category as [[|c0 c]|], season as [[|s0 s]|],
           q as [[|q0 q]|], trending, new, best, sale; reflexivity);
    try (now apply doc_matches_all).
Qed.

(** No condition of a filter compares a field with the empty text. *)
Lemma filter_of_set_no_empty_text (category : option string)
  (trending new best : option bool) (season : option string)
  (sale : option bool) (q : option string) (k : string) :
  lookup (filter_of_set category trending new best season sale q) k
  <> Some (VStr EmptyString).
Proof.
  assert (H : Forall (fun kc : string * value => snd kc <> VStr EmptyString)
                (filter_of_set category trending new best season sale q)).
  { destruct category as [[|c0 c]|], season as [[|s0 s]|], q as [[|q0 q]|],
      trending, new, best, sale; cbn;
      repeat (constructor; [cbn; discriminate|]); constructor. }
  induction H as [|[k' v] l Hv _ IH]; simpl.
  - discriminate.
  - destruct (String.eqb k' k); [|exact IH].
    intros [= E]. now apply Hv.
Qed.

(** C8. An empty [category], [season] or [q] builds the filter that the
    parameter left out builds, whatever the other parameters are, and no
    filter holds a condition of equality with the empty text. *)
Theorem empty_text_is_unset :
  forall (category : option string) (trending new best : option bool)
         (season : option string) (sale : option bool) (q : option string),
    product_filter (Some EmptyString) trending new best season sale q
    = product_filter None trending new best season sale q /\
    product_filter category trending new best (Some EmptyString) sale q
    = product_filter category trending new best None sale q /\
    product_filter category trending new best season sale (Some EmptyString)
    = product_filter category trending new best season sale None /\
    (forall k,
       lookup (product_filter category trending new best season sale q) k
       <> Some (VStr EmptyString)).
Proof.
  intros. repeat split; try (rewrite !product_filter_entries; reflexivity).
  intros k. rewrite product_filter_entries.
  apply filter_of_set_no_empty_text.
Qed.

(** ** Searching a title *)

Lemma ascii_not_continuation (c : ascii) :
  is_ascii c = true -> is_continuation c = false.
Proof.
  unfold is_ascii, is_continuation. intros H. apply N.ltb_lt in H.
  apply andb_false_iff. left. apply N.leb_gt. exact H.
Qed.

Lemma literal_cons (c : ascii) (q : string) :
  literal (String c q) = true ->
  Ascii.eqb c "." = false /\ is_meta c = false /\ is_ascii c = true /\
  literal q = true.
Proof.
  simpl. intros H.
  repeat (apply andb_true_iff in H; destruct H as [H ?]).
  apply negb_true_iff in H. repeat split; auto. now apply negb_true_iff.
Qed.

(** The characters of a literal text are its bytes. *)
Lemma split_chars_literal (q : string) :
  literal q = true ->
  split_chars q = (EmptyString, map single (list_ascii_of_string q)).
Proof.
  induction q as [|c q IH]; [reflexivity|].
  intros H. apply literal_cons in H. destruct H as (_ & _ & Ha & Hq).
  simpl. rewrite (IH Hq), (ascii_not_continuation c Ha). reflexivity.
Qed.

Lemma chars_literal (q : string) :
  literal q = true -> chars q = map single (list_ascii_of_string q).
Proof. intros H. unfold chars. now rewrite split_chars_literal. Qed.

(** A literal text compiles to the sequence of its characters. *)
Lemma compile_literal (q : string) :
  literal q = true -> compile q = Some (map Lit (list_ascii_of_string q)).
Proof.
  induction q as [|c q IH]; [reflexivity|].
  intros H. apply literal_cons in H. destruct H as (Hd & Hm & Ha & Hq).
  simpl. rewrite Hd, Hm, Ha, (IH Hq). reflexivity.
Qed.

(** The characters of an ASCII text are its bytes. *)
Lemma chars_ascii (t : string) :
  ascii_text t = true -> chars t = map single (list_ascii_of_string t).
Proof.
  unfold chars, ascii_text.
  assert (H : forallb is_ascii (list_ascii_of_string t) = true ->
              split_chars t
              = (EmptyString, map single (list_ascii_of_string t))).
  { induction t as [|c t IH]; [reflexivity|]. simpl.
    intros H. apply andb_true_iff in H. destruct H as [Hc Ht].
    now rewrite (IH Ht), (ascii_not_continuation c Hc). }
  intros Ht. now rewrite (H Ht).
Qed.

Section SearchFacts.
Context {R : Runtime}.

Lemma matches_at_spec (atoms : list atom) (text : list string) :
  matches_at atoms text = true <->
  exists mid post,
    text = (mid ++ post)%list /\
    Forall2 (fun a ch => atom_matches a ch = true) atoms mid.
Proof.
  revert text. induction atoms as [|a atoms IH]; intros text; simpl.
  - split; [|reflexivity]. intros _. exists [], text. split; constructor.
  - destruct text as [|ch text].
    + split; [discriminate|]. intros (mid & post & E & F).
      inversion F; subst. discriminate.
    + rewrite andb_true_iff, IH. split.
      * intros (Ha & mid & post & -> & F).
        exists (ch :: mid), post. split; [reflexivity|]. now constructor.
      * intros (mid & post & E & F). inversion F as [|? y ? mid' Ha F']; subst.
        injection E as -> ->. split; [exact Ha|]. now exists mid', post.
Qed.

Lemma search_spec (atoms : list atom) (text : list string) :
  search atoms text = true <->
  exists pre mid post,
    text = (pre ++ mid ++ post)%list /\
    Forall2 (fun a ch => atom_matches a ch = true) atoms mid.
Proof.
  induction text as [|ch text IH]; simpl; rewrite orb_true_iff.
  - rewrite matches_at_spec. split.
    + intros [(mid & post & E & F)|]; [|discriminate].
      now exists [], mid, post.
    + intros (pre & mid & post & E & F). left.
      symmetry in E. apply app_eq_nil in E. destruct E as [-> E].
      now exists mid, post.
  - rewrite matches_at_spec, IH. split.
    + intros [(mid & post & E & F)|(pre & mid & post & -> & F)].
      * now exists [], mid, post.
      * now exists (ch :: pre), mid, post.
    + intros (pre & mid & post & E & F). destruct pre as [|p pre].
      * left. now exists mid, post.
      * right. injection E as -> ->. now exists pre, mid, post.
Qed.

(** On a character of one byte, a literal matches exactly when the two are
    equal up to case. *)
Lemma lit_matches_single (c d : ascii) :
  atom_matches (Lit c) (single d) = true <->
  fold_case (single c) = fold_case (single d).
Proof.
  simpl. rewrite Ascii.eqb_eq. split; [now intros -> | now intros [= ->]].
Qed.

(** A literal matches every character equal to it up to case. *)
Lemma lit_matches_fold (c : ascii) (ch : string) :
  fold_case (single c) = fold_case ch -> atom_matches (Lit c) ch = true.
Proof.
  destruct ch as [|d [|e ch]]; simpl; try discriminate.
  intros [= ->]. apply Ascii.eqb_refl.
Qed.

Lemma literal_atoms_of_fold (cs : list ascii) (mid : list string) :
  Forall2 (fun a b => fold_case a = fold_case b) (map single cs) mid ->
  Forall2 (fun a ch => atom_matches a ch = true) (map Lit cs) mid.
Proof.
  revert mid. induction cs as [|c cs IH]; intros mid F;
    inversion F; subst; constructor.
  - now apply lit_matches_fold.
  - now apply IH.
Qed.

Lemma literal_atoms_fold (cs ds : list ascii) :
  Forall2 (fun a ch => atom_matches a ch = true) (map Lit cs) (map single ds)
  ->
  Forall2 (fun a b => fold_case a = fold_case b) (map single cs)
    (map single ds).
Proof.
  revert ds. induction cs as [|c cs IH]; intros [|d ds] F;
    inversion F; subst; constructor.
  - now apply lit_matches_single.
  - now apply IH.
Qed.

(** A part of a list of one-byte characters is one. *)
Lemma part_of_singles (ds : list ascii) (pre mid post : list string) :
  map single ds = (pre ++ mid ++ post)%list ->
  exists ms, mid = map single ms.
Proof.
  intros E.
  apply map_eq_app in E. destruct E as (l1 & l2 & _ & _ & E).
  apply map_eq_app in E. destruct E as (ms & l3 & _ & E & _).
  now exists ms.
Qed.

(** The condition added for a literal [q] holds of every text in which [q]
    occurs up to case. *)
Lemma regex_literal_found (q title : string) :
  literal q = true -> ci_substring q title ->
  value_matches (regex_i q) (VStr title) = Some true.
Proof.
  intros Hq. unfold value_matches, regex_i, regex_search. cbn [lookup].
  cbn [String.eqb Ascii.eqb Bool.eqb]. cbn match.
  rewrite (compile_literal q Hq). unfold ci_substring.
  rewrite (chars_literal q Hq).
  intros (pre & mid & post & E & F). f_equal. apply search_spec.
  exists pre, mid, post. split; [exact E|]. now apply literal_atoms_of_fold.
Qed.

(** On an ASCII text it holds exactly when [q] occurs in it up to case. *)
Lemma regex_literal_substring (q title : string) :
  literal q = true -> ascii_text title = true ->
  (value_matches (regex_i q) (VStr title) = Some true <-> ci_substring q title).
Proof.
  intros Hq Ht. split; [|now apply regex_literal_found].
  unfold value_matches, regex_i, regex_search. cbn [lookup].
  cbn [String.eqb Ascii.eqb Bool.eqb]. cbn match.
  rewrite (compile_literal q Hq). unfold ci_substring.
  rewrite (chars_literal q Hq), (chars_ascii title Ht).
  intros [= H]. apply search_spec in H.
  destruct H as (pre & mid & post & E & F).
  exists pre, mid, post. split; [exact E|].
  destruct (part_of_singles _ _ _ _ E) as [ms ->].
  now apply literal_atoms_fold.
Qed.

(** The condition on the title, on a document whose title is a text. *)
Lemma title_condition (q title : string) (doc : pydict) :
  lookup doc "title" = Some (VStr title) ->
  (doc_matches [("title", regex_i q)] doc = Some true <->
   value_matches (regex_i q) (VStr title) = Some true).
Proof.
  intros Ht. cbn [doc_matches]. rewrite Ht. cbn [field_matches].
  destruct (value_matches (regex_i q) (VStr title)) as [[|]|];
    split; try discriminate; reflexivity.
Qed.

End SearchFacts.

(** A filter with a search text is the filter without it, followed by the
    condition on the title. *)
Lemma product_filter_q (category : option string)
  (trending new best : option bool) (season : option string)
  (sale : option bool) (q : string) :
  q <> EmptyString ->
  product_filter category trending new best season sale (Some q)
  = (product_filter category trending new best season sale None
     ++ [("title", regex_i q)])%list.
Proof.
  intros Hq. rewrite !product_filter_entries.
  destruct q as [|q0 q]; [contradiction|].
  destruct category as [[|c0 c]|], season as [[|s0 s]|],
    trending, new, best, sale; reflexivity.
Qed.

(** C3, as stated, fails: the search text is a pattern, and its dot stands
    for any character; [a.c] is found in the title [abc], in which it does
    not occur. *)
Lemma dot_matches_any_character :
  (forall R : Runtime,
     doc_matches
       (product_filter None None None None None None (Some "a.c"))
       [("title", VStr "abc")] = Some true) /\
  ~ ci_substring "a.c" "abc".
Proof.
  split; [reflexivity|].
  intros (pre & mid & post & E & F). cbn in E, F.
  inversion F as [|a x ? ? _ F1]; subst.
  inversion F1 as [|b y ? ? Hb F2]; subst.
  inversion F2 as [|c z ? ? _ F3]; subst.
  inversion F3; subst.
  destruct pre as [|p0 [|p1 [|p2 [|p3 pre]]]]; cbn in E; try discriminate.
  injection E as _ E _ _. subst y. discriminate.
Qed.

(** C3, amended: the search text is a pattern searched for in the title,
    unanchored and without regard to case. For every non-empty [q] made of
    ASCII characters that are not special in a pattern, and every document
    whose title is a text: the filter with [q] matches the document
    whenever the filter without [q] does and [q] occurs in the title up to
    the case of ASCII letters; it matches no document that the filter
    without [q] does not match; and when the title is made of ASCII
    characters, it matches the document exactly when the filter without [q]
    does and [q] occurs in the title up to the case of ASCII letters.
    Beyond ASCII titles the converse fails: the caseless search finds [k]
    in a title that holds the Kelvin sign, in which [k] does not occur. *)
Theorem literal_q_is_substring_search :
  forall R : Runtime,
    (forall (category : option string) (trending new best : option bool)
            (season : option string) (sale : option bool)
            (q title : string) (doc : pydict),
       q <> EmptyString ->
       literal q = true ->
       lookup doc "title" = Some (VStr title) ->
       (doc_matches
          (product_filter category trending new best season sale None) doc
        = Some true /\
        ci_substring q title ->
        doc_matches
          (product_filter category trending new best season sale (Some q)) doc
        = Some true) /\
       (doc_matches
          (product_filter category trending new best season sale (Some q)) doc
        = Some true ->
        doc_matches
          (product_filter category trending new best season sale None) doc
        = Some true) /\
       (ascii_text title = true ->
        (doc_matches
           (product_filter category trending new best season sale (Some q))
           doc
         = Some true
         <->
         doc_matches
           (product_filter category trending new best season sale None) doc
         = Some true /\
         ci_substring q title))) /\
    doc_matches (product_filter None None None None None None (Some "k"))
      [("title", VStr kelvins)] = Some true /\
    ~ ci_substring "k" kelvins.
Proof.
  intros R. split; [|split].
  - intros category trending new best season sale q title doc Hne Hq Ht.
    rewrite (product_filter_q _ _ _ _ _ _ q Hne), doc_matches_app.
    rewrite (title_condition q title doc Ht).
    split; [|split].
    + intros [Hrest Hsub]. split; [exact Hrest|].
      now apply regex_literal_found.
    + now intros [Hrest _].
    + intros Hascii. now rewrite (regex_literal_substring q title Hq Hascii).
  - reflexivity.
  - intros (pre & mid & post & E & F). cbn in E, F.
    inversion F as [|a x ? ? Hx F1]; subst. inversion F1; subst.
    destruct pre as [|p0 [|p1 [|p2 [|p3 [|p4 [|p5 pre]]]]]]; cbn in E;
      try discriminate; injection E; intros; subst; discriminate.
Qed.

(** The theorem at the search text [tee] and the first sample product. *)
Lemma literal_q_is_substring_search_witness :
  "tee" <> EmptyString /\ literal "tee" = true /\
  lookup (nth 0 sample_products []) "title" = Some (VStr "Classic Black Tee") /\
  ascii_text "Classic Black Tee" = true /\
  (forall R : Runtime,
     doc_matches
       (product_filter None (Some true) None None None None (Some "tee"))
       (nth 0 sample_products []) = Some true
     <->
     doc_matches
       (product_filter None (Some true) None None None None None)
       (nth 0 sample_products []) = Some true /\
     ci_substring "tee" "Classic Black Tee").
Proof.
  split; [discriminate|]. split; [reflexivity|]. split; [reflexivity|].
  split; [reflexivity|]. intros R.
  destruct (literal_q_is_substring_search R) as [H _].
  destruct (H None (Some true) None None None None
              "tee" "Classic Black Tee" (nth 0 sample_products []))
    as (_ & _ & Hiff); [discriminate | reflexivity | reflexivity |].
  exact (Hiff eq_refl).
Defined.

(** ** Looking a product up *)

Lemma ObjectId_ok (s : string) (oid : value) :
  ObjectId s = Ok oid -> exists hex, oid = VObjectId hex.
Proof.
  unfold ObjectId. destruct (List.length (chars s) =? 24)%nat; [|discriminate].
  destruct (fromhex s) as [hex|]; [|discriminate].
  intros [= <-]. now exists hex.
Qed.

Lemma hex_not_space (c : ascii) : is_hex c = true -> is_space c = false.
Proof.
  destruct c as [[] [] [] [] [] [] [] []]; try discriminate; reflexivity.
Qed.

Lemma hex_is_ascii (c : ascii) : is_hex c = true -> is_ascii c = true.
Proof.
  destruct c as [[] [] [] [] [] [] [] []]; try discriminate; reflexivity.
Qed.

(** The characters of a text of hexadecimal digits are its bytes. *)
Lemma split_chars_hex (s : string) :
  forallb is_hex (list_ascii_of_string s) = true ->
  split_chars s = (EmptyString, map single (list_ascii_of_string s)).
Proof.
  induction s as [|c s IH]; [reflexivity|]. simpl.
  intros H. apply andb_true_iff in H. destruct H as [Hc Hs].
  rewrite (IH Hs), (ascii_not_continuation c (hex_is_ascii c Hc)).
  reflexivity.
Qed.

Lemma fromhex_digits (n : nat) (s : string) :
  String.length s = (2 * n)%nat ->
  forallb is_hex (list_ascii_of_string s) = true ->
  fromhex s = Some (fold_case s).
Proof.
  revert s. induction n as [|n IH]; intros s Hlen Hhex.
  - destruct s; [reflexivity | discriminate].
  - destruct s as [|c [|d s]]; try (simpl in Hlen; lia).
    cbn [list_ascii_of_string forallb] in Hhex.
    apply andb_true_iff in Hhex. destruct Hhex as [Hc Hhex].
    apply andb_true_iff in Hhex. destruct Hhex as [Hd Hhex].
    cbn [fromhex fold_case].
    rewrite (hex_not_space c Hc), Hc, Hd, (IH s); [reflexivity| |exact Hhex].
    simpl in Hlen. lia.
Qed.

Lemma length_bytes (s : string) :
  List.length (list_ascii_of_string s) = String.length s.
Proof. induction s as [|c s IH]; simpl; congruence. Qed.

(** A well-formed identifier parses, to itself in lower case. *)
Lemma ObjectId_well_formed (s : string) :
  well_formed s = true -> ObjectId s = Ok (VObjectId (fold_case s)).
Proof.
  unfold well_formed, ObjectId. intros H.
  apply andb_true_iff in H. destruct H as [Hlen Hhex].
  unfold chars. rewrite (split_chars_hex s Hhex). cbn [snd].
  rewrite length_map, length_bytes, Hlen. apply Nat.eqb_eq in Hlen.
  now rewrite (fromhex_digits 12 s).
Qed.

Lemma hd_error_filter {A} (f : A -> bool) (l : list A) :
  hd_error (filter f l) = List.find f l.
Proof.
  induction l as [|a l IH]; [reflexivity|]. simpl.
  destruct (f a); [reflexivity | exact IH].
Qed.

Section LookupFacts.
Context {R : Runtime}.

(** A query for an identifier selects the documents that have it. *)
Lemma select_by_id (hex : string) (docs : list pydict) :
  select [("_id", VObjectId hex)] docs
  = Ok (filter (has_id (VObjectId hex)) docs).
Proof.
  induction docs as [|doc docs IH]; [reflexivity|].
  assert (Hm : doc_matches [("_id", VObjectId hex)] doc
               = Some (has_id (VObjectId hex) doc)).
  { cbn [doc_matches]. unfold has_id, field_matches.
    destruct (lookup doc "_id") as [fv|]; cbn;
      [now rewrite andb_true_r | reflexivity]. }
  cbn [select]. rewrite Hm, IH. reflexivity.
Qed.

Lemma get_product_connected (product_id : string) (w : world) (d : database) :
  db w = Some d ->
  get_product product_id w
  = match ObjectId product_id with
    | Ok oid =>
        let w' :=
          {| db := Some d;
             calls := (calls w ++ [FindOne "product" [("_id", oid)]])%list |} in
        match List.find (has_id oid) (collection d "product") with
        | Some doc => (serialize_product doc, w')
        | None => (Raise (HTTPException 404 "Product not found"), w')
        end
    | Raise _ => (Raise (HTTPException 400 "Invalid product id"), w)
    end.
Proof.
  intros Hdb. unfold get_product, bind, db_is_None, try_except, lift.
  rewrite Hdb. cbn match.
  destruct (ObjectId product_id) as [oid|e] eqn:Hoid; [|reflexivity].
  destruct (ObjectId_ok _ _ Hoid) as [hex ->].
  unfold find_one, on_db. rewrite Hdb, select_by_id. cbn [rbind].
  rewrite hd_error_filter.
  destruct (List.find (has_id (VObjectId hex)) (collection d "product"))
    as [doc|] eqn:Hf; [|reflexivity].
  apply find_some in Hf. destruct Hf as [_ Hid].
  unfold has_id in Hid. destruct doc as [|kv doc]; [discriminate|].
  reflexivity.
Qed.



End LookupFacts.




(** ** Listing products *)

Lemma rmap_length {A B} (f : A -> result B) (xs : list A) (ys : list B) :
  rmap f xs = Ok ys -> List.length ys = List.length xs.
Proof.
  revert ys. induction xs as [|x xs IH]; simpl; intros ys.
  - now intros [= <-].
  - destruct (f x) as [y|]; [|discriminate]. cbn [rbind].
    destruct (rmap f xs) as [ys'|]; [|discriminate]. cbn [rbind].
    intros [= <-]. simpl. now rewrite (IH ys' eq_refl).
Qed.

Lemma rmap_returns {A B} (f : A -> result B) (xs : list A) :
  Forall (fun x => exists y, f x = Ok y) xs -> exists ys, rmap f xs = Ok ys.
Proof.
  induction 1 as [|x xs [y Hy] _ [ys Hys]]; simpl.
  - now exists [].
  - rewrite Hy, Hys. now exists (y :: ys).
Qed.

Lemma cursor_limit_length (l : Z) (docs : list pydict) :
  1 <= l -> Z.of_nat (List.length (cursor_limit l docs)) <= l.
Proof.
  intros Hl. unfold cursor_limit.
  destruct (l =? 0) eqn:E; [apply Z.eqb_eq in E; lia|].
  pose proof (firstn_le_length (Z.to_nat (Z.abs l)) docs). lia.
Qed.

Lemma incl_keep {A} (a : A) (l m : list A) :
  incl l m -> incl (a :: l) (a :: m).
Proof.
  intros H. apply incl_cons; [now left | now apply incl_tl].
Qed.

Lemma firstn_incl {A} (n : nat) (l : list A) : incl (firstn n l) l.
Proof.
  revert l. induction n as [|n IH]; intros l; simpl.
  - intros x [].
  - destruct l as [|a l]; [intros x []|]. apply incl_keep, IH.
Qed.

Lemma cursor_limit_incl (l : Z) (docs : list pydict) :
  incl (cursor_limit l docs) docs.
Proof.
  unfold cursor_limit. destruct (l =? 0); [apply incl_refl|].
  apply firstn_incl.
Qed.

Section ListingFacts.
Context {R : Runtime}.

Lemma select_incl (filt : pydict) (docs sel : list pydict) :
  select filt docs = Ok sel -> incl sel docs.
Proof.
  revert sel. induction docs as [|doc docs IH]; simpl; intros sel.
  - intros [= <-]. apply incl_refl.
  - destruct (doc_matches filt doc) as [b|]; [|discriminate].
    destruct (select filt docs) as [rest|]; [|discriminate]. cbn [rbind].
    intros [= <-]. specialize (IH rest eq_refl).
    destruct b; [now apply incl_keep | now apply incl_tl].
Qed.

Lemma select_returns (filt : pydict) (docs : list pydict) :
  (forall doc, exists b, doc_matches filt doc = Some b) ->
  exists sel, select filt docs = Ok sel.
Proof.
  intros H. induction docs as [|doc docs [rest IH]]; simpl.
  - now exists [].
  - destruct (H doc) as [b ->]. rewrite IH. cbn [rbind]. eauto.
Qed.

Lemma regex_any_literal (q : string) (xs : list value) :
  literal q = true -> exists b, regex_any q "i" xs = Some b.
Proof.
  intros Hq. induction xs as [|x xs [b IH]]; simpl; [eauto|].
  destruct x; eauto. unfold regex_search. rewrite (compile_literal q Hq).
  cbn. rewrite IH. eauto.
Qed.

Lemma doc_matches_decides (filt doc : pydict) :
  Forall (fun kc => forall fv, exists b, value_matches (snd kc) fv = Some b)
    filt ->
  exists b, doc_matches filt doc = Some b.
Proof.
  induction 1 as [|[k cond] filt Hc _ [b IH]]; simpl; [eauto|].
  rewrite IH. unfold field_matches.
  destruct (lookup doc k) as [fv|]; [|eauto].
  destruct (Hc fv) as [b' Hb']. cbn [snd] in Hb'. rewrite Hb'. eauto.
Qed.

Lemma entry_decides (k : string) (cond : option value) :
  (forall v fv, cond = Some v -> exists b, value_matches v fv = Some b) ->
  Forall (fun kc => forall fv, exists b, value_matches (snd kc) fv = Some b)
    (entry k cond).
Proof.
  intros H. destruct cond as [v|]; simpl; constructor; [|constructor].
  intros fv. now apply H.
Qed.

(** The store answers every query built with a search text of the
    fragment. *)
Lemma product_filter_decides (category : option string)
  (trending new best : option bool) (season : option string)
  (sale : option bool) (q : option string) (doc : pydict) :
  searchable q = true ->
  exists b,
    doc_matches (product_filter category trending new best season sale q) doc
    = Some b.
Proof.
  intros Hq. apply doc_matches_decides. rewrite product_filter_entries.
  unfold filter_of_set, filter_of_non_null.
  repeat (apply Forall_app; split); apply entry_decides; intros v fv E;
    try (destruct (nonempty category); [|discriminate]);
    try (destruct (nonempty season); [|discriminate]);
    try (destruct trending; [|discriminate]);
    try (destruct new; [|discriminate]);
    try (destruct best; [|discriminate]);
    try (destruct sale; [|discriminate]);
    try (injection E as <-; cbn; eauto; fail).
  unfold searchable in Hq. destruct (nonempty q) as [s|]; [|discriminate].
  injection E as <-. unfold value_matches, regex_i. cbn [lookup].
  cbn [String.eqb Ascii.eqb Bool.eqb]. cbn match.
  destruct fv; eauto.
  - unfold regex_search. rewrite (compile_literal s Hq). cbn. eauto.
  - now apply regex_any_literal.
Qed.

Lemma list_products_disconnected (category : option string)
  (trending new best : option bool) (season : option string)
  (sale : option bool) (q : option string) (limit : Z) (w : world) :
  db w = None ->
  list_products category trending new best season sale q limit w = (Ok [], w).
Proof.
  intros Hdb. unfold list_products, bind, db_is_None. now rewrite Hdb.
Qed.

Lemma list_products_connected (category : option string)
  (trending new best : option bool) (season : option string)
  (sale : option bool) (q : option string) (limit : Z) (w : world)
  (d : database) :
  db w = Some d ->
  fst (list_products category trending new best season sale q limit w)
  = (docs <-
       select (product_filter category trending new best season sale q)
         (collection d "product") ;;
     rmap serialize_product (cursor_limit limit docs))%result.
Proof.
  intros Hdb. unfold list_products, bind, db_is_None, find, on_db, lift.
  rewrite Hdb. cbv beta iota. rewrite Hdb.
  destruct (select _ (collection d "product")) as [docs|]; reflexivity.
Qed.

(** The handler answers with at most [limit] records. *)
Lemma list_products_bound (category : option string)
  (trending new best : option bool) (season : option string)
  (sale : option bool) (q : option string) (limit : Z) (w : world)
  (rs : list ProductOut.t) :
  1 <= limit ->
  fst (list_products category trending new best season sale q limit w) = Ok rs ->
  Z.of_nat (List.length rs) <= limit.
Proof.
  intros Hl. destruct (db w) as [d|] eqn:Hdb.
  - rewrite (list_products_connected _ _ _ _ _ _ _ _ _ d Hdb).
    destruct (select _ (collection d "product")) as [docs|]; [|discriminate].
    cbn [rbind]. intros H. rewrite (rmap_length _ _ _ H).
    now apply cursor_limit_length.
  - rewrite list_products_disconnected by exact Hdb.
    intros [= <-]. simpl. lia.
Qed.

(** On a store of product documents, and a search text of the fragment,
    the handler answers. *)
Lemma list_products_returns (category : option string)
  (trending new best : option bool) (season : option string)
  (sale : option bool) (q : option string) (limit : Z) (w : world)
  (d : database) :
  db w = Some d -> searchable q = true ->
  Forall (fun doc => product_shape doc = true) (collection d "product") ->
  exists rs,
    fst (list_products category trending new best season sale q limit w)
    = Ok rs.
Proof.
  intros Hdb Hq Hshape.
  rewrite (list_products_connected _ _ _ _ _ _ _ _ _ d Hdb).
  destruct (select_returns
              (product_filter category trending new best season sale q)
              (collection d "product")) as [docs Hsel].
  { intros doc. now apply product_filter_decides. }
  rewrite Hsel. cbn [rbind]. apply rmap_returns.
  apply Forall_forall. intros doc Hin. apply serialize_product_returns.
  rewrite Forall_forall in Hshape. apply Hshape.
  apply (select_incl _ _ _ Hsel). now apply (cursor_limit_incl limit).
Qed.

End ListingFacts.

(** C5. A [limit] outside 1..100 is refused with a validation error
    (status 422) and the world is left as it was: no call is made to the
    store. Without [limit] the request is the one with [limit] 24. With a
    [limit] in range every answer holds at most [limit] records (at most 1
    for 1, at most 100 for 100); there is an answer when no store is
    connected (the empty list) and when the product collection holds
    product documents and the search text is of the fragment modelled. *)
Theorem limit_is_validated :
  forall (R : Runtime) (category : option string)
         (trending new best : option bool) (season : option string)
         (sale : option bool) (q : option string) (w : world),
    (forall l,
       l < 1 \/ 100 < l ->
       get_api_products category trending new best season sale q (Some l) w
       = (Raise (RequestValidationError ["limit"]), w)) /\
    status_of (RequestValidationError ["limit"]) = 422 /\
    get_api_products category trending new best season sale q None w
    = get_api_products category trending new best season sale q (Some 24) w /\
    (forall l rs,
       1 <= l <= 100 ->
       fst (get_api_products category trending new best season sale q
              (Some l) w) = Ok rs ->
       Z.of_nat (List.length rs) <= l) /\
    (forall l,
       1 <= l <= 100 -> db w = None ->
       get_api_products category trending new best season sale q (Some l) w
       = (Ok [], w)) /\
    (forall l d,
       1 <= l <= 100 -> db w = Some d -> searchable q = true ->
       Forall (fun doc => product_shape doc = true)
         (collection d "product") ->
       exists rs,
         fst (get_api_products category trending new best season sale q
                (Some l) w) = Ok rs /\
         Z.of_nat (List.length rs) <= l).
Proof.
  intros R category trending new best season sale q w.
  assert (Hin : forall l,
             1 <= l <= 100 ->
             get_api_products category trending new best season sale q
               (Some l) w
             = list_products category trending new best season sale q l w).
  { intros l [H1 H2]. unfold get_api_products, bind, lift, Query.
    apply Z.leb_le in H1, H2. now rewrite H1, H2. }
  split; [|split; [|split; [|split; [|split]]]].
  - intros l Hl. unfold get_api_products, bind, lift, Query.
    destruct (1 <=? l) eqn:E1; destruct (l <=? 100) eqn:E2; try reflexivity.
    apply Z.leb_le in E1, E2. lia.
  - reflexivity.
  - reflexivity.
  - intros l rs Hl. rewrite (Hin l Hl). apply list_products_bound. lia.
  - intros l Hl Hdb. rewrite (Hin l Hl).
    now apply list_products_disconnected.
  - intros l d Hl Hdb Hq Hshape. rewrite (Hin l Hl).
    destruct (list_products_returns category trending new best season sale q
                l w d Hdb Hq Hshape) as [rs Hrs].
    exists rs. split; [exact Hrs|].
    apply (list_products_bound category trending new best season sale q l w).
    + lia.
    + exact Hrs.
Qed.

(** The theorem at the limits 0 and 1, on a store of one product. *)
Lemma limit_is_validated_witness :
  (0 < 1 \/ 100 < 0) /\ 1 <= 1 <= 100 /\
  db (connected shelf) = Some shelf /\ searchable (Some "tee") = true /\
  Forall (fun doc => product_shape doc = true) (collection shelf "product") /\
  (forall R : Runtime,
     get_api_products None None None None None None (Some "tee") (Some 0)
       (connected shelf)
     = (Raise (RequestValidationError ["limit"]), connected shelf) /\
     exists rs,
       fst (get_api_products None None None None None None (Some "tee")
              (Some 1) (connected shelf)) = Ok rs /\
       Z.of_nat (List.length rs) <= 1).
Proof.
  split; [left; lia|]. split; [lia|]. split; [reflexivity|].
  split; [reflexivity|].
  split; [repeat constructor|]. intros R.
  destruct (limit_is_validated R None None None None None None (Some "tee")
              (connected shelf)) as (Hout & _ & _ & _ & _ & Hret).
  split.
  - apply Hout. left. lia.
  - apply (Hret 1 shelf); [lia | reflexivity | reflexivity |].
    repeat constructor.
Defined.

(** ** Seeding *)

Lemma collection_stored_same (name : string) (d : database) (doc : pydict) :
  collection (stored name d doc) name
  = (collection d name
     ++ [("_id", VObjectId (hex_fixed 24 (oid_counter d))) :: doc])%list.
Proof.
  unfold collection at 1, stored. cbn [collections].
  now rewrite lookup_setitem_eq.
Qed.

Lemma collection_stored_other (name name' : string) (d : database)
  (doc : pydict) :
  name <> name' -> collection (stored name d doc) name' = collection d name'.
Proof.
  intros Hne. unfold collection at 1, stored. cbn [collections].
  now rewrite lookup_setitem_ne.
Qed.

Lemma collection_store_all_same (name : string) (docs : list pydict)
  (d : database) :
  map as_inserted (collection (store_all name docs d) name)
  = (map as_inserted (collection d name) ++ docs)%list.
Proof.
  unfold store_all. revert d.
  induction docs as [|doc docs IH]; intros d; cbn [fold_left].
  - now rewrite app_nil_r.
  - rewrite IH, collection_stored_same, map_app.
    cbn [map as_inserted tl]. now rewrite <- app_assoc.
Qed.

Lemma collection_store_all_other (name name' : string) (docs : list pydict)
  (d : database) :
  name <> name' ->
  collection (store_all name docs d) name' = collection d name'.
Proof.
  intros Hne. unfold store_all. revert d.
  induction docs as [|doc docs IH]; intros d; cbn [fold_left].
  - reflexivity.
  - now rewrite IH, collection_stored_other.
Qed.

(** A collection that holds a record is left as it is by [seed_store]; an
    empty one receives the sample records. *)
Lemma seed_store_banner (d : database) :
  (collection d "banner" = [] ->
   map as_inserted (collection (seed_store d) "banner") = banners) /\
  (collection d "banner" <> [] ->
   collection (seed_store d) "banner" = collection d "banner").
Proof.
  unfold seed_store.
  assert (Hne : "product" <> "banner") by discriminate.
  split; intros Hb.
  - rewrite Hb.
    destruct (collection (store_all "banner" banners d) "product");
      [rewrite collection_store_all_other by exact Hne|];
      now rewrite collection_store_all_same, Hb.
  - destruct (collection d "banner") as [|b bs] eqn:E; [contradiction|].
    destruct (collection d "product");
      [rewrite collection_store_all_other by exact Hne|]; exact E.
Qed.

Lemma seed_store_product (d : database) :
  (collection d "product" = [] ->
   map as_inserted (collection (seed_store d) "product") = sample_products) /\
  (collection d "product" <> [] ->
   collection (seed_store d) "product" = collection d "product").
Proof.
  unfold seed_store.
  assert (Hne : "banner" <> "product") by discriminate.
  assert (Hp : collection
                 match collection d "banner" with
                 | [] => store_all "banner" banners d
                 | _ :: _ => d
                 end "product" = collection d "product").
  { destruct (collection d "banner"); [|reflexivity].
    now apply collection_store_all_other. }
  split; intros Hb.
  - rewrite Hp, Hb. now rewrite collection_store_all_same, Hp, Hb.
  - rewrite Hp. destruct (collection d "product") as [|p ps] eqn:E;
      [contradiction|]. now rewrite Hp.
Qed.

(** After [seed_store] both collections hold a record. *)
Lemma seed_store_seeded (d : database) :
  seeded (collection (seed_store d) "banner") = 0 /\
  seeded (collection (seed_store d) "product") = 0.
Proof.
  destruct (seed_store_banner d) as [Hb0 Hb1].
  destruct (seed_store_product d) as [Hp0 Hp1].
  split.
  - destruct (collection d "banner") as [|b bs] eqn:E.
    + specialize (Hb0 eq_refl).
      destruct (collection (seed_store d) "banner"); [discriminate|].
      reflexivity.
    + rewrite Hb1 by discriminate. reflexivity.
  - destruct (collection d "product") as [|p ps] eqn:E.
    + specialize (Hp0 eq_refl).
      destruct (collection (seed_store d) "product"); [discriminate|].
      reflexivity.
    + rewrite Hp1 by discriminate. reflexivity.
Qed.

Lemma seed_store_idempotent (d : database) :
  seed_store (seed_store d) = seed_store d.
Proof.
  destruct (seed_store_seeded d) as [Hb Hp].
  unfold seed_store at 1.
  destruct (collection (seed_store d) "banner"); [discriminate|].
  destruct (collection (seed_store d) "product"); [discriminate|].
  reflexivity.
Qed.

Section SeedingFacts.
Context {R : Runtime}.

Lemma select_all (docs : list pydict) : select [] docs = Ok docs.
Proof.
  induction docs as [|doc docs IH]; [reflexivity|].
  cbn [select doc_matches]. now rewrite IH.
Qed.

Lemma count_documents_all (name : string) (w : world) (d : database) :
  db w = Some d ->
  count_documents name [] w
  = (Ok (Z.of_nat (List.length (collection d name))),
     {| db := Some d;
        calls := (calls w ++ [CountDocuments name []])%list |}).
Proof.
  intros Hdb. unfold count_documents, on_db. now rewrite Hdb, select_all.
Qed.

Lemma insert_one_fresh (name : string) (doc : pydict) (w : world)
  (d : database) :
  db w = Some d -> lookup doc "_id" = None ->
  insert_one name doc w
  = (Ok (VObjectId (hex_fixed 24 (oid_counter d))),
     {| db := Some (stored name d doc);
        calls := (calls w ++ [InsertOne name doc])%list |}).
Proof.
  intros Hdb Hid. unfold insert_one, on_db. now rewrite Hdb, Hid.
Qed.

(** The loop that inserts the sample records of a collection and counts
    them. *)
Lemma seed_loop (name key : string) (docs : list pydict) (created : pydict)
  (w : world) (d : database) :
  db w = Some d ->
  Forall (fun doc => lookup doc "_id" = None) docs ->
  for_each docs
    (fun x created' =>
       (_ <- insert_one name x ;; ret (increment created' key))%M)
    created w
  = (Ok (fold_left (fun c _ => increment c key) docs created),
     {| db := Some (store_all name docs d);
        calls := (calls w ++ map (InsertOne name) docs)%list |}).
Proof.
  intros Hdb Hids. revert created w d Hdb.
  induction Hids as [|doc docs Hid _ IH]; intros created w d Hdb.
  - cbn. unfold ret. rewrite app_nil_r. destruct w. cbn in *. now subst.
  - cbn [for_each]. unfold bind at 1. unfold bind at 1.
    rewrite (insert_one_fresh name doc w d Hdb Hid). unfold ret at 1.
    rewrite (IH _ _ (stored name d doc)) by reflexivity.
    cbn [calls fold_left map store_all]. now rewrite <- app_assoc.
Qed.

(** [seed_data] on a connected store. *)
Lemma seed_data_connected (w : world) (d : database) :
  db w = Some d ->
  exists cs,
    seed_data w
    = (Ok (report (seeded (collection d "product"))
             (seeded (collection d "banner"))),
       {| db := Some (seed_store d); calls := cs |}).
Proof.
  intros Hdb. unfold seed_data. unfold bind at 1. unfold db_is_None at 1.
  rewrite Hdb. cbv beta iota.
  unfold bind at 1. rewrite (count_documents_all "banner" w d Hdb).
  cbv beta iota. unfold seed_store.
  assert (Hids_b : Forall (fun doc : pydict => lookup doc "_id" = None) banners)
    by (repeat constructor).
  assert (Hids_p : Forall (fun doc : pydict => lookup doc "_id" = None)
                     sample_products) by (repeat constructor).
  destruct (collection d "banner") as [|b bs] eqn:Eb.
  - cbn [List.length Z.of_nat Z.eqb]. unfold bind at 1.
    rewrite (seed_loop "banner" "banners" banners _ _ d) by auto.
    cbv beta iota. unfold bind at 1.
    rewrite (count_documents_all "product" _ (store_all "banner" banners d))
      by reflexivity.
    cbv beta iota.
    rewrite (collection_store_all_other "banner" "product") by discriminate.
    destruct (collection d "product") as [|p ps] eqn:Ep.
    + cbn [List.length Z.of_nat Z.eqb]. unfold bind at 1.
      rewrite (seed_loop "product" "products" sample_products _ _
                 (store_all "banner" banners d)) by auto.
      cbv beta iota. unfold ret. eexists. reflexivity.
    + replace (Z.of_nat (List.length (p :: ps)) =? 0) with false
        by (symmetry; apply Z.eqb_neq; cbn [List.length]; lia).
      unfold bind at 1. unfold ret. eexists. reflexivity.
  - replace (Z.of_nat (List.length (b :: bs)) =? 0) with false
      by (symmetry; apply Z.eqb_neq; cbn [List.length]; lia).
    unfold bind at 1. unfold ret at 1. cbv beta iota. unfold bind at 1.
    rewrite (count_documents_all "product" _ d) by reflexivity.
    cbv beta iota.
    destruct (collection d "product") as [|p ps] eqn:Ep.
    + cbn [List.length Z.of_nat Z.eqb]. unfold bind at 1.
      rewrite (seed_loop "product" "products" sample_products _ _ d) by auto.
      cbv beta iota. unfold ret. eexists. reflexivity.
    + replace (Z.of_nat (List.length (p :: ps)) =? 0) with false
        by (symmetry; apply Z.eqb_neq; cbn [List.length]; lia).
      unfold bind at 1. unfold ret. eexists. reflexivity.
Qed.

End SeedingFacts.

(** C6. On a connected store [seed_data] decides each collection on its
    own: an empty [banner] collection receives the three sample banners and
    is reported with 3, one that holds a record is left as it is and
    reported with 0, whatever the [product] collection holds, and likewise
    for [product]; so an empty store receives 3 banners and 3 products. A
    second call reports 0 and 0 and leaves the store as the first call left
    it. *)
Theorem seed_data_idempotent :
  forall (R : Runtime) (w : world) (d : database),
    db w = Some d ->
    let first := seed_data w in
    let second := seed_data (snd first) in
    exists d',
      db (snd first) = Some d' /\
      fst first
      = Ok (report (seeded (collection d "product"))
              (seeded (collection d "banner"))) /\
      (collection d "banner" = [] ->
       map as_inserted (collection d' "banner") = banners) /\
      (collection d "banner" <> [] ->
       collection d' "banner" = collection d "banner") /\
      (collection d "product" = [] ->
       map as_inserted (collection d' "product") = sample_products) /\
      (collection d "product" <> [] ->
       collection d' "product" = collection d "product") /\
      List.length banners = 3%nat /\ List.length sample_products = 3%nat /\
      fst second = Ok (report 0 0) /\
      db (snd second) = Some d'.
Proof.
  intros R w d Hdb first second. exists (seed_store d).
  destruct (seed_data_connected w d Hdb) as [cs H1].
  assert (Hdb1 : db (snd first) = Some (seed_store d))
    by (unfold first; now rewrite H1).
  destruct (seed_data_connected (snd first) (seed_store d) Hdb1) as [cs' H2].
  destruct (seed_store_seeded d) as [Hb Hp].
  rewrite seed_store_idempotent, Hb, Hp in H2.
  destruct (seed_store_banner d) as [Hb0 Hb1].
  destruct (seed_store_product d) as [Hp0 Hp1].
  split; [exact Hdb1|]. split; [unfold first; now rewrite H1|].
  repeat (split; [assumption || reflexivity|]).
  unfold second. now rewrite H2.
Qed.

(** The theorem on the empty store. *)
Lemma seed_data_idempotent_witness :
  db (connected empty_store) = Some empty_store /\
  collection empty_store "banner" = [] /\
  collection empty_store "product" = [] /\
  (forall R : Runtime,
     fst (seed_data (connected empty_store)) = Ok (report 3 3) /\
     fst (seed_data (snd (seed_data (connected empty_store))))
     = Ok (report 0 0) /\
     exists d',
       db (snd (seed_data (connected empty_store))) = Some d' /\
       map as_inserted (collection d' "banner") = banners /\
       map as_inserted (collection d' "product") = sample_products).
Proof.
  do 3 (split; [reflexivity|]). intros R.
  destruct (seed_data_idempotent R (connected empty_store) empty_store eq_refl)
    as (d' & Hdb & H1 & Hb & _ & Hp & _ & _ & _ & H2 & _).
  split; [exact H1|]. split; [exact H2|].
  exists d'. split; [exact Hdb|]. split; [now apply Hb | now apply Hp].
Defined.

(** ** Validating a product *)

Section ValidationFacts.
Context {R : Runtime}.



Ltac field o :=
  destruct o;
  [|cbn; split; [discriminate | intros [? ?]; discriminate]].


Lemma validate_rejects (body : pydict) :
  Product.errors body <> [] ->
  Product.validate body = Raise (RequestValidationError (Product.errors body)).
Proof.
  intros Hne. unfold Product.validate.
  destruct (Product.v_title body) eqn:E1; [|reflexivity].
  destruct (Product.v_description body) eqn:E2; [|reflexivity].
  destruct (Product.v_price body) eqn:E3; [|reflexivity].
  destruct (Product.v_category body) eqn:E4; [|reflexivity].
  destruct (Product.v_images body) eqn:E5; [|reflexivity].
  destruct (Product.v_sizes body) eqn:E6; [|reflexivity].
  destruct (Product.v_in_stock body) eqn:E7; [|reflexivity].
  destruct (Product.v_is_trending body) eqn:E8; [|reflexivity].
  destruct (Product.v_is_new body) eqn:E9; [|reflexivity].
  destruct (Product.v_is_best_seller body) eqn:E10; [|reflexivity].
  destruct (Product.v_season body) eqn:E11; [|reflexivity].
  destruct (Product.v_on_sale body) eqn:E12; [|reflexivity].
  destruct (Product.v_sale_price body) eqn:E13; [|reflexivity].
  exfalso. apply Hne. unfold Product.errors.
  now rewrite E1, E2, E3, E4, E5, E6, E7, E8, E9, E10, E11, E12, E13.
Qed.


End ValidationFacts.




(** ** Serialisation: what is copied, what raises *)

Lemma get_found (doc : pydict) (k : string) (default v : value) :
  lookup doc k = Some v -> get doc k default = v.
Proof. unfold get. intros ->. reflexivity. Qed.

Section CopyFacts.
Context {R : Runtime}.

Lemma str_each_texts (l : list string) :
  str_each (VList (map VStr l)) = Ok l.
Proof.
  unfold str_each. cbn [py_iter rbind]. f_equal.
  induction l as [|s l IH]; [reflexivity|]. cbn [map py_str]. now rewrite IH.
Qed.

(** The [sale_price] of an output, from the stored field. *)
Lemma serialize_product_sale_price (doc : pydict) (out : ProductOut.t) :
  serialize_product doc = Ok out ->
  (if negb (is_None (get doc "sale_price" VNone))
   then (x <- py_float (get doc "sale_price" VNone) ;; Ok (Some x))%result
   else Ok None) = Ok (ProductOut.sale_price out).
Proof.
  unfold serialize_product.
  destruct (py_float (get doc "price" (VInt 0))) as [p|]; try discriminate.
  destruct (str_each (get doc "images" (VList []))) as [im|]; try discriminate.
  destruct (str_each (get doc "sizes" (VList []))) as [sz|]; try discriminate.
  cbn [rbind].
  destruct (if negb (is_None (get doc "sale_price" VNone))
            then (x <- py_float (get doc "sale_price" VNone) ;;
                  Ok (Some x))%result
            else Ok None) as [sp|]; [|discriminate].
  cbn [rbind]. unfold ProductOut.init.
  destruct (validate_str (get doc "title" VNone)); try discriminate;
  destruct (validate_optional validate_str (get doc "description" VNone));
    try discriminate;
  destruct (validate_str (get doc "category" VNone)); try discriminate;
  destruct (validate_optional validate_str (get doc "season" VNone));
    try discriminate.
  now intros [= <-].
Qed.

(** Each flag of an output is the truth value of the stored field, or the
    default when the field is left out. *)
Lemma serialize_product_flag (doc : pydict) (out : ProductOut.t)
  (k : string) (field : ProductOut.t -> bool) (default : bool) :
  serialize_product doc = Ok out ->
  In (k, field, default) flags ->
  field out = py_bool (get doc k (VBool default)).
Proof.
  intros Hout Hin. apply serialize_product_fields in Hout.
  destruct Hout as (_ & _ & _ & _ & _ & _ & _ & H1 & H2 & H3 & H4 & _ & H5 & _).
  cbn in Hin.
  destruct Hin as [E|[E|[E|[E|[E|[]]]]]]; injection E as <- <- <-; assumption.
Qed.

End CopyFacts.

(** X1. A value stored with the type the output model declares is returned
    as it is stored: texts, floats, lists of texts, booleans; a stored
    integer price is returned as the float nearest to it. *)
Theorem serialize_product_copies :
  forall (R : Runtime) (doc : pydict) (out : ProductOut.t),
    serialize_product doc = Ok out ->
    (forall s, lookup doc "title" = Some (VStr s) -> ProductOut.title out = s)
    /\
    (forall s,
       lookup doc "category" = Some (VStr s) -> ProductOut.category out = s)
    /\
    (forall s,
       lookup doc "description" = Some (VStr s) ->
       ProductOut.description out = Some s) /\
    (forall s,
       lookup doc "season" = Some (VStr s) -> ProductOut.season out = Some s)
    /\
    (forall x,
       lookup doc "price" = Some (VFloat x) -> ProductOut.price out = x) /\
    (forall n,
       lookup doc "price" = Some (VInt n) ->
       ProductOut.price out = float_of_Z n) /\
    (forall l,
       lookup doc "images" = Some (VList (map VStr l)) ->
       ProductOut.images out = l) /\
    (forall l,
       lookup doc "sizes" = Some (VList (map VStr l)) ->
       ProductOut.sizes out = l) /\
    (forall k field default b,
       In (k, field, default) flags ->
       lookup doc k = Some (VBool b) -> field out = b) /\
    (forall x,
       lookup doc "sale_price" = Some (VFloat x) ->
       ProductOut.sale_price out = Some x).
Proof.
  intros R doc out Hout.
  pose proof (serialize_product_sale_price doc out Hout) as Hsp.
  pose proof (serialize_product_fields doc out Hout)
    as (_ & Ht & Hd & Hp & Hc & Him & Hsz & _ & _ & _ & _ & Hse & _ & _).
  repeat split.
  - intros s E. rewrite (get_found _ _ _ _ E) in Ht. now injection Ht.
  - intros s E. rewrite (get_found _ _ _ _ E) in Hc. now injection Hc.
  - intros s E. rewrite (get_found _ _ _ _ E) in Hd. now injection Hd.
  - intros s E. rewrite (get_found _ _ _ _ E) in Hse. now injection Hse.
  - intros x E. rewrite (get_found _ _ _ _ E) in Hp. now injection Hp.
  - intros n E. rewrite (get_found _ _ _ _ E) in Hp. cbn [py_float] in Hp.
    destruct (float_of_Z n); try discriminate; now injection Hp.
  - intros l E. rewrite (get_found _ _ _ _ E), str_each_texts in Him.
    now injection Him.
  - intros l E. rewrite (get_found _ _ _ _ E), str_each_texts in Hsz.
    now injection Hsz.
  - intros k field default b Hin E.
    rewrite (serialize_product_flag doc out k field default Hout Hin).
    now rewrite (get_found _ _ _ _ E).
  - intros x E. rewrite (get_found _ _ _ _ E) in Hsp. cbn in Hsp.
    now injection Hsp.
Qed.

(** The theorem at a document that holds every field. *)
Lemma serialize_product_copies_witness :
  lookup full "title" = Some (VStr "Tee") /\
  lookup full "price" = Some (VInt 1000) /\
  lookup full "images" = Some (VList (map VStr ["a.png"])) /\
  lookup full "in_stock" = Some (VBool false) /\
  (forall R : Runtime,
     exists out,
       serialize_product full = Ok out /\
       ProductOut.title out = "Tee" /\
       ProductOut.price out = float_of_Z 1000 /\
       ProductOut.images out = ["a.png"] /\
       ProductOut.in_stock out = false).
Proof.
  do 4 (split; [reflexivity|]). intros R. eexists. split; [reflexivity|].
  destruct (serialize_product_copies R full _ eq_refl)
    as (Ht & _ & _ & _ & _ & Hp & Him & _ & Hfl & _).
  split; [exact (Ht "Tee" eq_refl)|].
  split; [exact (Hp 1000 eq_refl)|].
  split; [exact (Him ["a.png"] eq_refl)|].
  apply (Hfl "in_stock" ProductOut.in_stock true false);
    [left; reflexivity | reflexivity].
Defined.

(** X2. A null [price] makes [serialize_product] raise a [TypeError],
    whatever else the document holds, since the conversions run before the
    output model is validated; so does a null [images] once the price
    converts, and a null [sizes] once price and images convert. *)
Theorem null_price_raises :
  forall (R : Runtime) (doc : pydict),
    (lookup doc "price" = Some VNone ->
     serialize_product doc = Raise TypeError) /\
    (forall x,
       py_float (get doc "price" (VInt 0)) = Ok x ->
       lookup doc "images" = Some VNone ->
       serialize_product doc = Raise TypeError) /\
    (forall x l,
       py_float (get doc "price" (VInt 0)) = Ok x ->
       str_each (get doc "images" (VList [])) = Ok l ->
       lookup doc "sizes" = Some VNone ->
       serialize_product doc = Raise TypeError).
Proof.
  intros R doc. split; [|split].
  - intros E. unfold serialize_product.
    now rewrite (get_found _ _ _ _ E).
  - intros x Hp E. unfold serialize_product.
    now rewrite Hp, (get_found _ _ _ _ E).
  - intros x l Hp Him E. unfold serialize_product.
    now rewrite Hp, Him, (get_found _ _ _ _ E).
Qed.

(** The theorem at a document with a null price and texts for title and
    category. *)
Lemma null_price_raises_witness :
  lookup nulls "price" = Some VNone /\
  product_shape (setitem nulls "price" (VInt 0)) = true /\
  (forall R : Runtime, serialize_product nulls = Raise TypeError).
Proof.
  split; [reflexivity|]. split; [reflexivity|]. intros R.
  destruct (null_price_raises R nulls) as (H & _). exact (H eq_refl).
Defined.

(** X3. A flag that is stored is serialised by its truth value, not by its
    type: a boolean is itself; a null flag is false, also [in_stock], whose
    default is true; a text is true unless it is empty, so the text "false"
    is true; a number, integer or float, is true unless it is zero, so a
    float that is not a number is true; an object identifier is true; a
    list or a dictionary is true unless it is empty. A flag left out has
    its default. *)
Theorem flags_follow_truth :
  forall (R : Runtime) (doc : pydict) (out : ProductOut.t)
         (k : string) (field : ProductOut.t -> bool) (default : bool),
    serialize_product doc = Ok out ->
    In (k, field, default) flags ->
    (lookup doc k = None -> field out = default) /\
    (lookup doc k = Some VNone -> field out = false) /\
    (forall s,
       lookup doc k = Some (VStr s) ->
       field out = negb (String.eqb s EmptyString)) /\
    (forall n, lookup doc k = Some (VInt n) -> field out = negb (n =? 0)) /\
    (forall b, lookup doc k = Some (VBool b) -> field out = b) /\
    (forall x,
       lookup doc k = Some (VFloat x) -> field out = negb (is_zero x)) /\
    (forall hex, lookup doc k = Some (VObjectId hex) -> field out = true) /\
    (forall xs,
       lookup doc k = Some (VList xs) ->
       field out = negb (Nat.eqb (List.length xs) 0)) /\
    (forall kvs,
       lookup doc k = Some (VDict kvs) ->
       field out = negb (Nat.eqb (List.length kvs) 0)).
Proof.
  intros R doc out k field default Hout Hin.
  pose proof (serialize_product_flag doc out k field default Hout Hin) as H.
  repeat split.
  - intros E. now rewrite H, (get_absent _ _ _ E).
  - intros E. now rewrite H, (get_found _ _ _ _ E).
  - intros s E. now rewrite H, (get_found _ _ _ _ E).
  - intros n E. now rewrite H, (get_found _ _ _ _ E).
  - intros b E. now rewrite H, (get_found _ _ _ _ E).
  - intros x E. rewrite H, (get_found _ _ _ _ E). now destruct x.
  - intros hex E. now rewrite H, (get_found _ _ _ _ E).
  - intros xs E. rewrite H, (get_found _ _ _ _ E). now destruct xs.
  - intros kvs E. rewrite H, (get_found _ _ _ _ E). now destruct kvs.
Qed.

(** The theorem at a document whose [in_stock] is null, and at one whose
    [in_stock] is the float 0.0. *)
Lemma flags_follow_truth_witness :
  In ("in_stock", ProductOut.in_stock, true) flags /\
  lookup legacy "in_stock" = Some VNone /\
  lookup sold_out "in_stock" = Some (VFloat zero) /\
  (forall R : Runtime,
     (exists out,
        serialize_product legacy = Ok out /\ ProductOut.in_stock out = false)
     /\
     (exists out,
        serialize_product sold_out = Ok out /\
        ProductOut.in_stock out = false)).
Proof.
  split; [left; reflexivity|]. split; [reflexivity|]. split; [reflexivity|].
  intros R. split.
  - eexists. split; [reflexivity|].
    destruct (flags_follow_truth R legacy _ "in_stock" ProductOut.in_stock
                true eq_refl (or_introl eq_refl)) as (_ & H & _).
    exact (H eq_refl).
  - eexists. split; [reflexivity|].
    destruct (flags_follow_truth R sold_out _ "in_stock" ProductOut.in_stock
                true eq_refl (or_introl eq_refl))
      as (_ & _ & _ & _ & _ & H & _).
    exact (H zero eq_refl).
Defined.

(** X4. The identifier of an output is the text of the stored ["_id"]: the
    hexadecimal text of an object identifier, the decimal text of an
    integer, and the text "None" when the document has no ["_id"]. *)
Theorem identifier_is_rendered :
  forall (R : Runtime) (doc : pydict),
    (forall out,
       serialize_product doc = Ok out ->
       (forall hex,
          lookup doc "_id" = Some (VObjectId hex) -> ProductOut.id out = hex)
       /\
       (forall n,
          lookup doc "_id" = Some (VInt n) ->
          ProductOut.id out = NilZero.string_of_int (Z.to_int n)) /\
       (lookup doc "_id" = None -> ProductOut.id out = "None")) /\
    (forall out,
       serialize_banner doc = Ok out ->
       (forall hex,
          lookup doc "_id" = Some (VObjectId hex) -> BannerOut.id out = hex)
       /\
       (lookup doc "_id" = None -> BannerOut.id out = "None")).
Proof.
  intros R doc. split.
  - intros out Hout. apply serialize_product_fields in Hout.
    destruct Hout as (Hid & _). rewrite Hid. repeat split.
    + intros hex E. now rewrite (get_found _ _ _ _ E).
    + intros n E. now rewrite (get_found _ _ _ _ E).
    + intros E. now rewrite (get_absent _ _ _ E).
  - intros out Hout. apply serialize_banner_fields in Hout.
    destruct Hout as (Hid & _). rewrite Hid. split.
    + intros hex E. now rewrite (get_found _ _ _ _ E).
    + intros E. now rewrite (get_absent _ _ _ E).
Qed.

(** The theorem at a product document and at a banner body without
    ["_id"]. *)
Lemma identifier_is_rendered_witness :
  lookup tee "_id" = Some (VObjectId "65f0a1b2c3d4e5f601234567") /\
  lookup plain_banner "_id" = None /\
  (forall R : Runtime,
     (exists out,
        serialize_product tee = Ok out /\
        ProductOut.id out = "65f0a1b2c3d4e5f601234567") /\
     (exists out,
        serialize_banner plain_banner = Ok out /\ BannerOut.id out = "None")).
Proof.
  split; [reflexivity|]. split; [reflexivity|]. intros R. split.
  - eexists. split; [reflexivity|].
    destruct (identifier_is_rendered R tee) as (H & _).
    destruct (H _ eq_refl) as (Hh & _). exact (Hh _ eq_refl).
  - eexists. split; [reflexivity|].
    destruct (identifier_is_rendered R plain_banner) as (_ & H).
    destruct (H _ eq_refl) as (_ & Hn). exact (Hn eq_refl).
Defined.

(** X5. On a banner document whose four fields are each left out, null or
    a text, [serialize_banner] returns an output exactly when [title] and
    [slug] are texts; the output then holds the stored title and slug, and
    the stored subtitle and image when they are texts. *)
Theorem serialize_banner_exactly :
  forall (R : Runtime) (doc : pydict),
    (forall k,
       In k ["title"; "subtitle"; "image"; "slug"] ->
       optional is_text_or_null (lookup doc k) = true) ->
    ((exists out, serialize_banner doc = Ok out) <->
     present is_text (lookup doc "title") = true /\
     present is_text (lookup doc "slug") = true) /\
    (forall out,
       serialize_banner doc = Ok out ->
       lookup doc "title" = Some (VStr (BannerOut.title out)) /\
       lookup doc "slug" = Some (VStr (BannerOut.slug out)) /\
       (forall s,
          lookup doc "subtitle" = Some (VStr s) ->
          BannerOut.subtitle out = Some s) /\
       (forall s,
          lookup doc "image" = Some (VStr s) -> BannerOut.image out = Some s)).
Proof.
  intros R doc Hsh.
  assert (Htext : forall k s,
             In k ["title"; "subtitle"; "image"; "slug"] ->
             validate_str (get doc k VNone) = Some s ->
             lookup doc k = Some (VStr s)).
  { intros k s Hk. specialize (Hsh k Hk). unfold get.
    destruct (lookup doc k) as [[]|]; try discriminate.
    cbn. now intros [= ->]. }
  assert (Hfields : forall out,
             serialize_banner doc = Ok out ->
             lookup doc "title" = Some (VStr (BannerOut.title out)) /\
             lookup doc "slug" = Some (VStr (BannerOut.slug out)) /\
             (forall s,
                lookup doc "subtitle" = Some (VStr s) ->
                BannerOut.subtitle out = Some s) /\
             (forall s,
                lookup doc "image" = Some (VStr s) ->
                BannerOut.image out = Some s)).
  { intros out Hout. apply serialize_banner_fields in Hout.
    destruct Hout as (_ & Ht & Hs & Hi & Hsl).
    split; [apply Htext; [cbn; tauto | exact Ht]|].
    split; [apply Htext; [cbn; tauto | exact Hsl]|].
    split; intros s E.
    - rewrite (get_found _ _ _ _ E) in Hs. now injection Hs.
    - rewrite (get_found _ _ _ _ E) in Hi. now injection Hi. }
  split; [|exact Hfields]. split.
  - intros [out Hout]. destruct (Hfields out Hout) as (Ht & Hsl & _).
    now rewrite Ht, Hsl.
  - intros [Ht Hsl]. apply serialize_banner_returns. unfold banner_shape.
    rewrite Ht, Hsl, (Hsh "subtitle"), (Hsh "image"); cbn; tauto.
Qed.

(** The theorem at a banner with title and slug only. *)
Lemma serialize_banner_exactly_witness :
  (forall k,
     In k ["title"; "subtitle"; "image"; "slug"] ->
     optional is_text_or_null (lookup plain_banner k) = true) /\
  (forall R : Runtime,
     exists out,
       serialize_banner plain_banner = Ok out /\
       lookup plain_banner "slug" = Some (VStr (BannerOut.slug out))).
Proof.
  assert (H : forall k,
             In k ["title"; "subtitle"; "image"; "slug"] ->
             optional is_text_or_null (lookup plain_banner k) = true).
  { intros k [<-|[<-|[<-|[<-|[]]]]]; reflexivity. }
  split; [exact H|]. intros R.
  destruct (serialize_banner_exactly R plain_banner H) as [_ Hf].
  eexists. split; [reflexivity|].
  destruct (Hf _ eq_refl) as (_ & Hsl & _). exact Hsl.
Defined.

(** X6. Fields that the code does not read are ignored: adding or changing
    a field that is not among the fourteen that [serialize_product] reads
    does not change its result, and a field of a request body that is not
    among the thirteen of the product schema does not change the outcome
    of validation. *)
Theorem unknown_fields_are_ignored :
  forall (R : Runtime) (doc : pydict) (k : string) (v : value),
    (~ In k product_keys ->
     serialize_product (setitem doc k v) = serialize_product doc) /\
    (~ In k schema_keys ->
     Product.validate (setitem doc k v) = Product.validate doc /\
     Product.errors (setitem doc k v) = Product.errors doc).
Proof.
  intros R doc k v. split; intros Hk.
  - unfold serialize_product, get. cbv zeta.
    rewrite !(lookup_setitem_ne doc k)
      by (intros ->; apply Hk; cbn; tauto).
    reflexivity.
  - assert (He : Product.errors (setitem doc k v) = Product.errors doc).
    { unfold Product.errors, Product.v_title, Product.v_description,
        Product.v_price, Product.v_category, Product.v_images,
        Product.v_sizes, Product.v_in_stock, Product.v_is_trending,
        Product.v_is_new, Product.v_is_best_seller, Product.v_season,
        Product.v_on_sale, Product.v_sale_price, Product.required,
        Product.defaulted.
      rewrite !(lookup_setitem_ne doc k)
        by (intros ->; apply Hk; cbn; tauto).
      reflexivity. }
    split; [|exact He].
    unfold Product.validate. rewrite He.
    unfold Product.v_title, Product.v_description,
      Product.v_price, Product.v_category, Product.v_images,
      Product.v_sizes, Product.v_in_stock, Product.v_is_trending,
      Product.v_is_new, Product.v_is_best_seller, Product.v_season,
      Product.v_on_sale, Product.v_sale_price, Product.required,
      Product.defaulted.
    rewrite !(lookup_setitem_ne doc k)
      by (intros ->; apply Hk; cbn; tauto).
    reflexivity.
Qed.

(** The theorem at a document and a body given a field [colour]. *)
Lemma unknown_fields_are_ignored_witness :
  ~ In "colour" product_keys /\ ~ In "colour" schema_keys /\
  (forall R : Runtime,
     serialize_product (setitem tee "colour" (VStr "black"))
     = serialize_product tee /\
     Product.validate (setitem minimal "colour" (VStr "black"))
     = Product.validate minimal).
Proof.
  assert (H1 : ~ In "colour" product_keys)
    by (cbn; intuition discriminate).
  assert (H2 : ~ In "colour" schema_keys)
    by (cbn; intuition discriminate).
  split; [exact H1|]. split; [exact H2|]. intros R.
  destruct (unknown_fields_are_ignored R tee "colour" (VStr "black"))
    as [Hs _].
  destruct (unknown_fields_are_ignored R minimal "colour" (VStr "black"))
    as [_ Hv].
  split; [exact (Hs H1) | exact (proj1 (Hv H2))].
Defined.

(** ** Listing: which documents, in which order *)

Lemma rmap_spec {A B} (f : A -> result B) (xs : list A) (ys : list B) :
  rmap f xs = Ok ys <-> Forall2 (fun x y => f x = Ok y) xs ys.
Proof.
  revert ys. induction xs as [|x xs IH]; intros ys; simpl.
  - split; [intros [= <-]; constructor | intros H; now inversion H].
  - split.
    + destruct (f x) as [y|] eqn:Ey; [|discriminate]. cbn [rbind].
      destruct (rmap f xs) as [ys'|]; [|discriminate]. cbn [rbind].
      intros [= <-]. constructor; [exact Ey | now apply IH].
    + intros H. inversion H as [|? y ? ys' Hy Hys]; subst.
      rewrite Hy. apply IH in Hys. now rewrite Hys.
Qed.

Lemma rmap_raises {A B} (f : A -> result B) (xs : list A) (x : A) (e : exn) :
  In x xs -> f x = Raise e -> exists e', rmap f xs = Raise e'.
Proof.
  intros Hin Hx. induction xs as [|a xs IH]; [destruct Hin|]. simpl.
  destruct Hin as [-> | Hin].
  - rewrite Hx. eexists. reflexivity.
  - destruct (f a); [|eexists; reflexivity]. cbn [rbind].
    destruct (IH Hin) as [e' ->]. eexists. reflexivity.
Qed.

Section SelectionFacts.
Context {R : Runtime}.

(** When the store answers on every document, the selection is the
    documents that match, in stored order. *)
Lemma select_selected (filt : pydict) (docs : list pydict) :
  (forall doc, exists b, doc_matches filt doc = Some b) ->
  select filt docs = Ok (selected filt docs).
Proof.
  intros H. induction docs as [|doc docs IH]; [reflexivity|].
  cbn [select selected filter]. destruct (H doc) as [b ->].
  unfold selected in IH. rewrite IH. reflexivity.
Qed.

Lemma selected_matches (filt : pydict) (docs : list pydict) (doc : pydict) :
  In doc (selected filt docs) ->
  In doc docs /\ doc_matches filt doc = Some true.
Proof.
  unfold selected. intros H. apply filter_In in H. destruct H as [Hin Hm].
  split; [exact Hin|]. destruct (doc_matches filt doc) as [[|]|];
    try discriminate; reflexivity.
Qed.

End SelectionFacts.

(** X7. With a store connected and a search text of the fragment modelled,
    [list_products] answers with the serialisations, one for one and in
    stored order, of the first [limit] product documents that match the
    filter; it answers at all only when every one of them is serialised:
    one of them that raises makes the whole request raise. Documents past
    the limit, or that do not match, play no part. *)
Theorem list_products_exactly :
  forall (R : Runtime) (category : option string)
         (trending new best : option bool) (season : option string)
         (sale : option bool) (q : option string) (limit : Z) (w : world)
         (d : database),
    db w = Some d ->
    searchable q = true ->
    let filt := product_filter category trending new best season sale q in
    let docs := cursor_limit limit (selected filt (collection d "product")) in
    (forall rs,
       fst (list_products category trending new best season sale q limit w)
       = Ok rs
       <-> Forall2 (fun doc out => serialize_product doc = Ok out) docs rs) /\
    (forall doc e,
       In doc docs -> serialize_product doc = Raise e ->
       exists e',
         fst (list_products category trending new best season sale q limit w)
         = Raise e') /\
    (forall doc,
       In doc docs ->
       In doc (collection d "product") /\ doc_matches filt doc = Some true).
Proof.
  intros R category trending new best season sale q limit w d Hdb Hq filt docs.
  assert (Hfst :
            fst (list_products category trending new best season sale q
                   limit w)
            = rmap serialize_product docs).
  { rewrite (list_products_connected _ _ _ _ _ _ _ _ _ d Hdb).
    rewrite select_selected; [reflexivity|].
    intros doc. now apply product_filter_decides. }
  rewrite Hfst. split; [|split].
  - intros rs. apply rmap_spec.
  - intros doc e Hin He. now apply (rmap_raises _ _ doc e).
  - intros doc Hin. apply selected_matches.
    now apply (cursor_limit_incl limit).
Qed.

(** The theorem on a store of two products, the second without title:
    with limit 1 the answer is the first; with limit 2 the request
    raises. *)
Lemma list_products_exactly_witness :
  db (connected mixed) = Some mixed /\ searchable None = true /\
  (forall R : Runtime,
     (exists out,
        fst (list_products None None None None None None None 1
               (connected mixed)) = Ok [out] /\
        serialize_product tee = Ok out) /\
     (exists e,
        fst (list_products None None None None None None None 2
               (connected mixed)) = Raise e)).
Proof.
  split; [reflexivity|]. split; [reflexivity|]. intros R. split.
  - destruct (list_products_exactly R None None None None None None None 1
                (connected mixed) mixed eq_refl eq_refl) as (H & _).
    eexists. split; [|reflexivity]. apply H. cbv zeta.
    change (cursor_limit 1
              (selected
                 (product_filter None None None None None None None)
                 (collection mixed "product"))) with [tee].
    repeat constructor.
  - destruct (list_products_exactly R None None None None None None None 2
                (connected mixed) mixed eq_refl eq_refl) as (_ & H & _).
    apply (H untitled (ValidationError ["title"])); [|reflexivity].
    right. left. reflexivity.
Defined.

(** X8. A document that lacks a flag field is never selected by a filter on
    that flag, for true or for false, although it is serialised with the
    flag false: the defaults of serialisation play no part in
    filtering. *)
Theorem unflagged_documents_are_skipped :
  forall (R : Runtime) (category : option string)
         (trending new best : option bool) (season : option string)
         (sale : option bool) (q : option string) (doc : pydict),
    let filt := product_filter category trending new best season sale q in
    (trending <> None -> lookup doc "is_trending" = None ->
     doc_matches filt doc <> Some true) /\
    (new <> None -> lookup doc "is_new" = None ->
     doc_matches filt doc <> Some true) /\
    (best <> None -> lookup doc "is_best_seller" = None ->
     doc_matches filt doc <> Some true) /\
    (sale <> None -> lookup doc "on_sale" = None ->
     doc_matches filt doc <> Some true) /\
    (forall out,
       serialize_product doc = Ok out ->
       (lookup doc "is_trending" = None -> ProductOut.is_trending out = false)
       /\
       (lookup doc "is_new" = None -> ProductOut.is_new out = false) /\
       (lookup doc "is_best_seller" = None ->
        ProductOut.is_best_seller out = false) /\
       (lookup doc "on_sale" = None -> ProductOut.on_sale out = false)).
Proof.
  intros R category trending new best season sale q doc filt.
  assert (Hskip : forall k b,
             In (k, VBool b) filt -> lookup doc k = None ->
             doc_matches filt doc <> Some true).
  { intros k b Hin Hk Hm. apply doc_matches_all in Hm.
    unfold all_hold in Hm. rewrite Forall_forall in Hm.
    specialize (Hm _ Hin). cbn in Hm. rewrite Hk in Hm. discriminate. }
  assert (Hf : filt
               = filter_of_set category trending new best season sale q)
    by apply product_filter_entries.
  split; [|split; [|split; [|split]]].
  - destruct trending as [b|]; [intros _|contradiction].
    apply (Hskip "is_trending" b). rewrite Hf.
    unfold filter_of_set, filter_of_non_null. rewrite !in_app_iff.
    cbn. tauto.
  - destruct new as [b|]; [intros _|contradiction].
    apply (Hskip "is_new" b). rewrite Hf.
    unfold filter_of_set, filter_of_non_null. rewrite !in_app_iff.
    cbn. tauto.
  - destruct best as [b|]; [intros _|contradiction].
    apply (Hskip "is_best_seller" b). rewrite Hf.
    unfold filter_of_set, filter_of_non_null. rewrite !in_app_iff.
    cbn. tauto.
  - destruct sale as [b|]; [intros _|contradiction].
    apply (Hskip "on_sale" b). rewrite Hf.
    unfold filter_of_set, filter_of_non_null. rewrite !in_app_iff.
    cbn. tauto.
  - intros out Hout. apply serialize_product_fields in Hout.
    destruct Hout as (_ & _ & _ & _ & _ & _ & _ & _ & H2 & H3 & H4 & _ & H5 & _).
    repeat split; intros E.
    + now rewrite H2, (get_absent _ _ _ E).
    + now rewrite H3, (get_absent _ _ _ E).
    + now rewrite H4, (get_absent _ _ _ E).
    + now rewrite H5, (get_absent _ _ _ E).
Qed.

(** The theorem at a document without [is_trending] and the filter
    [trending=false]. *)
Lemma unflagged_documents_are_skipped_witness :
  Some false <> None /\ lookup tee "is_trending" = None /\
  (forall R : Runtime,
     doc_matches (product_filter None (Some false) None None None None None)
       tee <> Some true /\
     exists out,
       serialize_product tee = Ok out /\ ProductOut.is_trending out = false).
Proof.
  split; [discriminate|]. split; [reflexivity|]. intros R.
  destruct (unflagged_documents_are_skipped R None (Some false) None None
              None None None tee) as (Ht & _ & _ & _ & Hs).
  split; [apply Ht; [discriminate | reflexivity]|].
  eexists. split; [reflexivity|].
  destruct (Hs _ eq_refl) as (H & _). exact (H eq_refl).
Defined.

(** X9. [category] and [season] are compared for equality with the stored
    text, case included: for a non-empty [category] and a document whose
    category is a text, the filter matches exactly when the texts are equal
    and the filter without [category] matches; likewise for [season]. *)
Theorem category_and_season_are_exact :
  forall (R : Runtime) (category : option string)
         (trending new best : option bool) (season : option string)
         (sale : option bool) (q : option string) (doc : pydict)
         (c stored : string),
    c <> EmptyString ->
    (lookup doc "category" = Some (VStr stored) ->
     (doc_matches (product_filter (Some c) trending new best season sale q)
        doc = Some true
      <->
      stored = c /\
      doc_matches (product_filter None trending new best season sale q) doc
      = Some true)) /\
    (lookup doc "season" = Some (VStr stored) ->
     (doc_matches (product_filter category trending new best (Some c) sale q)
        doc = Some true
      <->
      stored = c /\
      doc_matches (product_filter category trending new best None sale q) doc
      = Some true)).
Proof.
  intros R category trending new best season sale q doc c stored Hc.
  destruct c as [|c0 c]; [contradiction|].
  assert (Hone : forall k,
             lookup doc k = Some (VStr stored) ->
             (field_matches (VStr (String c0 c)) (lookup doc k) = Some true
              <-> stored = String c0 c)).
  { intros k ->. cbn. unfold equal_match. cbn [value_eqb].
    rewrite orb_false_r. split.
    - intros [= E]. now apply String.eqb_eq.
    - intros ->. now rewrite String.eqb_refl. }
  split; intros Hk; rewrite !doc_matches_all, !product_filter_entries;
    unfold all_hold, filter_of_set, filter_of_non_null;
    cbn [nonempty option_map entry]; rewrite !Forall_app, !Forall_cons_iff;
    cbn [fst snd]; rewrite (Hone _ Hk); tauto.
Qed.

(** The theorem at the category [men] and a product of category [Men]. *)
Lemma category_and_season_are_exact_witness :
  "men" <> EmptyString /\ lookup tee "category" = Some (VStr "Men") /\
  (forall R : Runtime,
     doc_matches (product_filter (Some "men") None None None None None None)
       tee <> Some true).
Proof.
  split; [discriminate|]. split; [reflexivity|]. intros R.
  destruct (category_and_season_are_exact R None None None None None None
              None tee "men" "Men") as [H _]; [discriminate|].
  intros Hm. apply (H eq_refl) in Hm. destruct Hm as [E _]. discriminate.
Defined.

(** ** Looking a product up: the identifier *)

Lemma lower_idempotent (c : ascii) : lower (lower c) = lower c.
Proof. destruct c as [[] [] [] [] [] [] [] []]; reflexivity. Qed.

Lemma is_hex_lower (c : ascii) : is_hex (lower c) = is_hex c.
Proof. destruct c as [[] [] [] [] [] [] [] []]; reflexivity. Qed.

Lemma fold_case_idempotent (s : string) :
  fold_case (fold_case s) = fold_case s.
Proof.
  induction s as [|c s IH]; [reflexivity|]. simpl.
  now rewrite lower_idempotent, IH.
Qed.

Lemma well_formed_fold_case (s : string) :
  well_formed (fold_case s) = well_formed s.
Proof.
  unfold well_formed. f_equal.
  - f_equal. induction s as [|c s IH]; simpl; congruence.
  - induction s as [|c s IH]; [reflexivity|]. simpl.
    now rewrite is_hex_lower, IH.
Qed.

Lemma value_eqb_oid (v : value) (hex : string) :
  value_eqb v (VObjectId hex) = true -> v = VObjectId hex.
Proof.
  destruct v; try discriminate. cbn [value_eqb]. intros E.
  apply String.eqb_eq in E. now subst.
Qed.

(** A character that is neither a digit nor white space makes
    [bytes.fromhex] fail. *)
Lemma fromhex_stray (n : nat) (s : string) :
  (String.length s <= n)%nat ->
  existsb stray (list_ascii_of_string s) = true ->
  fromhex s = None.
Proof.
  revert s. induction n as [|n IH]; intros s Hlen Hs.
  - destruct s; [discriminate | simpl in Hlen; lia].
  - destruct s as [|c s]; [discriminate|].
    cbn [list_ascii_of_string existsb] in Hs. cbn [fromhex].
    simpl in Hlen. unfold stray in Hs at 1.
    destruct (is_space c) eqn:Esp.
    + rewrite andb_false_r in Hs. apply IH; [lia | exact Hs].
    + destruct s as [|d s]; [reflexivity|].
      destruct (is_hex c) eqn:Ec; [|reflexivity].
      destruct (is_hex d) eqn:Ed; [|reflexivity].
      cbn [negb andb orb list_ascii_of_string existsb] in Hs.
      unfold stray in Hs at 1. rewrite Ed in Hs.
      cbn [negb andb orb] in Hs. cbn [andb].
      rewrite (IH s); [reflexivity | simpl in Hlen; lia | exact Hs].
Qed.

(** X10. The case of the hexadecimal digits of an identifier does not
    matter: a well-formed identifier and the same in lower case get the
    same answer and leave the same world; and with product documents
    identified each by one value, the product answered carries the
    identifier asked for, in lower case. *)
Theorem identifier_case_is_ignored :
  forall (R : Runtime) (product_id : string) (w : world),
    well_formed product_id = true ->
    get_product product_id w = get_product (fold_case product_id) w /\
    (forall d out,
       db w = Some d ->
       Forall (fun doc => plain_id doc = true) (collection d "product") ->
       fst (get_product product_id w) = Ok out ->
       ProductOut.id out = fold_case product_id).
Proof.
  intros R product_id w Hwf.
  assert (Hwf' : well_formed (fold_case product_id) = true)
    by now rewrite well_formed_fold_case.
  split.
  - destruct (db w) as [d|] eqn:Hdb.
    + rewrite !(get_product_connected _ _ d Hdb).
      rewrite (ObjectId_well_formed _ Hwf), (ObjectId_well_formed _ Hwf').
      now rewrite fold_case_idempotent.
    + unfold get_product, bind, db_is_None. now rewrite Hdb.
  - intros d out Hdb Hplain.
    rewrite (get_product_connected _ _ d Hdb), (ObjectId_well_formed _ Hwf).
    cbn zeta.
    destruct (List.find _ (collection d "product")) as [doc|] eqn:Hf;
      [|discriminate].
    apply find_some in Hf. destruct Hf as [Hin Hid]. cbn [fst].
    intros Hout. apply serialize_product_fields in Hout.
    destruct Hout as (-> & _).
    rewrite Forall_forall in Hplain. specialize (Hplain doc Hin).
    unfold has_id in Hid. unfold plain_id in Hplain. unfold get.
    destruct (lookup doc "_id") as [fv|]; [|discriminate].
    cbn [optional] in Hplain. unfold equal_match in Hid.
    destruct fv; try discriminate; cbn [value_eqb] in Hid;
      try discriminate.
    rewrite orb_false_r in Hid. apply String.eqb_eq in Hid. now subst.
Qed.

(** The theorem at the identifier of the stored product, in capitals. *)
Lemma identifier_case_is_ignored_witness :
  well_formed "65F0A1B2C3D4E5F601234567" = true /\
  db (connected shelf) = Some shelf /\
  Forall (fun doc => plain_id doc = true) (collection shelf "product") /\
  (forall R : Runtime,
     get_product "65F0A1B2C3D4E5F601234567" (connected shelf)
     = get_product "65f0a1b2c3d4e5f601234567" (connected shelf) /\
     exists out,
       fst (get_product "65F0A1B2C3D4E5F601234567" (connected shelf)) = Ok out
       /\ ProductOut.id out = "65f0a1b2c3d4e5f601234567").
Proof.
  split; [reflexivity|]. split; [reflexivity|].
  split; [repeat constructor|]. intros R.
  destruct (identifier_case_is_ignored R "65F0A1B2C3D4E5F601234567"
              (connected shelf) eq_refl) as [Heq Hid].
  split; [exact Heq|]. eexists. split; [reflexivity|].
  apply (Hid shelf); [reflexivity | repeat constructor | reflexivity].
Defined.

(** X11. With a store connected, an identifier that does not count 24
    characters, or that holds a character that is neither a hexadecimal
    digit nor white space, is answered with status 400, and the store is
    not called. *)
Theorem malformed_identifier_is_400 :
  forall (R : Runtime) (product_id : string) (w : world) (d : database),
    db w = Some d ->
    List.length (chars product_id) <> 24%nat \/
    existsb stray (list_ascii_of_string product_id) = true ->
    get_product product_id w
    = (Raise (HTTPException 400 "Invalid product id"), w).
Proof.
  intros R product_id w d Hdb Hbad.
  rewrite (get_product_connected _ _ d Hdb).
  assert (Hoid : ObjectId product_id = Raise InvalidId).
  { unfold ObjectId. destruct Hbad as [Hlen|Hs].
    - apply Nat.eqb_neq in Hlen. now rewrite Hlen.
    - rewrite (fromhex_stray (String.length product_id)); [|lia|exact Hs].
      now destruct (_ =? _)%nat. }
  now rewrite Hoid.
Qed.

(** The theorem at an identifier that is too short and at one of 24
    characters of which one is no digit. *)
Lemma malformed_identifier_is_400_witness :
  db (connected shelf) = Some shelf /\
  List.length (chars "65f0a1b2") <> 24%nat /\
  existsb stray (list_ascii_of_string "65f0a1b2c3d4e5f60123456z") = true /\
  (forall R : Runtime,
     get_product "65f0a1b2" (connected shelf)
     = (Raise (HTTPException 400 "Invalid product id"), connected shelf) /\
     get_product "65f0a1b2c3d4e5f60123456z" (connected shelf)
     = (Raise (HTTPException 400 "Invalid product id"), connected shelf)).
Proof.
  split; [reflexivity|]. split; [discriminate|]. split; [reflexivity|].
  intros R. split.
  - apply (malformed_identifier_is_400 R "65f0a1b2" (connected shelf) shelf
             eq_refl).
    left. discriminate.
  - apply (malformed_identifier_is_400 R "65f0a1b2c3d4e5f60123456z"
             (connected shelf) shelf eq_refl).
    right. reflexivity.
Defined.

(** ** Seeding: what is kept *)

Lemma store_all_at (n name : string) (docs : list pydict) (d : database) :
  exists added,
    collection (store_all n docs d) name = (collection d name ++ added)%list /\
    Forall2 identified added (if String.eqb n name then docs else []).
Proof.
  unfold store_all. revert d.
  induction docs as [|doc docs IH]; intros d; cbn [fold_left].
  - exists []. rewrite app_nil_r. split; [reflexivity|].
    destruct (String.eqb n name); constructor.
  - destruct (IH (stored n d doc)) as (added & Hc & Hf). rewrite Hc.
    destruct (String.eqb n name) eqn:E.
    + apply String.eqb_eq in E. subst name.
      rewrite collection_stored_same, <- app_assoc.
      eexists. split; [reflexivity|]. cbn [app].
      constructor; [|exact Hf]. eexists. reflexivity.
    + rewrite collection_stored_other
        by (intros ->; rewrite String.eqb_refl in E; discriminate).
      exists added. split; [reflexivity | exact Hf].
Qed.

(** What [seed_store] adds to a collection: nothing, or the sample records
    of that collection, each with an identifier. *)
Lemma seed_store_adds (d : database) (name : string) :
  exists added docs,
    collection (seed_store d) name = (collection d name ++ added)%list /\
    Forall2 identified added docs /\
    (docs = [] \/
     (name = "banner" /\ collection d "banner" = [] /\ docs = banners) \/
     (name = "product" /\ collection d "product" = [] /\
      docs = sample_products)).
Proof.
  assert (Hnil : forall added,
             Forall2 identified added [] -> added = [])
    by (intros added H; now inversion H).
  assert (Hp1 : collection
                  match collection d "banner" with
                  | [] => store_all "banner" banners d
                  | _ :: _ => d
                  end "product" = collection d "product").
  { destruct (collection d "banner"); [|reflexivity].
    now apply collection_store_all_other. }
  unfold seed_store. cbv zeta. rewrite Hp1.
  destruct (collection d "banner") as [|b bs] eqn:Eb;
    destruct (collection d "product") as [|p ps] eqn:Ep.
  - destruct (store_all_at "product" name sample_products
                (store_all "banner" banners d)) as (a2 & H2 & F2).
    destruct (store_all_at "banner" name banners d) as (a1 & H1 & F1).
    rewrite H2, H1, <- app_assoc.
    destruct (String.eqb "banner" name) eqn:E1;
      destruct (String.eqb "product" name) eqn:E2.
    + apply String.eqb_eq in E1, E2. subst name. discriminate.
    + apply String.eqb_eq in E1. subst name. rewrite (Hnil a2 F2), app_nil_r.
      exists a1, banners.
      split; [reflexivity|]. split; [exact F1|]. right. left. auto.
    + apply String.eqb_eq in E2. subst name. rewrite (Hnil a1 F1).
      exists a2, sample_products. cbn [app].
      split; [reflexivity|]. split; [exact F2|]. right. right. auto.
    + rewrite (Hnil a1 F1), (Hnil a2 F2).
      exists [], []. split; [reflexivity|]. split; [constructor | auto].
  - destruct (store_all_at "banner" name banners d) as (a1 & H1 & F1).
    rewrite H1.
    destruct (String.eqb "banner" name) eqn:E1.
    + apply String.eqb_eq in E1. subst name. exists a1, banners.
      split; [reflexivity|]. split; [exact F1|]. right. left. auto.
    + rewrite (Hnil a1 F1).
      exists [], []. split; [reflexivity|]. split; [constructor | auto].
  - destruct (store_all_at "product" name sample_products d)
      as (a2 & H2 & F2).
    rewrite H2.
    destruct (String.eqb "product" name) eqn:E2.
    + apply String.eqb_eq in E2. subst name.
      exists a2, sample_products.
      split; [reflexivity|]. split; [exact F2|]. right. right. auto.
    + rewrite (Hnil a2 F2).
      exists [], []. split; [reflexivity|]. split; [constructor | auto].
  - exists [], []. rewrite app_nil_r.
    split; [reflexivity|]. split; [constructor | auto].
Qed.

(** An identifier in front does not change the shape of a document. *)
Lemma shape_identified (stored doc : pydict) :
  identified stored doc ->
  product_shape stored = product_shape doc /\
  banner_shape stored = banner_shape doc.
Proof. intros [oid ->]. split; reflexivity. Qed.

Lemma samples_have_shape :
  Forall (fun doc => product_shape doc = true) sample_products /\
  Forall (fun doc => banner_shape doc = true) banners.
Proof. split; repeat constructor. Qed.



(** X13. Seeding keeps a store listable: if every product document and
    every banner document of a connected store has the stored shape, so
    has every one after [seed_data], and [list_products] then answers,
    for every filter with a search text of the fragment modelled and
    every limit. *)
Theorem seed_data_keeps_shapes :
  forall (R : Runtime) (w : world) (d : database),
    db w = Some d ->
    Forall (fun doc => product_shape doc = true) (collection d "product") ->
    Forall (fun doc => banner_shape doc = true) (collection d "banner") ->
    exists d',
      db (snd (seed_data w)) = Some d' /\
      Forall (fun doc => product_shape doc = true) (collection d' "product")
      /\
      Forall (fun doc => banner_shape doc = true) (collection d' "banner") /\
      (forall category trending new best season sale q limit,
         searchable q = true ->
         exists rs,
           fst (list_products category trending new best season sale q limit
                  (snd (seed_data w))) = Ok rs).
Proof.
  intros R w d Hdb Hp Hb.
  destruct (seed_data_connected w d Hdb) as [cs H].
  destruct samples_have_shape as [Hsp Hsb].
  assert (Hkeep : forall (shape : pydict -> bool) added docs,
             (forall stored doc,
                identified stored doc -> shape stored = shape doc) ->
             Forall2 identified added docs ->
             Forall (fun doc => shape doc = true) docs ->
             Forall (fun doc => shape doc = true) added).
  { intros shape added docs Hid F. induction F as [|a x added docs Ha _ IH].
    - constructor.
    - intros Hd. inversion Hd; subst. constructor; [|now apply IH].
      now rewrite (Hid a x Ha). }
  assert (Hp' : Forall (fun doc => product_shape doc = true)
                  (collection (seed_store d) "product")).
  { destruct (seed_store_adds d "product")
      as (added & docs & -> & F & [->|[[E _]|(_ & _ & ->)]]);
      try discriminate; apply Forall_app; split; try exact Hp.
    - inversion F. constructor.
    - apply (Hkeep product_shape added sample_products); auto.
      intros st doc Hst. now apply shape_identified. }
  assert (Hb' : Forall (fun doc => banner_shape doc = true)
                  (collection (seed_store d) "banner")).
  { destruct (seed_store_adds d "banner")
      as (added & docs & -> & F & [->|[(_ & _ & ->)|[E _]]]);
      try discriminate; apply Forall_app; split; try exact Hb.
    - inversion F. constructor.
    - apply (Hkeep banner_shape added banners); auto.
      intros st doc Hst. now apply shape_identified. }
  exists (seed_store d). rewrite H. cbn [snd].
  split; [reflexivity|]. split; [exact Hp'|]. split; [exact Hb'|].
  intros category trending new best season sale q limit Hq.
  now apply (list_products_returns category trending new best season sale q
               limit _ (seed_store d)).
Qed.

(** The theorem on the empty store. *)
Lemma seed_data_keeps_shapes_witness :
  db (connected empty_store) = Some empty_store /\
  Forall (fun doc => product_shape doc = true)
    (collection empty_store "product") /\
  Forall (fun doc => banner_shape doc = true)
    (collection empty_store "banner") /\
  (forall R : Runtime,
     exists rs,
       fst (list_products (Some "Men") None None None None None None 24
              (snd (seed_data (connected empty_store)))) = Ok rs).
Proof.
  split; [reflexivity|]. split; [constructor|]. split; [constructor|].
  intros R.
  destruct (seed_data_keeps_shapes R (connected empty_store) empty_store
              eq_refl (Forall_nil _) (Forall_nil _))
    as (d' & _ & _ & _ & H).
  exact (H (Some "Men") None None None None None None 24 eq_refl).
Defined.

(** ** Validating a product: every field *)

Section SchemaFacts.
Context {R : Runtime}.

Lemma failed_spec {A} (k k' : string) (o : option A) :
  In k (failed k' o) <-> k' = k /\ o = None.
Proof.
  destruct o; simpl.
  - split; [tauto | intros [_ H]; discriminate].
  - split; [intros [H|[]]; auto | intros [H _]; auto].
Qed.

(** The offending fields are those whose own validation fails. *)
Lemma errors_spec (body : pydict) (k : string) :
  In k (Product.errors body) <->
  ("title" = k /\ Product.v_title body = None) \/
  ("description" = k /\ Product.v_description body = None) \/
  ("price" = k /\ Product.v_price body = None) \/
  ("category" = k /\ Product.v_category body = None) \/
  ("images" = k /\ Product.v_images body = None) \/
  ("sizes" = k /\ Product.v_sizes body = None) \/
  ("in_stock" = k /\ Product.v_in_stock body = None) \/
  ("is_trending" = k /\ Product.v_is_trending body = None) \/
  ("is_new" = k /\ Product.v_is_new body = None) \/
  ("is_best_seller" = k /\ Product.v_is_best_seller body = None) \/
  ("season" = k /\ Product.v_season body = None) \/
  ("on_sale" = k /\ Product.v_on_sale body = None) \/
  ("sale_price" = k /\ Product.v_sale_price body = None).
Proof.
  unfold Product.errors. rewrite !in_app_iff, !failed_spec. tauto.
Qed.

(** The record of an accepted body, field by field. *)
Lemma validate_fields (body : pydict) (p : Product.t) :
  Product.validate body = Ok p ->
  Product.v_title body = Some (Product.title p) /\
  Product.v_description body = Some (Product.description p) /\
  Product.v_price body = Some (Product.price p) /\
  Product.v_category body = Some (Product.category p) /\
  Product.v_images body = Some (Product.images p) /\
  Product.v_sizes body = Some (Product.sizes p) /\
  Product.v_in_stock body = Some (Product.in_stock p) /\
  Product.v_is_trending body = Some (Product.is_trending p) /\
  Product.v_is_new body = Some (Product.is_new p) /\
  Product.v_is_best_seller body = Some (Product.is_best_seller p) /\
  Product.v_season body = Some (Product.season p) /\
  Product.v_on_sale body = Some (Product.on_sale p) /\
  Product.v_sale_price body = Some (Product.sale_price p).
Proof.
  unfold Product.validate.
  destruct (Product.v_title body); [|discriminate].
  destruct (Product.v_description body); [|discriminate].
  destruct (Product.v_price body); [|discriminate].
  destruct (Product.v_category body); [|discriminate].
  destruct (Product.v_images body); [|discriminate].
  destruct (Product.v_sizes body); [|discriminate].
  destruct (Product.v_in_stock body); [|discriminate].
  destruct (Product.v_is_trending body); [|discriminate].
  destruct (Product.v_is_new body); [|discriminate].
  destruct (Product.v_is_best_seller body); [|discriminate].
  destruct (Product.v_season body); [|discriminate].
  destruct (Product.v_on_sale body); [|discriminate].
  destruct (Product.v_sale_price body); [|discriminate].
  intros [= <-]. cbn. repeat split; reflexivity.
Qed.

(** [ge=0] on a float: what it refuses. *)
Lemma ge_zero (x : float) : ge 0 x = negb (below_zero x).
Proof. destruct x as [s| s| |s m e]; try destruct s; reflexivity. Qed.

Lemma create_product_rejects (body : pydict) (w : world) :
  Product.errors body <> [] ->
  create_product body w
  = (Raise (RequestValidationError (Product.errors body)), w).
Proof.
  intros H. unfold create_product, bind, lift.
  now rewrite (validate_rejects body H).
Qed.

End SchemaFacts.

(** X14. What [Product] fills in: in the record of an accepted body, a
    field left out of the body has its declared default (description,
    season and sale_price none, images empty, sizes S, M, L and XL,
    in_stock true, the other flags false), and a description, season or
    sale_price sent as null is none as well. *)
Theorem omitted_fields_take_defaults :
  forall (R : Runtime) (body : pydict) (p : Product.t),
    Product.validate body = Ok p ->
    (missing body "description" -> Product.description p = None) /\
    (missing body "season" -> Product.season p = None) /\
    (missing body "sale_price" -> Product.sale_price p = None) /\
    (lookup body "images" = None -> Product.images p = []) /\
    (lookup body "sizes" = None -> Product.sizes p = ["S"; "M"; "L"; "XL"]) /\
    (lookup body "in_stock" = None -> Product.in_stock p = true) /\
    (lookup body "is_trending" = None -> Product.is_trending p = false) /\
    (lookup body "is_new" = None -> Product.is_new p = false) /\
    (lookup body "is_best_seller" = None ->
     Product.is_best_seller p = false) /\
    (lookup body "on_sale" = None -> Product.on_sale p = false).
Proof.
  intros R body p Hp.
  destruct (validate_fields body p Hp)
    as (_ & Hd & _ & _ & Hi & Hz & Hs & Ht & Hn & Hb & Hse & Ho & Hsp).
  unfold Product.v_description, Product.v_images, Product.v_sizes,
    Product.v_in_stock, Product.v_is_trending, Product.v_is_new,
    Product.v_is_best_seller, Product.v_season, Product.v_on_sale,
    Product.v_sale_price, Product.defaulted in *.
  repeat split;
    try (intros [E|E]; rewrite E in *; cbn in *; congruence);
    intros E; rewrite E in *; congruence.
Qed.

(** The theorem on a body of title, price and category alone. *)
Lemma omitted_fields_take_defaults_witness :
  lookup minimal "sizes" = None /\ lookup minimal "in_stock" = None /\
  (forall R : Runtime,
     exists p,
       Product.validate minimal = Ok p /\
       Product.sizes p = ["S"; "M"; "L"; "XL"] /\
       Product.in_stock p = true).
Proof.
  split; [reflexivity|]. split; [reflexivity|]. intros R.
  eexists. split; [reflexivity|].
  destruct (omitted_fields_take_defaults R minimal _ eq_refl)
    as (_ & _ & _ & _ & Hz & Hs & _).
  split; [exact (Hz eq_refl) | exact (Hs eq_refl)].
Defined.

(** X15. What [create_product] refuses: the offending fields are fields of
    the schema; price and category offend when left out or null; images,
    sizes and the five flags offend when sent as null; and a body with an
    offending field is answered with a validation error (status 422)
    naming the offending fields, the world left as it was: nothing is
    stored and the store is not called. *)
Theorem rejected_body_is_not_stored :
  forall (R : Runtime) (body : pydict),
    incl (Product.errors body) schema_keys /\
    (forall k,
       In k ["price"; "category"] -> missing body k ->
       In k (Product.errors body)) /\
    (forall k,
       In k ["images"; "sizes"; "in_stock"; "is_trending"; "is_new";
             "is_best_seller"; "on_sale"] ->
       lookup body k = Some VNone -> In k (Product.errors body)) /\
    (forall w,
       Product.errors body <> [] ->
       create_product body w
       = (Raise (RequestValidationError (Product.errors body)), w) /\
       status_of (RequestValidationError (Product.errors body)) = 422).
Proof.
  intros R body. split; [|split; [|split]].
  - intros k Hk. apply errors_spec in Hk. unfold schema_keys.
    repeat (destruct Hk as [[<- _]|Hk]; [simpl; tauto|]).
    destruct Hk as [<- _]. simpl. tauto.
  - intros k Hk Hm. apply errors_spec.
    unfold Product.v_price, Product.v_category, Product.required.
    cbn [In] in Hk.
    destruct Hk as [<-|[<-|[]]]; destruct Hm as [-> | ->]; cbn; tauto.
  - intros k Hk Hm. apply errors_spec.
    unfold Product.v_images, Product.v_sizes, Product.v_in_stock,
      Product.v_is_trending, Product.v_is_new, Product.v_is_best_seller,
      Product.v_on_sale, Product.defaulted.
    cbn [In] in Hk.
    repeat (destruct Hk as [<-|Hk]; [rewrite Hm; cbn; tauto|]).
    destruct Hk.
  - intros w Hne. split; [|reflexivity].
    now apply create_product_rejects.
Qed.

(** The theorem on a body without price and with a null in_stock. *)
Lemma rejected_body_is_not_stored_witness :
  missing priceless "price" /\
  lookup priceless "in_stock" = Some VNone /\
  (forall R : Runtime,
     In "price" (Product.errors priceless) /\
     In "in_stock" (Product.errors priceless) /\
     create_product priceless (connected empty_store)
     = (Raise (RequestValidationError ["price"; "in_stock"]),
        connected empty_store)).
Proof.
  split; [left; reflexivity|]. split; [reflexivity|]. intros R.
  destruct (rejected_body_is_not_stored R priceless)
    as (_ & Hreq & Hnull & Hw).
  split; [apply Hreq; [simpl; tauto | left; reflexivity]|].
  split; [apply Hnull; [simpl; tauto | reflexivity]|].
  apply (Hw (connected empty_store)). discriminate.
Defined.

(** X16. The constraint [ge=0]: a price sent as a float offends exactly
    when it is negative or not a number; zero, of either sign, and
    infinity pass. The same holds of a sale_price sent as a float, which
    is not compared with the price. *)
Theorem negative_price_is_rejected :
  forall (R : Runtime) (body : pydict),
    (forall x,
       lookup body "price" = Some (VFloat x) ->
       (In "price" (Product.errors body) <-> below_zero x = true)) /\
    (forall x,
       lookup body "sale_price" = Some (VFloat x) ->
       (In "sale_price" (Product.errors body) <-> below_zero x = true)).
Proof.
  intros R body. split; intros x Hx; rewrite errors_spec.
  - assert (Hv : Product.v_price body
                 = if below_zero x then None else Some x).
    { unfold Product.v_price, Product.required, Product.constrained.
      rewrite Hx. cbn [validate_float]. rewrite ge_zero.
      now destruct (below_zero x). }
    rewrite Hv. destruct (below_zero x); split; intros H; try discriminate.
    + reflexivity.
    + tauto.
    + repeat (destruct H as [[E H]|H]; try discriminate).
      destruct H; discriminate.
  - assert (Hv : Product.v_sale_price body
                 = if below_zero x then None else Some (Some x)).
    { unfold Product.v_sale_price, Product.defaulted, Product.constrained.
      rewrite Hx. cbn [validate_optional validate_float option_map].
      rewrite ge_zero. now destruct (below_zero x). }
    rewrite Hv. destruct (below_zero x); split; intros H; try discriminate.
    + reflexivity.
    + tauto.
    + repeat (destruct H as [[E H]|H]; try discriminate).
      destruct H; discriminate.
Qed.

(** The theorem at the price -1.0. *)
Lemma negative_price_is_rejected_witness :
  lookup refund "price" = Some (VFloat (float_of_Z (-1))) /\
  below_zero (float_of_Z (-1)) = true /\
  (forall R : Runtime,
     In "price" (Product.errors refund) /\
     create_product refund (connected empty_store)
     = (Raise (RequestValidationError ["price"]), connected empty_store)).
Proof.
  split; [reflexivity|]. split; [reflexivity|]. intros R.
  destruct (negative_price_is_rejected R refund) as (Hp & _).
  split; [now apply (Hp _ eq_refl)|]. reflexivity.
Defined.

(** ** Banners *)

Section BannerFacts.
Context {R : Runtime}.

Lemma banner_errors_spec (body : pydict) (k : string) :
  In k (Banner.errors body) <->
  ("title" = k /\ Banner.v_title body = None) \/
  ("subtitle" = k /\ Banner.v_subtitle body = None) \/
  ("image" = k /\ Banner.v_image body = None) \/
  ("slug" = k /\ Banner.v_slug body = None).
Proof.
  unfold Banner.errors. rewrite !in_app_iff, !failed_spec. tauto.
Qed.

Lemma banner_validate_rejects (body : pydict) :
  Banner.errors body <> [] ->
  Banner.validate body = Raise (RequestValidationError (Banner.errors body)).
Proof.
  intros Hne. unfold Banner.validate.
  destruct (Banner.v_title body) eqn:E1; [|reflexivity].
  destruct (Banner.v_subtitle body) eqn:E2; [|reflexivity].
  destruct (Banner.v_image body) eqn:E3; [|reflexivity].
  destruct (Banner.v_slug body) eqn:E4; [|reflexivity].
  exfalso. apply Hne. unfold Banner.errors. now rewrite E1, E2, E3, E4.
Qed.

Lemma optional_text (body : pydict) (k : string) :
  optional is_text_or_null (lookup body k) = true ->
  Product.defaulted body k (validate_optional validate_str) None
  = Some match lookup body k with
         | Some (VStr s) => Some s
         | _ => None
         end.
Proof.
  unfold Product.defaulted.
  destruct (lookup body k) as [[]|]; try discriminate; reflexivity.
Qed.

Lemma get_banners_connected (w : world) (d : database) :
  db w = Some d ->
  get_banners (Ok true) w
  = (rmap serialize_banner (collection d "banner"),
     {| db := Some d; calls := (calls w ++ [Find "banner" [] 0])%list |}).
Proof.
  intros Hdb. unfold get_banners, bind, db_is_None, find, on_db, lift.
  rewrite Hdb. cbv beta iota. rewrite Hdb, select_all. reflexivity.
Qed.

End BannerFacts.

(** X17. What [create_banner] requires: a body whose title or slug is left
    out or null is answered with a validation error (status 422) naming
    that field, the world left as it was; a body whose title and slug are
    texts, whose subtitle is a text, null or left out and whose image is
    null or left out is accepted, with these texts, a subtitle and an
    image left out or null being none, whatever else the body holds. *)
Theorem banner_needs_title_and_slug :
  forall (R : Runtime) (body : pydict),
    (forall k,
       In k ["title"; "slug"] -> missing body k ->
       In k (Banner.errors body) /\
       status_of (RequestValidationError (Banner.errors body)) = 422 /\
       forall w,
         create_banner body w
         = (Raise (RequestValidationError (Banner.errors body)), w)) /\
    (forall t s,
       lookup body "title" = Some (VStr t) ->
       lookup body "slug" = Some (VStr s) ->
       optional is_text_or_null (lookup body "subtitle") = true ->
       missing body "image" ->
       Banner.validate body
       = Ok {| Banner.title := t;
               Banner.subtitle := match lookup body "subtitle" with
                                  | Some (VStr u) => Some u
                                  | _ => None
                                  end;
               Banner.image := None;
               Banner.slug := s |}).
Proof.
  intros R body. split.
  - intros k Hk Hm.
    assert (Hin : In k (Banner.errors body)).
    { apply banner_errors_spec.
      unfold Banner.v_title, Banner.v_slug, Product.required.
      cbn [In] in Hk.
      destruct Hk as [<-|[<-|[]]]; destruct Hm as [-> | ->]; cbn; tauto. }
    split; [exact Hin|]. split; [reflexivity|].
    intros w. unfold create_banner, bind, lift.
    rewrite banner_validate_rejects; [reflexivity|].
    intros E. rewrite E in Hin. destruct Hin.
  - intros t s Ht Hs Hsub Him. unfold Banner.validate.
    unfold Banner.v_subtitle. rewrite (optional_text body "subtitle" Hsub).
    unfold Banner.v_title, Banner.v_slug, Banner.v_image, Product.required,
      Product.defaulted.
    rewrite Ht, Hs. cbn [validate_str].
    destruct Him as [-> | ->]; reflexivity.
Qed.

(** The theorem on a body without slug and on a body of title and slug. *)
Lemma banner_needs_title_and_slug_witness :
  missing slugless "slug" /\
  lookup plain_banner "title" = Some (VStr "Mega Sale") /\
  lookup plain_banner "slug" = Some (VStr "mega-sale") /\
  (forall R : Runtime,
     create_banner slugless (connected empty_store)
     = (Raise (RequestValidationError ["slug"]), connected empty_store) /\
     Banner.validate plain_banner
     = Ok {| Banner.title := "Mega Sale"; Banner.subtitle := None;
             Banner.image := None; Banner.slug := "mega-sale" |}).
Proof.
  split; [left; reflexivity|]. split; [reflexivity|]. split; [reflexivity|].
  intros R.
  destruct (banner_needs_title_and_slug R slugless) as (Hrej & _).
  destruct (banner_needs_title_and_slug R plain_banner) as (_ & Hacc).
  split.
  - destruct (Hrej "slug") as (_ & _ & Hw);
      [simpl; tauto | left; reflexivity |].
    exact (Hw (connected empty_store)).
  - apply (Hacc "Mega Sale" "mega-sale"); try reflexivity. left. reflexivity.
Defined.

(** X18. [get_banners] tests the handle for truth, not for [None]. Without
    a store it answers the empty list, as [list_products] does and where
    [get_product] answers with status 500, and so it does when the handle
    counts as false; if asking
    the handle for its truth raises, the request fails with that error;
    in none of these cases is the store called. When the handle counts as
    true, the store is asked once for all banners and is left as it was:
    the answer is their serialisations, one for one and in stored order;
    one banner that is not serialised makes the request raise; and every
    banner having the stored shape, the request answers. *)
Theorem get_banners_lists_all :
  forall (R : Runtime) (truth : result bool) (w : world),
    (db w = None ->
     get_banners truth w = (Ok [], w) /\
     (forall category trending new best season sale q limit,
        list_products category trending new best season sale q limit w
        = (Ok [], w)) /\
     (forall product_id,
        get_product product_id w
        = (Raise (HTTPException 500 "Database not available"), w))) /\
    (forall d,
       db w = Some d ->
       (truth = Ok false -> get_banners truth w = (Ok [], w)) /\
       (forall e, truth = Raise e -> get_banners truth w = (Raise e, w)) /\
       (truth = Ok true ->
        snd (get_banners truth w)
        = {| db := Some d;
             calls := (calls w ++ [Find "banner" [] 0])%list |} /\
        (forall outs,
           fst (get_banners truth w) = Ok outs <->
           Forall2 (fun doc out => serialize_banner doc = Ok out)
             (collection d "banner") outs) /\
        (forall doc e,
           In doc (collection d "banner") -> serialize_banner doc = Raise e ->
           exists e', fst (get_banners truth w) = Raise e') /\
        (Forall (fun doc => banner_shape doc = true) (collection d "banner")
         -> exists outs, fst (get_banners truth w) = Ok outs))).
Proof.
  intros R truth w. split.
  - intros Hdb. split; [|split].
    + unfold get_banners, bind, db_is_None, ret, lift. now rewrite Hdb.
    + intros. now apply list_products_disconnected.
    + intros product_id. unfold get_product, bind, db_is_None.
      now rewrite Hdb.
  - intros d Hdb. split; [|split].
    + intros ->. unfold get_banners, bind, db_is_None, ret, lift.
      now rewrite Hdb.
    + intros e ->. unfold get_banners, bind, db_is_None, ret, lift.
      now rewrite Hdb.
    + intros ->. rewrite (get_banners_connected w d Hdb). cbn [fst snd].
      split; [reflexivity|]. split; [|split].
      * intros outs. apply rmap_spec.
      * intros doc e Hin He. now apply (rmap_raises _ _ doc e).
      * intros Hall. apply rmap_returns.
        apply Forall_forall. intros doc Hin. apply serialize_banner_returns.
        rewrite Forall_forall in Hall. now apply Hall.
Qed.

(** The theorem without a store, and on a store of one banner. *)
Lemma get_banners_lists_all_witness :
  db disconnected = None /\ db (connected gallery) = Some gallery /\
  (forall R : Runtime,
     get_banners (Ok true) disconnected = (Ok [], disconnected) /\
     exists out,
       fst (get_banners (Ok true) (connected gallery)) = Ok [out] /\
       BannerOut.slug out = "mega-sale").
Proof.
  split; [reflexivity|]. split; [reflexivity|]. intros R.
  destruct (get_banners_lists_all R (Ok true) disconnected) as (H0 & _).
  destruct (get_banners_lists_all R (Ok true) (connected gallery))
    as (_ & H1).
  split; [destruct (H0 eq_refl) as [H _]; exact H|].
  destruct (H1 gallery eq_refl) as (_ & _ & H).
  destruct H as (_ & Hout & _); [reflexivity|].
  eexists. split.
  - apply Hout. repeat constructor.
  - reflexivity.
Defined.

(** ** Integer prices *)

Lemma shr_1_halves (mrs : shr_record) :
  0 <= shr_m mrs -> shr_m (shr_1 mrs) = Z.shiftr (shr_m mrs) 1.
Proof.
  destruct mrs as [m r s]. cbn [shr_m]. intros Hm.
  destruct m as [|p|p]; [reflexivity| |lia].
  destruct p; reflexivity.
Qed.

Lemma iter_shr_1_shifts (p : positive) (mrs : shr_record) :
  0 <= shr_m mrs ->
  shr_m (iter_pos shr_1 p mrs) = Z.shiftr (shr_m mrs) (Zpos p).
Proof.
  revert mrs. induction p as [p IH|p IH|]; intros mrs Hm; cbn [iter_pos].
  - assert (H1 : 0 <= shr_m (shr_1 mrs))
      by (rewrite shr_1_halves by exact Hm; now apply Z.shiftr_nonneg).
    assert (H2 : 0 <= shr_m (iter_pos shr_1 p (shr_1 mrs)))
      by (rewrite IH by exact H1; now apply Z.shiftr_nonneg).
    rewrite IH by exact H2. rewrite IH by exact H1.
    rewrite shr_1_halves by exact Hm.
    rewrite !Z.shiftr_shiftr by lia. f_equal. lia.
  - assert (H2 : 0 <= shr_m (iter_pos shr_1 p mrs))
      by (rewrite IH by exact Hm; now apply Z.shiftr_nonneg).
    rewrite IH by exact H2. rewrite IH by exact Hm.
    rewrite !Z.shiftr_shiftr by lia. f_equal. lia.
  - now apply shr_1_halves.
Qed.

Lemma digits2_pos_le (q : positive) :
  2 ^ (Zpos (digits2_pos q) - 1) <= Zpos q.
Proof.
  induction q as [q IH|q IH|]; cbn [digits2_pos].
  - rewrite Pos2Z.inj_succ.
    replace (Z.succ (Zpos (digits2_pos q)) - 1)
      with (Z.succ (Zpos (digits2_pos q) - 1)) by lia.
    rewrite Z.pow_succ_r by lia. lia.
  - rewrite Pos2Z.inj_succ.
    replace (Z.succ (Zpos (digits2_pos q)) - 1)
      with (Z.succ (Zpos (digits2_pos q) - 1)) by lia.
    rewrite Z.pow_succ_r by lia. lia.
  - reflexivity.
Qed.

(** Shifting a positive mantissa to its exponent leaves it positive. *)
Lemma shr_fexp_positive (q : positive) (e : Z) (l : location) :
  -1074 <= e ->
  0 < shr_m (fst (shr_fexp 53 1024 (Zpos q) e l)) /\
  -1074 <= snd (shr_fexp 53 1024 (Zpos q) e l).
Proof.
  intros He. unfold shr_fexp, shr, fexp, emin. cbn [Zdigits2].
  set (d := Zpos (digits2_pos q)).
  assert (Hrec : shr_m (shr_record_of_loc (Zpos q) l) = Zpos q)
    by (destruct l as [|[]]; reflexivity).
  destruct (Z.max (d + e - 53) (3 - 1024 - 53) - e) as [|n|n] eqn:En;
    cbn [fst snd]; try (rewrite Hrec; lia).
  rewrite iter_shr_1_shifts by (rewrite Hrec; lia).
  rewrite Hrec, Z.shiftr_div_pow2 by lia. split; [|lia].
  apply Z.div_str_pos. split; [apply Z.pow_pos_nonneg; lia|].
  apply Z.le_trans with (2 ^ (d - 1)); [|apply digits2_pos_le].
  apply Z.pow_le_mono_r; lia.
Qed.

Lemma round_nearest_even_positive (m : Z) (l : location) :
  0 < m -> 0 < round_nearest_even m l.
Proof.
  intros Hm. destruct l as [|[]]; cbn [round_nearest_even]; try lia.
  destruct (Z.even m); lia.
Qed.

(** Rounding keeps the sign, and a non-zero integer is not rounded to
    zero. *)
Lemma binary_round_sign (sx : bool) (q : positive) :
  match binary_round 53 1024 sx q 0 with
  | S754_finite s _ _ | S754_infinity s => s = sx
  | _ => False
  end.
Proof.
  unfold binary_round.
  destruct (shl_align q 0 (fexp 53 1024 (Zpos (digits2_pos q) + 0)))
    as [mz ez] eqn:Ea.
  assert (Hez : -1074 <= ez).
  { revert Ea. unfold shl_align, fexp, emin.
    destruct (Z.max (Zpos (digits2_pos q) + 0 - 53) (3 - 1024 - 53) - 0)
      eqn:E; intros [= <- <-]; lia. }
  unfold binary_round_aux.
  destruct (shr_fexp_positive mz ez loc_Exact Hez) as [H1 H1'].
  destruct (shr_fexp 53 1024 (Zpos mz) ez loc_Exact) as [mrs' e'].
  cbn [fst snd] in H1, H1'.
  pose proof (round_nearest_even_positive _ (loc_of_shr_record mrs') H1)
    as Hr.
  destruct (round_nearest_even (shr_m mrs') (loc_of_shr_record mrs'))
    as [|r|r]; try lia.
  destruct (shr_fexp_positive r e' loc_Exact H1') as [H2 _].
  destruct (shr_fexp 53 1024 (Zpos r) e' loc_Exact) as [mrs'' e''].
  cbn [fst] in H2.
  destruct (shr_m mrs'') as [|m|m]; try lia.
  destruct (e'' <=? 1024 - 53); reflexivity.
Qed.

(** The float of an integer has the sign of the integer, and is zero only
    for zero. *)
Lemma float_of_Z_sign (n : Z) :
  match float_of_Z n with
  | S754_zero s => s = false /\ n = 0
  | S754_finite s _ _ | S754_infinity s => s = (n <? 0) /\ n <> 0
  | S754_nan => False
  end.
Proof.
  unfold float_of_Z, binary_normalize. destruct n as [|p|p].
  - split; reflexivity.
  - pose proof (binary_round_sign false p) as H.
    destruct (binary_round 53 1024 false p 0); try tauto;
      (split; [exact H | discriminate]).
  - pose proof (binary_round_sign true p) as H.
    destruct (binary_round 53 1024 true p 0); try tauto;
      (split; [exact H | discriminate]).
Qed.

Section IntegerFacts.
Context {R : Runtime}.

(** An integer fails a float field with [ge=0] when it is negative, or too
    large for a float. *)
Lemma constrained_int (n : Z) :
  Product.constrained validate_float (ge 0) (VInt n) = None <->
  n < 0 \/ exists s, float_of_Z n = S754_infinity s.
Proof.
  unfold Product.constrained. cbn [validate_float].
  pose proof (float_of_Z_sign n) as H.
  destruct (float_of_Z n) as [s|s| |s m e].
  - destruct H as [-> ->]. cbn. split; [discriminate|].
    intros [H|[s H]]; [lia | discriminate].
  - split; eauto.
  - destruct H.
  - destruct H as [-> _]. rewrite ge_zero. cbn [below_zero].
    destruct (n <? 0) eqn:E; cbn.
    + apply Z.ltb_lt in E. tauto.
    + apply Z.ltb_ge in E. split; [discriminate|].
      intros [H|[s H]]; [lia | discriminate].
Qed.

Lemma price_offends (body : pydict) :
  In "price" (Product.errors body) <-> Product.v_price body = None.
Proof.
  rewrite errors_spec. split.
  - intros H. repeat (destruct H as [[E H]|H]; try discriminate; auto).
    destruct H; discriminate.
  - tauto.
Qed.

Lemma sale_price_offends (body : pydict) :
  In "sale_price" (Product.errors body) <-> Product.v_sale_price body = None.
Proof.
  rewrite errors_spec. split.
  - intros H. repeat (destruct H as [[E H]|H]; try discriminate; auto).
    destruct H as [_ H]. exact H.
  - tauto.
Qed.

End IntegerFacts.

(** X19. A price sent as an integer offends exactly when the integer is
    negative or its conversion to a float overflows to infinity. The same
    holds of a sale_price sent as an integer. *)
Theorem integer_price_is_signed :
  forall (R : Runtime) (body : pydict),
    (forall n,
       lookup body "price" = Some (VInt n) ->
       (In "price" (Product.errors body) <->
        n < 0 \/ exists s, float_of_Z n = S754_infinity s)) /\
    (forall n,
       lookup body "sale_price" = Some (VInt n) ->
       (In "sale_price" (Product.errors body) <->
        n < 0 \/ exists s, float_of_Z n = S754_infinity s)).
Proof.
  intros R body. split; intros n Hn.
  - rewrite price_offends. unfold Product.v_price, Product.required.
    rewrite Hn. apply constrained_int.
  - rewrite sale_price_offends.
    unfold Product.v_sale_price, Product.defaulted. rewrite Hn.
    cbn [validate_optional]. rewrite <- constrained_int.
    destruct (Product.constrained validate_float (ge 0) (VInt n)); cbn;
      split; congruence.
Qed.

(** The theorem at the prices -5 and 1000. *)
Lemma integer_price_is_signed_witness :
  lookup debit "price" = Some (VInt (-5)) /\
  lookup nameless "price" = Some (VInt 1000) /\
  (forall R : Runtime,
     In "price" (Product.errors debit) /\
     ~ In "price" (Product.errors nameless)).
Proof.
  split; [reflexivity|]. split; [reflexivity|]. intros R.
  destruct (integer_price_is_signed R debit) as (Hd & _).
  destruct (integer_price_is_signed R nameless) as (Hn & _).
  split.
  - apply (Hd (-5) eq_refl). left. lia.
  - intros H. apply (Hn 1000 eq_refl) in H.
    destruct H as [H|[s H]]; [lia | discriminate].
Defined.

(** ** The product that is found *)

Section FoundFacts.
Context {R : Runtime}.

Lemma find_first {A} (f : A -> bool) (before after : list A) (x : A) :
  Forall (fun y => f y = false) before -> f x = true ->
  List.find f (before ++ x :: after) = Some x.
Proof.
  intros Hb Hx. induction Hb as [|y before Hy _ IH]; cbn [app List.find].
  - now rewrite Hx.
  - now rewrite Hy.
Qed.

End FoundFacts.

(** X20. With a store connected and a well-formed identifier,
    [get_product] answers with the serialisation of the first product
    document that carries the identifier, in lower case, as its ["_id"],
    whatever that serialisation gives: the store is asked once and left
    as it was, and when the document is not serialised the request fails
    with the error that [serialize_product] raised, which is neither the
    400 nor the 404 of the handler (its status is 500), the [try]
    covering the lookup alone. *)
Theorem found_product_is_serialised :
  forall (R : Runtime) (product_id : string) (w : world) (d : database)
         (before after : list pydict) (doc : pydict),
    db w = Some d ->
    well_formed product_id = true ->
    collection d "product" = (before ++ doc :: after)%list ->
    Forall (fun x => has_id (VObjectId (fold_case product_id)) x = false)
      before ->
    lookup doc "_id" = Some (VObjectId (fold_case product_id)) ->
    get_product product_id w
    = (serialize_product doc,
       {| db := Some d;
          calls := (calls w ++
                    [FindOne "product"
                       [("_id", VObjectId (fold_case product_id))]])%list |})
    /\
    (forall e,
       serialize_product doc = Raise e ->
       fst (get_product product_id w) = Raise e /\ status_of e = 500).
Proof.
  intros R product_id w d before after doc Hdb Hwf Hc Hb Hid.
  assert (Hg : get_product product_id w
               = (serialize_product doc,
                  {| db := Some d;
                     calls := (calls w ++
                               [FindOne "product"
                                  [("_id", VObjectId (fold_case product_id))]])
                              %list |})).
  { rewrite (get_product_connected _ _ d Hdb).
    rewrite (ObjectId_well_formed _ Hwf). cbv zeta.
    rewrite Hc, (find_first _ before after doc Hb); [reflexivity|].
    unfold has_id. rewrite Hid. unfold equal_match. cbn [value_eqb].
    now rewrite String.eqb_refl. }
  split; [exact Hg|].
  intros e He. rewrite Hg, He. split; [reflexivity|].
  now apply (serialize_product_error doc).
Qed.

(** The theorem on a store of two products, the second without title. *)
Lemma found_product_is_serialised_witness :
  db (connected backroom) = Some backroom /\
  well_formed "65F0A1B2C3D4E5F601234568" = true /\
  collection backroom "product" = ([tee] ++ untitled' :: [])%list /\
  lookup untitled' "_id" = Some (VObjectId "65f0a1b2c3d4e5f601234568") /\
  (forall R : Runtime,
     fst (get_product "65F0A1B2C3D4E5F601234568" (connected backroom))
     = Raise (ValidationError ["title"])).
Proof.
  split; [reflexivity|]. split; [reflexivity|]. split; [reflexivity|].
  split; [reflexivity|]. intros R.
  destruct (found_product_is_serialised R "65F0A1B2C3D4E5F601234568"
              (connected backroom) backroom [tee] [] untitled'
              eq_refl eq_refl eq_refl) as [H _].
  - repeat constructor.
  - reflexivity.
  - now rewrite H.
Defined.
